(** * Verification of the polling-page scraper (scraper.py)

    A shallow embedding of the extraction and scoring core of
    [scraper.py]: the text relevance scorer, the image selection, the
    header flattening, the table scoring and selection, the filename
    sanitizer and the row normalizer.

    Python [str] values are modelled as [string]; a character is a code
    point below 256.  Python [int] is [Z].  A Python [dict] is an
    association list in insertion order with pairwise distinct keys. *)

From Stdlib Require Import ZArith List Bool Lia.
From Stdlib Require Import Strings.String Strings.Ascii Numbers.DecimalString.
Import ListNotations.

Open Scope string_scope.
Open Scope Z_scope.

(** ** Python built-ins used by the scraper *)

Module Py.

(** [c.isspace()] for a code point below 256. *)
Definition isspace (c : ascii) : bool :=
  let n := nat_of_ascii c in
  ((9 <=? n) && (n <=? 13) || (28 <=? n) && (n <=? 32)
   || (n =? 133) || (n =? 160))%nat.

(** [c.lower()] for a code point below 256: the ASCII capitals and the
    Latin-1 capitals (all of 192..222 but the multiplication sign). *)
Definition lower_char (c : ascii) : ascii :=
  let n := nat_of_ascii c in
  if ((65 <=? n) && (n <=? 90)
      || (192 <=? n) && (n <=? 222) && negb (n =? 215))%nat
  then ascii_of_nat (n + 32) else c.

(** [s.lower()] *)
Fixpoint lower (s : string) : string :=
  match s with
  | EmptyString => EmptyString
  | String c s' => String (lower_char c) (lower s')
  end.

(** [s.startswith(p)] *)
Fixpoint startswith (p s : string) : bool :=
  match p, s with
  | EmptyString, _ => true
  | String _ _, EmptyString => false
  | String a p', String b s' => Ascii.eqb a b && startswith p' s'
  end.

(** [needle in hay] *)
Fixpoint contains (needle hay : string) : bool :=
  startswith needle hay
  || match hay with
     | EmptyString => false
     | String _ hay' => contains needle hay'
     end.

(** [s.lstrip()], [s.rstrip()], [s.strip()] *)
Fixpoint lstrip (s : string) : string :=
  match s with
  | EmptyString => EmptyString
  | String c s' => if isspace c then lstrip s' else s
  end.

Fixpoint rstrip (s : string) : string :=
  match s with
  | EmptyString => EmptyString
  | String c s' =>
      match rstrip s' with
      | EmptyString => if isspace c then EmptyString else String c EmptyString
      | r => String c r
      end
  end.

Definition strip (s : string) : string := rstrip (lstrip s).

(** [sep.join(parts)] *)
Fixpoint join (sep : string) (parts : list string) : string :=
  match parts with
  | [] => EmptyString
  | [p] => p
  | p :: rest => p ++ sep ++ join sep rest
  end.

(** Truth value of a [str]: non-empty. *)
Definition truthy (s : string) : bool :=
  match s with EmptyString => false | _ => true end.

(** [s or None] *)
Definition or_None (s : string) : option string :=
  if truthy s then Some s else None.

(** [o or ""] for [o : str | None] *)
Definition or_empty (o : option string) : string :=
  match o with Some s => s | None => EmptyString end.

(** [max(xs, key=key)] on a non-empty sequence [x :: xs]: the running
    maximum is replaced only by a strictly greater key. *)
Fixpoint max_from {A : Type} (key : A -> Z) (best : A) (xs : list A) : A :=
  match xs with
  | [] => best
  | x :: xs' =>
      if key x >? key best then max_from key x xs' else max_from key best xs'
  end.

(** [xs.sort(key=key, reverse=True)]: the stable sort by descending key.
    Built by insertion from the right, an element going in front of the
    first element whose key is not greater than its own. *)
Fixpoint insert_desc {A : Type} (key : A -> Z) (x : A) (l : list A) : list A :=
  match l with
  | [] => [x]
  | y :: l' => if key y >? key x then y :: insert_desc key x l' else x :: l
  end.

Fixpoint sort_desc {A : Type} (key : A -> Z) (l : list A) : list A :=
  match l with
  | [] => []
  | x :: l' => insert_desc key x (sort_desc key l')
  end.

(** A [dict] with [str] keys: insertion-ordered association list.
    [d[k] = v] overwrites the value of an existing key in place and
    appends a new key at the end. *)
Definition dict (V : Type) : Type := list (string * V).

Fixpoint setitem {V : Type} (d : dict V) (k : string) (v : V) : dict V :=
  match d with
  | [] => [(k, v)]
  | (k', v') :: d' =>
      if String.eqb k' k then (k', v) :: d' else (k', v') :: setitem d' k v
  end.

Fixpoint getitem {V : Type} (d : dict V) (k : string) : option V :=
  match d with
  | [] => None
  | (k', v') :: d' => if String.eqb k' k then Some v' else getitem d' k
  end.

Definition keys {V : Type} (d : dict V) : list string := map fst d.

(** One step of building a dict from pairs: [d[k] = v] for the pair
    [(k, v)]. *)
Definition store {V : Type} (d : dict V) (kv : string * V) : dict V :=
  setitem d (fst kv) (snd kv).

(** [dict(pairs)] and the dict comprehension [{k: v for k, v in pairs}]. *)
Definition dict_of {V : Type} (pairs : list (string * V)) : dict V :=
  fold_left store pairs [].

End Py.

(** ** The parsed page, as the scraper queries it (BeautifulSoup) *)

Module Bs4.

(** An [<img>] tag: [img.get("src")] and [img.get("alt")]. *)
Record Img : Type := { src : option string; alt : option string }.

(** A figure or thumbnail container: [container.select_one("img")] and,
    when [container.select_one("figcaption, .thumbcaption")] finds an
    element, its [get_text(" ", strip=True)]. *)
Record Container : Type :=
  { img : option Img; caption_el : option string }.

(** [soup.select("figure, div.thumb, .thumbinner")] and
    [soup.select("#mw-content-text img")], both in document order. *)
Record Soup : Type :=
  { containers : list Container; content_imgs : list Img }.

End Bs4.

(** ** Parsed tables (pandas) *)

Module Pandas.

(** A scalar held by a header cell or a data cell.  [Obj shown] is any
    other non-missing object (a float, a timestamp), given by its
    [str()]. *)
Inductive value : Type :=
| NaN
| PyNone
| Str (s : string)
| Int (z : Z)
| Obj (shown : string).

(** [str(v)] *)
Definition str (v : value) : string :=
  match v with
  | NaN => "nan"
  | PyNone => "None"
  | Str s => s
  | Int z => NilZero.string_of_int (Z.to_int z)
  | Obj shown => shown
  end.

(** [pd.isna(v)] *)
Definition isna (v : value) : bool :=
  match v with NaN | PyNone => true | _ => false end.

(** [df.columns]: a flat [Index] of labels or a [MultiIndex] of tuples
    of level values. *)
Inductive Columns : Type :=
| Index (labels : list value)
| MultiIndex (tuples : list (list value)).

Definition ncols (c : Columns) : nat :=
  match c with
  | Index labels => List.length labels
  | MultiIndex tuples => List.length tuples
  end.

Record DataFrame : Type :=
  { columns : Columns; data : list (list value) }.

(** A frame is rectangular: every row has one cell per column. *)
Definition rectangular (df : DataFrame) : bool :=
  forallb (fun row => Nat.eqb (List.length row) (ncols (columns df))) (data df).

(** [len(df)] *)
Definition len (df : DataFrame) : Z := Z.of_nat (List.length (data df)).

(** [df.fillna(fill)] on the cells. *)
Definition fillna (fill : value) (cells : list (list value))
  : list (list value) :=
  map (map (fun v => if isna v then fill else v)) cells.

(** [df.to_dict(orient="records")] of a frame whose labels are [labels]:
    one [dict(zip(labels, row))] per row. *)
Definition to_dict_records (labels : list string)
    (cells : list (list value)) : list (Py.dict value) :=
  map (fun row => Py.dict_of (combine labels row)) cells.

End Pandas.

(** ** scraper.py *)

(** A raised exception: its class and its message. *)
Record exn : Type := Raise { exn_class : string; exn_msg : string }.

Definition ValueError (msg : string) : exn := Raise "ValueError" msg.

Module Scraper.

Import Bs4 Pandas.

(** [normalize_img_url(src)] *)
Definition normalize_img_url (src : string) : string :=
  if Py.startswith "//" src then "https:" ++ src else src.

(** [score_graph_candidate(text)] *)
Definition score_graph_candidate (text : string) : Z :=
  let t := Py.lower text in
  let score := 0 in
  let score := if Py.contains "opinion" t then score + 2 else score in
  let score := if Py.contains "poll" t then score + 3 else score in
  let score :=
    if Py.contains "graph" t || Py.contains "chart" t
    then score + 1 else score in
  let score :=
    if Py.contains "next united kingdom" t
       || Py.contains "general election" t
    then score + 2 else score in
  score.

(** [flatten_columns(columns)] *)
Definition flatten_columns (columns : Columns) : list string :=
  match columns with
  | MultiIndex tuples =>
      fold_left
        (fun flat tup =>
           let parts :=
             map (fun x => Py.strip (str x))
               (filter
                  (fun x => Py.truthy (Py.strip (str x))
                            && negb (String.eqb (str x) "nan"))
                  tup) in
           (flat ++ [match parts with
                     | [] => "column"
                     | _ => Py.join " | " parts
                     end])%list)
        tuples []
  | Index labels => map (fun col => Py.strip (str col)) labels
  end.

(** [score_table(df)] *)
Definition score_table (df : DataFrame) : Z :=
  let columns := Py.lower (Py.join " " (flatten_columns (columns df))) in
  let score := 0 in
  let score :=
    fold_left
      (fun score token =>
         if Py.contains token columns then score + 2 else score)
      ["poll"; "pollster"; "date"; "fieldwork"] score in
  let score :=
    fold_left
      (fun score token =>
         if Py.contains token columns then score + 1 else score)
      ["con"; "conservative"; "lab"; "labour"; "ld"; "lib dem"; "reform"]
      score in
  let score := if len df >=? 5 then score + 1 else score in
  score.

(** The character class [[A-Za-z0-9._-]] of the sanitizer's pattern. *)
Definition in_class (c : ascii) : bool :=
  let n := nat_of_ascii c in
  ((65 <=? n) && (n <=? 90) || (97 <=? n) && (n <=? 122)
   || (48 <=? n) && (n <=? 57)
   || (n =? 46) || (n =? 95) || (n =? 45))%nat.

(** [re.sub(r"[^A-Za-z0-9._-]+", "_", name)]: a left-to-right scan in
    which a match, once opened by a character outside the class, takes
    every following character outside the class; [in_match] tells
    whether the previous character belongs to an open match. *)
Fixpoint re_sub (in_match : bool) (name : string) : string :=
  match name with
  | EmptyString => EmptyString
  | String c rest =>
      if in_class c then String c (re_sub false rest)
      else if in_match then re_sub true rest
      else String "_" (re_sub true rest)
  end.

(** [p.split("/")] *)
Fixpoint split_slash (p : string) : list string :=
  match p with
  | EmptyString => [EmptyString]
  | String c rest =>
      if Ascii.eqb c "/" then EmptyString :: split_slash rest
      else match split_slash rest with
           | part :: parts => String c part :: parts
           | [] => [String c EmptyString]
           end
  end.

(** [Path(p).name] (POSIX flavour): the last component of the path once
    the empty components and the ["."] components are dropped, [""] when
    none is left. *)
Definition path_name (p : string) : string :=
  last
    (filter (fun x => Py.truthy x && negb (String.eqb x "."))
       (split_slash p))
    EmptyString.

(** The candidates of the first pass: score, resolved URL, caption. *)
Definition candidate : Type := Z * string * option string.

Section Collaborators.

(** Library functions the scraper calls and this development leaves
    open: [urllib.parse.urljoin], the [path] of
    [urllib.parse.urlparse], and [pandas.read_html], which may
    raise. *)
Variable urljoin : string -> string -> string.
Variable urlparse_path : string -> string.
Variable read_html : string -> exn + list DataFrame.

(** The loop of [extract_graph] over the containers. *)
Fixpoint primary_pass (page_url : string) (cs : list Container)
  : list candidate :=
  match cs with
  | [] => []
  | container :: cs' =>
      match img container with
      | None => primary_pass page_url cs'
      | Some im =>
          match src im with
          | None => primary_pass page_url cs'
          | Some s =>
              if negb (Py.truthy s) then primary_pass page_url cs' else
              let alt_text := Py.or_empty (alt im) in
              let caption := Py.or_empty (caption_el container) in
              let context := Py.strip (alt_text ++ " " ++ caption) in
              let score := score_graph_candidate context in
              if score <=? 0 then primary_pass page_url cs' else
              (score, urljoin page_url (normalize_img_url s),
               Py.or_None caption) :: primary_pass page_url cs'
          end
      end
  end.

(** The fallback loop of [extract_graph] over the article images. *)
Fixpoint fallback_pass (page_url : string) (imgs : list Img)
  : option string * option string :=
  match imgs with
  | [] => (None, None)
  | im :: imgs' =>
      let alt_text := Py.lower (Py.or_empty (alt im)) in
      if Py.contains "poll" alt_text && Py.truthy (Py.or_empty (src im))
      then (Some (urljoin page_url
                    (normalize_img_url (Py.or_empty (src im)))),
            alt im)
      else fallback_pass page_url imgs'
  end.

(** [extract_graph(soup, page_url)] *)
Definition extract_graph (soup : Soup) (page_url : string)
  : option string * option string :=
  match primary_pass page_url (containers soup) with
  | [] => fallback_pass page_url (content_imgs soup)
  | (first :: _) as candidates =>
      let sorted := Py.sort_desc (fun item => fst (fst item)) candidates in
      let '(_, img_url, caption) := hd first sorted in
      (Some img_url, caption)
  end.

(** [extract_table(html)] *)
Definition extract_table (html : string)
  : exn + (option string * DataFrame) :=
  match read_html html with
  | inl e => inl e
  | inr tables =>
      match tables with
      | [] => inl (ValueError "No tables found on page")
      | t :: ts =>
          let best_df := Py.max_from score_table t ts in
          let best_score := score_table best_df in
          if best_score <? 4
          then inl (ValueError
                      "Could not confidently identify polling table")
          else inr (Some "Wikipedia polling table (auto-detected)",
                    best_df)
      end
  end.

(** [sanitize_filename_from_url(url)] *)
Definition sanitize_filename_from_url (url : string) : string :=
  let name := path_name (urlparse_path url) in
  let name := if Py.truthy name then name else "graph" in
  let name := re_sub false name in
  if negb (Py.contains "." name) then name ++ ".img" else name.

End Collaborators.

(** [dataframe_to_rows(df)] *)
Definition dataframe_to_rows (df : DataFrame)
  : list string * list (Py.dict string) :=
  let labels := flatten_columns (columns df) in
  let cells := fillna (Str "") (data df) in
  let rows :=
    map (fun row : Py.dict value =>
           Py.dict_of
             (map (fun kv =>
                     (fst kv,
                      if isna (snd kv) then "" else str (snd kv)))
                row))
      (to_dict_records labels cells) in
  (labels, rows).

End Scraper.

(** ** scraper.py: requests, files and the entry point

    The functions that talk to the network, the file system and the
    terminal are programs over a trace of the operations started so far;
    what each operation answers is given by a [World]. *)

Module Io.

Import Bs4 Pandas.

(** An absolute path, as its components. [p / name] and [p.name] are
    those of [pathlib] for a [name] that is a single component. *)
Definition Path : Type := list string.

Definition div (p : Path) (name : string) : Path := (p ++ [name])%list.

Definition name (p : Path) : string := last p "".

(** [str(p)] *)
Definition path_str (p : Path) : string := "/" ++ Py.join "/" p.

(** [s.rfind(".")], [None] standing for -1. *)
Fixpoint rfind_dot (s : string) : option nat :=
  match s with
  | EmptyString => None
  | String c s' =>
      match rfind_dot s' with
      | Some i => Some (S i)
      | None => if Ascii.eqb c "." then Some O else None
      end
  end.

(** [p.suffix] on the name of [p] (Python 3.13 and earlier): the name
    from its last dot on, unless that dot is the first or the last
    character of the name. *)
Definition suffix_of (n : string) : string :=
  match rfind_dot n with
  | Some i =>
      if (Nat.ltb 0 i && Nat.ltb i (String.length n - 1))%bool
      then String.substring i (String.length n - i) n
      else ""
  | None => ""
  end.

Definition suffix (p : Path) : string := suffix_of (name p).

(** [s.split(sep)[0]] *)
Fixpoint before_first (sep : ascii) (s : string) : string :=
  match s with
  | EmptyString => EmptyString
  | String c r =>
      if Ascii.eqb c sep then EmptyString else String c (before_first sep r)
  end.

(** A [requests] response: what [raise_for_status()] raises, if anything,
    [resp.text] and [resp.content]. *)
Record Response : Type :=
  { status_error : option exn; text : string; content : string }.

Record Session : Type := { headers : Py.dict string }.

(** The operations the scraper starts. *)
Inductive event : Type :=
| Mkdir (p : Path)
| Get (headers : Py.dict string) (url : string) (timeout : Z)
| WriteBytes (p : Path) (data : string)
| WriteText (p : Path) (data : string)
| Print (line : string).

Definition ScrapeRow : Type := Py.dict string.

(** The JSON object [main] saves. *)
Record GraphPart : Type :=
  { remote_url : option string;
    local_path : option string;
    caption : option string }.

Record TablePart : Type :=
  { title : option string;
    columns : list string;
    rows : list ScrapeRow;
    row_count : Z }.

Record Payload : Type :=
  { source_url : string;
    fetched_at : string;
    graph : GraphPart;
    table : TablePart;
    notes : list string }.

(** [ScrapeResult] *)
Record ScrapeResult : Type :=
  { r_source_url : string;
    r_fetched_at : string;
    r_graph_remote_url : option string;
    r_graph_local_path : option string;
    r_graph_caption : option string;
    r_table_title : option string;
    r_table_columns : list string;
    r_table_rows : list ScrapeRow;
    r_notes : list string }.

(** What surrounds the program. The answers of the network and of the
    file system may depend on everything started before. *)
Record World : Type :=
  { (* headers of a fresh [requests.Session()] *)
    default_headers : Py.dict string;
    (* [session.get(url, timeout=30)] *)
    get_result : list event -> string -> exn + Response;
    (* the exception a file operation or a print raises, if any *)
    fs_error : list event -> event -> option exn;
    (* [urllib.parse.urljoin(base, url)], which raises on a malformed
       URL *)
    urljoin : string -> string -> exn + string;
    urlparse_path : string -> string;
    read_html : string -> exn + list DataFrame;
    (* [BeautifulSoup(html, "lxml")] *)
    make_soup : string -> exn + Soup;
    (* [json.dumps(payload, indent=2, ensure_ascii=False)] *)
    json_dumps : Payload -> string;
    (* [Path(__file__).resolve().parent] *)
    script_dir : Path;
    (* [os.environ.get("WIKI_PAGE_URL")] *)
    env_page_url : option string;
    (* [datetime.now(timezone.utc).replace(microsecond=0).isoformat()] *)
    utc_now : string }.

Definition DEFAULT_PAGE_URL : string :=
  "https://en.wikipedia.org/wiki/"
  ++ "Opinion_polling_for_the_next_United_Kingdom_general_election".

Definition USER_AGENT : string :=
  "UKPollingSiteBot/0.1 (educational project; contact via repo issues) "
  ++ "requests-python".

(** Programs: from the trace so far to a result, or a raised exception,
    and the trace after. *)
Definition M (A : Type) : Type := list event -> (exn + A) * list event.

Definition ret {A : Type} (a : A) : M A := fun log => (inr a, log).

Definition raise {A : Type} (e : exn) : M A := fun log => (inl e, log).

Definition bind {A B : Type} (m : M A) (k : A -> M B) : M B :=
  fun log =>
    match m log with
    | (inl e, log') => (inl e, log')
    | (inr a, log') => k a log'
    end.

(** A pure call that may raise. *)
Definition lift {A : Type} (r : exn + A) : M A :=
  match r with inl e => raise e | inr a => ret a end.

(** [try: body except Exception as exc: handler(exc)]; every exception of
    the operations modelled here is an [Exception]. *)
Definition try_except {A : Type} (body : M A) (handler : exn -> M A) : M A :=
  fun log =>
    match body log with
    | (inl exc, log') => handler exc log'
    | (inr a, log') => (inr a, log')
    end.

(** A file operation or a print: it is recorded, and raises what the
    world says. *)
Definition perform (w : World) (ev : event) : M unit :=
  fun log =>
    (match fs_error w log ev with Some e => inl e | None => inr tt end,
     (log ++ [ev])%list).

Declare Scope io_scope.
Delimit Scope io_scope with io.
Notation "x <- m ;; k" := (bind m (fun x => k))
  (at level 61, m at next level, right associativity) : io_scope.
Notation "m ;; k" := (bind m (fun _ => k))
  (at level 61, right associativity) : io_scope.

Local Open Scope io_scope.

(** [get_session()]; header names are compared as they are spelt, and
    the defaults of [requests] spell this one "User-Agent". *)
Definition get_session (w : World) : Session :=
  {| headers := Py.setitem (default_headers w) "User-Agent" USER_AGENT |}.

(** [session.get(url, timeout=30)] *)
Definition session_get (w : World) (session : Session) (url : string)
  : M Response :=
  fun log =>
    (get_result w log url, (log ++ [Get (headers session) url 30])%list).

(** [resp.raise_for_status()] *)
Definition raise_for_status (resp : Response) : M unit :=
  match status_error resp with Some e => raise e | None => ret tt end.

(** [fetch_html(session, url)] *)
Definition fetch_html (w : World) (session : Session) (url : string)
  : M string :=
  resp <- session_get w session url ;;
  raise_for_status resp ;;
  ret (text resp).

(** The loop of [extract_graph] over the containers, [urljoin] being
    called, and possibly raising, for each container that is kept, in
    document order. *)
Fixpoint primary_pass (urljoin : string -> string -> exn + string)
    (page_url : string) (cs : list Container)
  : exn + list Scraper.candidate :=
  match cs with
  | [] => inr []
  | container :: cs' =>
      match img container with
      | None => primary_pass urljoin page_url cs'
      | Some im =>
          match src im with
          | None => primary_pass urljoin page_url cs'
          | Some s =>
              if negb (Py.truthy s) then primary_pass urljoin page_url cs'
              else
                let alt_text := Py.or_empty (alt im) in
                let caption := Py.or_empty (caption_el container) in
                let context := Py.strip (alt_text ++ " " ++ caption) in
                let score := Scraper.score_graph_candidate context in
                if score <=? 0 then primary_pass urljoin page_url cs'
                else
                  match urljoin page_url (Scraper.normalize_img_url s) with
                  | inl e => inl e
                  | inr url =>
                      match primary_pass urljoin page_url cs' with
                      | inl e => inl e
                      | inr rest =>
                          inr ((score, url, Py.or_None caption) :: rest)
                      end
                  end
          end
      end
  end.

(** The fallback loop of [extract_graph]: [urljoin] is called for the
    first accepted image only. *)
Fixpoint fallback_pass (urljoin : string -> string -> exn + string)
    (page_url : string) (imgs : list Img)
  : exn + (option string * option string) :=
  match imgs with
  | [] => inr (None, None)
  | im :: imgs' =>
      let alt_text := Py.lower (Py.or_empty (alt im)) in
      if Py.contains "poll" alt_text && Py.truthy (Py.or_empty (src im))
      then
        match urljoin page_url
                (Scraper.normalize_img_url (Py.or_empty (src im))) with
        | inl e => inl e
        | inr url => inr (Some url, alt im)
        end
      else fallback_pass urljoin page_url imgs'
  end.

(** [extract_graph(soup, page_url)] with a [urljoin] that may raise. *)
Definition extract_graph (urljoin : string -> string -> exn + string)
    (soup : Soup) (page_url : string)
  : exn + (option string * option string) :=
  match primary_pass urljoin page_url (containers soup) with
  | inl e => inl e
  | inr [] => fallback_pass urljoin page_url (content_imgs soup)
  | inr ((first :: _) as candidates) =>
      let sorted := Py.sort_desc (fun item => fst (fst item)) candidates in
      let '(_, img_url, caption) := hd first sorted in
      inr (Some img_url, caption)
  end.

(** [download_graph(session, graph_url, assets_dir)] *)
Definition download_graph (w : World) (session : Session)
    (graph_url : string) (assets_dir : Path) : M string :=
  perform w (Mkdir assets_dir) ;;
  let filename :=
    Scraper.sanitize_filename_from_url (urlparse_path w) graph_url in
  let local_path := div assets_dir filename in
  resp <- session_get w session graph_url ;;
  raise_for_status resp ;;
  perform w (WriteBytes local_path (content resp)) ;;
  let latest_ext :=
    if Py.truthy (suffix local_path) then suffix local_path else ".img" in
  let latest_path := div assets_dir ("graph-latest" ++ latest_ext) in
  perform w (WriteBytes latest_path (content resp)) ;;
  ret ("assets/" ++ name latest_path).

(** The directories [ensure_dirs] returns. *)
Record Dirs : Type :=
  { site : Path; data : Path; history : Path; assets : Path }.

(** [ensure_dirs(base)] *)
Definition ensure_dirs (w : World) (base : Path) : M Dirs :=
  let site_dir := div base "site" in
  let data_dir := div site_dir "data" in
  let history_dir := div data_dir "history" in
  let assets_dir := div site_dir "assets" in
  perform w (Mkdir site_dir) ;;
  perform w (Mkdir data_dir) ;;
  perform w (Mkdir history_dir) ;;
  perform w (Mkdir assets_dir) ;;
  ret {| site := site_dir; data := data_dir; history := history_dir;
         assets := assets_dir |}.

(** [save_json(path, payload)] *)
Definition save_json (w : World) (path : Path) (payload : Payload) : M unit :=
  perform w (WriteText path (json_dumps w payload ++ String "010" "")).

(** [main()] *)
Definition main (w : World) : M unit :=
  let base := script_dir w in
  paths <- ensure_dirs w base ;;
  let page_url :=
    match env_page_url w with Some u => u | None => DEFAULT_PAGE_URL end in
  let fetched_at := utc_now w in
  let notes : list string := [] in
  let session := get_session w in
  html <- fetch_html w session page_url ;;
  soup <- lift (make_soup w html) ;;
  found <- lift (extract_graph (urljoin w) soup page_url) ;;
  let '(graph_remote_url, graph_caption) := found in
  local_and_notes <-
    (if Py.truthy (Py.or_empty graph_remote_url)
     then
       try_except
         (p <- download_graph w session (Py.or_empty graph_remote_url)
                 (assets paths) ;;
          ret (Some p, notes))
         (fun exc =>
            ret (None,
                 (notes
                  ++ [("Graph download failed: " ++ exn_msg exc)%string])%list))
     else ret (None, (notes ++ ["Graph image not found on page"])%list)) ;;
  let '(graph_local_path, notes) := local_and_notes in
  title_and_df <- lift (Scraper.extract_table (read_html w) html) ;;
  let '(table_title, df) := title_and_df in
  let '(columns, rows) := Scraper.dataframe_to_rows df in
  let result :=
    {| r_source_url := page_url;
       r_fetched_at := fetched_at;
       r_graph_remote_url := graph_remote_url;
       r_graph_local_path := graph_local_path;
       r_graph_caption := graph_caption;
       r_table_title := table_title;
       r_table_columns := columns;
       r_table_rows := rows;
       r_notes := notes |} in
  let payload :=
    {| source_url := r_source_url result;
       fetched_at := r_fetched_at result;
       graph :=
         {| remote_url := r_graph_remote_url result;
            local_path := r_graph_local_path result;
            caption := r_graph_caption result |};
       table :=
         {| title := r_table_title result;
            columns := r_table_columns result;
            rows := r_table_rows result;
            row_count := Z.of_nat (List.length (r_table_rows result)) |};
       notes := r_notes result |} in
  let latest_path := div (data paths) "latest.json" in
  let date_key := before_first "T" fetched_at in
  let history_path := div (history paths) (date_key ++ ".json") in
  save_json w latest_path payload ;;
  save_json w history_path payload ;;
  perform w (Print ("Saved " ++ path_str latest_path)) ;;
  perform w (Print ("Saved " ++ path_str history_path)) ;;
  perform w
    (Print ("Rows: " ++ Pandas.str (Int (Z.of_nat (List.length rows))))) ;;
  if Py.truthy (Py.or_empty graph_local_path)
  then perform w (Print ("Graph: " ++ Py.or_empty graph_local_path))
  else ret tt.

End Io.

(** ** Specification vocabulary and sample inputs *)

(** [m] is the first element of [l] with the greatest key: every element
    before it has a strictly smaller key, no element after it a greater
    one. *)
Definition first_max {A : Type} (key : A -> Z) (m : A) (l : list A) : Prop :=
  exists pre post,
    l = (pre ++ m :: post)%list
    /\ Forall (fun x => key x < key m) pre
    /\ Forall (fun x => key x <= key m) post.

(** The phrases the scorer looks for. *)
Definition graph_phrases : list string :=
  ["opinion"; "poll"; "graph"; "chart"; "next united kingdom";
   "general election"].

(** No phrase occurs in the lower-cased text. *)
Definition matches_no_phrase (text : string) : bool :=
  forallb (fun p => negb (Py.contains p (Py.lower text))) graph_phrases.

Definition weight (w : Z) (hit : bool) : Z := if hit then w else 0.

Definition poll_tokens : list string := ["poll"; "pollster"; "date"; "fieldwork"].

Definition party_tokens : list string :=
  ["con"; "conservative"; "lab"; "labour"; "ld"; "lib dem"; "reform"].

(** The flattened header labels, joined and lower-cased. *)
Definition joined_header (df : Pandas.DataFrame) : string :=
  Py.lower (Py.join " " (Scraper.flatten_columns (Pandas.columns df))).

(** How many of [tokens] occur in [header]. *)
Definition hits (tokens : list string) (header : string) : Z :=
  Z.of_nat (List.length (filter (fun tok => Py.contains tok header) tokens)).

(** What [extract_table] raises. *)
Definition NoTablesFound : exn := ValueError "No tables found on page".

Definition NoConfidentTable : exn :=
  ValueError "Could not confidently identify polling table".

Definition table_title : option string :=
  Some "Wikipedia polling table (auto-detected)".

(** Two sample tables: a polling table of five rows and a generic table of
    two rows. *)
Definition polling_df : Pandas.DataFrame :=
  {| Pandas.columns :=
       Pandas.Index
         [Pandas.Str "Pollster"; Pandas.Str "Fieldwork dates";
          Pandas.Str "Con"; Pandas.Str "Lab"];
     Pandas.data :=
       repeat [Pandas.Str "YouGov"; Pandas.Str "1 Jan"; Pandas.Int 24;
               Pandas.Int 44] 5 |}.

Definition generic_df : Pandas.DataFrame :=
  {| Pandas.columns := Pandas.Index [Pandas.Str "Name"; Pandas.Str "Value"];
     Pandas.data :=
       [[Pandas.Str "a"; Pandas.Int 1]; [Pandas.Str "b"; Pandas.NaN]] |}.

(** A level of a multi-level header is kept when its trimmed string form
    is non-empty and its string form is not ["nan"]. *)
Definition level_kept (x : Pandas.value) : bool :=
  Py.truthy (Py.strip (Pandas.str x))
  && negb (String.eqb (Pandas.str x) "nan").

(** The label of one column of a multi-level header. *)
Definition flatten_tuple (tup : list Pandas.value) : string :=
  let parts :=
    map (fun x => Py.strip (Pandas.str x)) (filter level_kept tup) in
  match parts with
  | [] => "column"
  | _ => Py.join " | " parts
  end.

(** The multi-level rule in the words of the specification, the level
    strings being the trimmed string forms: join those that are neither
    empty nor ["nan"], and take ["column"] when none is left. *)
Definition spec_flatten_tuple (tup : list Pandas.value) : string :=
  let levels := map (fun x => Py.strip (Pandas.str x)) tup in
  let parts :=
    filter (fun s => negb (String.eqb s "") && negb (String.eqb s "nan"))
      levels in
  match parts with
  | [] => "column"
  | _ => Py.join " | " parts
  end.

(** The same rule, the level strings being the untrimmed string forms. *)
Definition spec_flatten_tuple_raw (tup : list Pandas.value) : string :=
  let levels := map Pandas.str tup in
  let parts :=
    filter (fun s => negb (String.eqb s "") && negb (String.eqb s "nan"))
      levels in
  match parts with
  | [] => "column"
  | _ => Py.join " | " parts
  end.

(** A level whose string form is ["nan"] once trimmed is ["nan"] already
    untrimmed. *)
Definition nan_unpadded (x : Pandas.value) : Prop :=
  Py.strip (Pandas.str x) = "nan" -> Pandas.str x = "nan".

(** Every character of [s] passes [p]. *)
Fixpoint all_chars (p : ascii -> bool) (s : string) : bool :=
  match s with
  | EmptyString => true
  | String c s' => p c && all_chars p s'
  end.

Definition no_slash (s : string) : bool :=
  all_chars (fun c => negb (Ascii.eqb c "/")) s.

(** [s] is empty or begins with a character of the class. *)
Definition starts_in_class (s : string) : bool :=
  match s with
  | EmptyString => true
  | String c _ => Scraper.in_class c
  end.

(** The extension rule: [".img"] is appended to a name without a dot. *)
Definition with_extension (name : string) : string :=
  if Py.contains "." name then name else name ++ ".img".

(** The filename in the words of the specification: the last segment of
    the path, sanitized, with the extension rule. *)
Definition spec_sanitize (path : string) : string :=
  with_extension (Scraper.re_sub false (Scraper.path_name path)).

(** The replacement read character by character: every character outside
    the class becomes one ["_"]. *)
Fixpoint replace_each (s : string) : string :=
  match s with
  | EmptyString => EmptyString
  | String c s' =>
      String (if Scraper.in_class c then c else "_"%char) (replace_each s')
  end.

Definition spec_sanitize_each (path : string) : string :=
  with_extension (replace_each (Scraper.path_name path)).

(** [urlparse(url).path] on the URLs used below. *)
Definition sample_urlparse_path (url : string) : string :=
  if String.eqb url "https://upload.example.org/w/images/Graph (final)!.svg"
  then "/w/images/Graph (final)!.svg"
  else if String.eqb url "https://en.wikipedia.org/" then "/"
  else url.

(** The elements of [l] in order, each at its first occurrence only, and
    none that is in [seen]. *)
Fixpoint first_occurrences (seen l : list string) : list string :=
  match l with
  | [] => []
  | x :: l' =>
      if existsb (String.eqb x) seen then first_occurrences seen l'
      else x :: first_occurrences (seen ++ [x]) l'
  end.

Definition dedup (l : list string) : list string := first_occurrences [] l.

(** The text of a cell: empty for a missing cell, the string form
    otherwise. *)
Definition cell_text (v : Pandas.value) : string :=
  if Pandas.isna v then "" else Pandas.str v.

(** The mapping made from one row of cells under the flattened labels. *)
Definition normalize_row (labels : list string) (row : list Pandas.value)
  : Py.dict string :=
  Py.dict_of (combine labels (map cell_text row)).

(** A frame whose two header tuples differ and flatten to one label. *)
Definition repeated_label_df : Pandas.DataFrame :=
  {| Pandas.columns :=
       Pandas.MultiIndex
         [[Pandas.Str "A | B"; Pandas.Str "C"];
          [Pandas.Str "A"; Pandas.Str "B | C"]];
     Pandas.data := [[Pandas.NaN; Pandas.Int 7]] |}.

(** The [src] and [alt] of the image of a container, empty when there is
    no image or no such attribute. *)
Definition container_src (c : Bs4.Container) : string :=
  match Bs4.img c with Some im => Py.or_empty (Bs4.src im) | None => "" end.

Definition container_alt (c : Bs4.Container) : string :=
  match Bs4.img c with Some im => Py.or_empty (Bs4.alt im) | None => "" end.

Definition container_caption (c : Bs4.Container) : string :=
  Py.or_empty (Bs4.caption_el c).

(** The combined alt and caption text of a container, and its score. *)
Definition context (c : Bs4.Container) : string :=
  Py.strip (container_alt c ++ " " ++ container_caption c).

Definition container_score (c : Bs4.Container) : Z :=
  Scraper.score_graph_candidate (context c).

(** A container qualifies in the first pass: it has an image with a
    non-empty source and its combined text scores above 0. *)
Definition qualifies (c : Bs4.Container) : bool :=
  Py.truthy (container_src c) && (0 <? container_score c).

(** What [extract_graph] returns when the container [c] wins. *)
Definition graph_of (urljoin : string -> string -> string)
    (page_url : string) (c : Bs4.Container)
  : option string * option string :=
  (Some (urljoin page_url (Scraper.normalize_img_url (container_src c))),
   Py.or_None (container_caption c)).

(** An article image the fallback pass accepts. *)
Definition fallback_match (im : Bs4.Img) : bool :=
  Py.contains "poll" (Py.lower (Py.or_empty (Bs4.alt im)))
  && Py.truthy (Py.or_empty (Bs4.src im)).

Definition candidate_of (urljoin : string -> string -> string)
    (page_url : string) (c : Bs4.Container)
  : Scraper.candidate :=
  (container_score c,
   urljoin page_url (Scraper.normalize_img_url (container_src c)),
   Py.or_None (container_caption c)).

(** [urljoin(base, url)] for an absolute [url], the only case the sample
    pages below exercise. *)
Definition sample_urljoin (base url : string) : string := url.

Definition figure (s a : string) (caption : option string) : Bs4.Container :=
  {| Bs4.img := Some {| Bs4.src := Some s; Bs4.alt := Some a |};
     Bs4.caption_el := caption |}.

(** A page whose second and third figures have the same combined text. *)
Definition tie_soup : Bs4.Soup :=
  {| Bs4.containers :=
       [figure "//upload.example.org/map.png" "Chart of seats" None;
        figure "//upload.example.org/first.svg" "Opinion polling"
          (Some "graph");
        figure "//upload.example.org/second.svg" "Opinion polling"
          (Some "graph")];
     Bs4.content_imgs := [] |}.

(** A page of two figures with the same combined text. *)
Definition twin_soup : Bs4.Soup :=
  {| Bs4.containers :=
       [figure "//upload.example.org/first.svg" "Opinion polling" None;
        figure "//upload.example.org/second.svg" "Opinion polling" None];
     Bs4.content_imgs := [] |}.

(** A page without figures whose only article image mentions polling and
    has no source. *)
Definition sourceless_soup : Bs4.Soup :=
  {| Bs4.containers := [];
     Bs4.content_imgs :=
       [{| Bs4.src := None; Bs4.alt := Some "Opinion poll chart" |}] |}.

(** A page whose only figure does not qualify and whose second article
    image mentions polling. *)
Definition fallback_soup : Bs4.Soup :=
  {| Bs4.containers :=
       [figure "//upload.example.org/logo.png" "Logo" (Some "Wikipedia")];
     Bs4.content_imgs :=
       [{| Bs4.src := Some "/static/logo.png"; Bs4.alt := None |};
        {| Bs4.src := Some "https://upload.example.org/p.svg";
           Bs4.alt := Some "UK Polling 2024" |}] |}.

(** The extension [download_graph] gives the latest copy of a file named
    [filename]. *)
Definition latest_ext (filename : string) : string :=
  if Py.truthy (Io.suffix_of filename) then Io.suffix_of filename else ".img".

(** [s] holds no dot. *)
Definition dotless (s : string) : bool :=
  all_chars (fun c => negb (Ascii.eqb c ".")) s.

(** Writes of bytes; writes of text and prints. *)
Definition is_write_bytes (ev : Io.event) : bool :=
  match ev with Io.WriteBytes _ _ => true | _ => false end.

Definition is_output (ev : Io.event) : bool :=
  match ev with Io.WriteText _ _ | Io.Print _ => true | _ => false end.

(** The four directories of the site under [base], and the operations
    [ensure_dirs] starts. *)
Definition site_dirs (base : Io.Path) : Io.Dirs :=
  {| Io.site := Io.div base "site";
     Io.data := Io.div (Io.div base "site") "data";
     Io.history := Io.div (Io.div (Io.div base "site") "data") "history";
     Io.assets := Io.div (Io.div base "site") "assets" |}.

Definition mkdir_events (base : Io.Path) : list Io.event :=
  [Io.Mkdir (Io.site (site_dirs base)); Io.Mkdir (Io.data (site_dirs base));
   Io.Mkdir (Io.history (site_dirs base));
   Io.Mkdir (Io.assets (site_dirs base))].

(** The page [main] fetches. *)
Definition page_url_of (w : Io.World) : string :=
  match Io.env_page_url w with Some u => u | None => Io.DEFAULT_PAGE_URL end.

(** What a [urljoin] that may raise returns, where it returns. *)
Definition returned (urljoin : string -> string -> exn + string)
    (base url : string) : string :=
  match urljoin base url with inr joined => joined | inl _ => "" end.

(** [urljoin] returns on the source of the image of [c], and on the
    source of [im]. *)
Definition joins_container (urljoin : string -> string -> exn + string)
    (page_url : string) (c : Bs4.Container) : bool :=
  match urljoin page_url (Scraper.normalize_img_url (container_src c)) with
  | inr _ => true
  | inl _ => false
  end.

Definition joins_img (urljoin : string -> string -> exn + string)
    (page_url : string) (im : Bs4.Img) : bool :=
  match urljoin page_url
          (Scraper.normalize_img_url (Py.or_empty (Bs4.src im))) with
  | inr _ => true
  | inl _ => false
  end.

(** The graph step of [main]: the local path of the downloaded image, if
    any, and the notes. *)
Definition graph_step (w : Io.World) (graph_remote_url : option string)
  : Io.M (option string * list string) :=
  if Py.truthy (Py.or_empty graph_remote_url)
  then
    Io.try_except
      (Io.bind
         (Io.download_graph w (Io.get_session w)
            (Py.or_empty graph_remote_url)
            (Io.assets (site_dirs (Io.script_dir w))))
         (fun p => Io.ret (Some p, @nil string)))
      (fun exc =>
         Io.ret (None, ["Graph download failed: " ++ exn_msg exc]))
  else Io.ret (None, ["Graph image not found on page"]).

(** The JSON object [main] saves for a page, its image and its table. *)
Definition payload_of (w : Io.World)
    (graph : option string * option string)
    (local_and_notes : option string * list string)
    (title : option string) (df : Pandas.DataFrame) : Io.Payload :=
  {| Io.source_url := page_url_of w;
     Io.fetched_at := Io.utc_now w;
     Io.graph :=
       {| Io.remote_url := fst graph;
          Io.local_path := fst local_and_notes;
          Io.caption := snd graph |};
     Io.table :=
       {| Io.title := title;
          Io.columns := fst (Scraper.dataframe_to_rows df);
          Io.rows := snd (Scraper.dataframe_to_rows df);
          Io.row_count :=
            Z.of_nat (List.length (snd (Scraper.dataframe_to_rows df))) |};
     Io.notes := snd local_and_notes |}.

(** The operations [main] starts once the table is extracted. *)
Definition save_events (w : Io.World) (payload : Io.Payload) : list Io.event :=
  let dirs := site_dirs (Io.script_dir w) in
  let latest := Io.div (Io.data dirs) "latest.json" in
  let dated :=
    Io.div (Io.history dirs)
      (Io.before_first "T" (Io.utc_now w) ++ ".json") in
  let text := Io.json_dumps w payload ++ String "010" "" in
  ([Io.WriteText latest text; Io.WriteText dated text;
    Io.Print ("Saved " ++ Io.path_str latest);
    Io.Print ("Saved " ++ Io.path_str dated);
    Io.Print
      ("Rows: "
       ++ Pandas.str
            (Pandas.Int (Z.of_nat (List.length (Io.rows (Io.table payload))))))]
   ++ match Io.local_path (Io.graph payload) with
      | Some p => if Py.truthy p then [Io.Print ("Graph: " ++ p)] else []
      | None => []
      end)%list.

(** The last steps of [main]: both JSON files, then the report on the
    terminal. *)
Definition save_and_report (w : Io.World) (payload : Io.Payload) : Io.M unit :=
  let dirs := site_dirs (Io.script_dir w) in
  let latest := Io.div (Io.data dirs) "latest.json" in
  let dated :=
    Io.div (Io.history dirs)
      (Io.before_first "T" (Io.utc_now w) ++ ".json") in
  Io.bind (Io.save_json w latest payload) (fun _ =>
  Io.bind (Io.save_json w dated payload) (fun _ =>
  Io.bind (Io.perform w (Io.Print ("Saved " ++ Io.path_str latest))) (fun _ =>
  Io.bind (Io.perform w (Io.Print ("Saved " ++ Io.path_str dated))) (fun _ =>
  Io.bind
    (Io.perform w
       (Io.Print
          ("Rows: "
           ++ Pandas.str
                (Pandas.Int
                   (Z.of_nat (List.length (Io.rows (Io.table payload)))))))) (fun _ =>
  if Py.truthy (Py.or_empty (Io.local_path (Io.graph payload)))
  then Io.perform w
         (Io.Print ("Graph: " ++ Py.or_empty (Io.local_path (Io.graph payload))))
  else Io.ret tt))))).

(** The request [main] makes for the page. *)
Definition page_request (w : Io.World) : Io.event :=
  Io.Get (Io.headers (Io.get_session w)) (page_url_of w) 30.

(** A sample world: the page and the image are served, every file
    operation succeeds. *)
Definition sample_world : Io.World :=
  {| Io.default_headers :=
       [("User-Agent", "python-requests/2"); ("Accept", "*/*")];
     Io.get_result :=
       fun _ url =>
         if String.eqb url "https://en.wikipedia.org/wiki/P"
         then inr {| Io.status_error := None; Io.text := "<html>";
                     Io.content := "" |}
         else inr {| Io.status_error := None; Io.text := "";
                     Io.content := "<svg/>" |};
     Io.fs_error := fun _ _ => None;
     Io.urljoin := fun base url => inr (sample_urljoin base url);
     Io.urlparse_path :=
       fun u =>
         if String.eqb u "https://upload.example.org/first.svg"
         then "/first.svg" else u;
     Io.read_html := fun _ => inr [generic_df; polling_df];
     Io.make_soup := fun _ => inr tie_soup;
     Io.json_dumps := fun p => Py.join "," (Io.notes p);
     Io.script_dir := ["srv"; "app"];
     Io.env_page_url := Some "https://en.wikipedia.org/wiki/P";
     Io.utc_now := "2026-11-04T12:00:00+00:00" |}.

(** The same world with the image server answering 404, and with a page
    that has no table to trust. *)
Definition offline_world : Io.World :=
  {| Io.default_headers := Io.default_headers sample_world;
     Io.get_result :=
       fun _ url =>
         if String.eqb url "https://en.wikipedia.org/wiki/P"
         then inr {| Io.status_error := None; Io.text := "<html>";
                     Io.content := "" |}
         else inr {| Io.status_error :=
                       Some (Raise "HTTPError" "404 Client Error");
                     Io.text := ""; Io.content := "" |};
     Io.fs_error := Io.fs_error sample_world;
     Io.urljoin := Io.urljoin sample_world;
     Io.urlparse_path := Io.urlparse_path sample_world;
     Io.read_html := Io.read_html sample_world;
     Io.make_soup := Io.make_soup sample_world;
     Io.json_dumps := Io.json_dumps sample_world;
     Io.script_dir := Io.script_dir sample_world;
     Io.env_page_url := Io.env_page_url sample_world;
     Io.utc_now := Io.utc_now sample_world |}.

(** A page whose only figure has a malformed source, and the sample
    world with the [urljoin] of the library on that source. *)
Definition malformed_soup : Bs4.Soup :=
  {| Bs4.containers := [figure "//[" "Opinion polling" None];
     Bs4.content_imgs := [] |}.

Definition strict_world : Io.World :=
  {| Io.default_headers := Io.default_headers sample_world;
     Io.get_result := Io.get_result sample_world;
     Io.fs_error := Io.fs_error sample_world;
     Io.urljoin :=
       fun base url =>
         if String.eqb url "https://["
         then inl (ValueError "Invalid IPv6 URL")
         else inr url;
     Io.urlparse_path := Io.urlparse_path sample_world;
     Io.read_html := Io.read_html sample_world;
     Io.make_soup := fun _ => inr malformed_soup;
     Io.json_dumps := Io.json_dumps sample_world;
     Io.script_dir := Io.script_dir sample_world;
     Io.env_page_url := Io.env_page_url sample_world;
     Io.utc_now := Io.utc_now sample_world |}.

Definition tableless_world : Io.World :=
  {| Io.default_headers := Io.default_headers sample_world;
     Io.get_result := Io.get_result sample_world;
     Io.fs_error := Io.fs_error sample_world;
     Io.urljoin := Io.urljoin sample_world;
     Io.urlparse_path := Io.urlparse_path sample_world;
     Io.read_html := fun _ => inr [generic_df];
     Io.make_soup := Io.make_soup sample_world;
     Io.json_dumps := Io.json_dumps sample_world;
     Io.script_dir := Io.script_dir sample_world;
     Io.env_page_url := Io.env_page_url sample_world;
     Io.utc_now := Io.utc_now sample_world |}.

(** ** Sample evaluations *)

Example lower_ex : Py.lower "Opinion POLL" = "opinion poll".
Proof. reflexivity. Qed.

Example strip_ex : Py.strip "  a b  " = "a b".
Proof. reflexivity. Qed.

Example score_ex :
  Scraper.score_graph_candidate
    "Opinion polling chart for the next United Kingdom general election" = 8.
Proof. reflexivity. Qed.

Example path_name_ex :
  Scraper.path_name "/w/images/Graph (final)!.svg" = "Graph (final)!.svg".
Proof. reflexivity. Qed.

Example sanitize_ex :
  Scraper.sanitize_filename_from_url (fun u => u) "/w/images/Graph (final)!.svg"
  = "Graph_final_.svg".
Proof. reflexivity. Qed.

Example sanitize_root :
  Scraper.sanitize_filename_from_url (fun u => u) "/" = "graph.img".
Proof. reflexivity. Qed.

Example flatten_ex :
  Scraper.flatten_columns
    (Pandas.MultiIndex
       [[Pandas.Str "Con"; Pandas.Str "%"];
        [Pandas.Str "Lab"; Pandas.Str "%"]])
  = ["Con | %"; "Lab | %"].
Proof. reflexivity. Qed.

Example rows_ex :
  Scraper.dataframe_to_rows repeated_label_df
  = (["A | B | C"; "A | B | C"], [[("A | B | C", "7")]]).
Proof. reflexivity. Qed.

(** ** Facts about the built-ins *)

Section Selection.

Context {A : Type} (key : A -> Z).

Lemma first_max_In (m : A) (l : list A) : first_max key m l -> In m l.
Proof.
  intros (pre & post & -> & _). apply in_or_app. right. now left.
Qed.

Lemma first_max_upper (m : A) (l : list A) :
  first_max key m l -> Forall (fun x => key x <= key m) l.
Proof.
  intros (pre & post & -> & Hpre & Hpost).
  apply Forall_app. split.
  - eapply Forall_impl; [| exact Hpre]. cbn. intros; lia.
  - constructor; [lia | exact Hpost].
Qed.

(** The first maximum is unique as a position, hence as an element. *)
Lemma first_max_unique (m m' : A) (l : list A) :
  first_max key m l -> first_max key m' l -> m = m'.
Proof.
  intros (pre & post & -> & Hpre & Hpost) (pre' & post' & E & Hpre' & Hpost').
  revert pre' E Hpre'. induction pre as [| a pre IH]; intros pre' E Hpre'.
  - destruct pre' as [| b pre']; cbn in E.
    + now injection E.
    + injection E as <- E. apply Forall_inv in Hpre'.
      assert (In m' post) as Hin
          by (rewrite E; apply in_or_app; right; now left).
      rewrite Forall_forall in Hpost. specialize (Hpost _ Hin). lia.
  - pose proof (Forall_inv Hpre) as Ha. cbn in Ha.
    apply Forall_inv_tail in Hpre.
    destruct pre' as [| b pre']; cbn in E.
    + injection E as <- E.
      assert (In m post') as Hin
          by (rewrite <- E; apply in_or_app; right; now left).
      rewrite Forall_forall in Hpost'. specialize (Hpost' _ Hin). lia.
    + injection E as <- E. apply Forall_inv_tail in Hpre'.
      now apply (IH Hpre pre').
Qed.

(** [max_from] either keeps the running maximum, nothing later being
    greater, or moves to a strictly greater first maximum of the rest. *)
Lemma max_from_cases (xs : list A) : forall best,
  (Py.max_from key best xs = best
   /\ Forall (fun x => key x <= key best) xs)
  \/ (key best < key (Py.max_from key best xs)
      /\ first_max key (Py.max_from key best xs) xs).
Proof.
  induction xs as [| x xs IH]; intros best; cbn.
  - left. split; [reflexivity | constructor].
  - destruct (Z.gtb_spec (key x) (key best)) as [Hgt | Hle].
    + right. destruct (IH x) as [[-> Hall] | [Hlt (pre & post & E & Hpre & Hpost)]].
      * split; [lia |]. exists [], xs. repeat split; auto.
      * split; [lia |]. exists (x :: pre), post.
        split; [cbn; now f_equal |]. split; [| exact Hpost].
        constructor; [lia | exact Hpre].
    + destruct (IH best) as [[-> Hall] | [Hlt (pre & post & E & Hpre & Hpost)]].
      * left. split; [reflexivity |]. constructor; [lia | exact Hall].
      * right. split; [exact Hlt |]. exists (x :: pre), post.
        split; [cbn; now f_equal |]. split; [| exact Hpost].
        constructor; [lia | exact Hpre].
Qed.

Lemma max_from_first_max (best : A) (xs : list A) :
  first_max key (Py.max_from key best xs) (best :: xs).
Proof.
  destruct (max_from_cases xs best)
    as [[-> Hall] | [Hlt (pre & post & E & Hpre & Hpost)]].
  - exists [], xs. repeat split; auto.
  - exists (best :: pre), post.
    split; [cbn; now f_equal |]. split; [| exact Hpost].
    constructor; [exact Hlt | exact Hpre].
Qed.

Lemma hd_insert_desc (d x : A) (l : list A) :
  hd d (Py.insert_desc key x l)
  = match l with
    | [] => x
    | y :: _ => if key y >? key x then y else x
    end.
Proof. destruct l as [| y l]; cbn; [| destruct (key y >? key x)]; reflexivity. Qed.

Lemma sort_desc_nil_inv (l : list A) : Py.sort_desc key l = [] -> l = [].
Proof.
  destruct l as [| x l]; [reflexivity |]. cbn.
  destruct (Py.sort_desc key l) as [| y s]; cbn; [discriminate |].
  destruct (key y >? key x); discriminate.
Qed.

(** The head of the stable descending sort is the first maximum. *)
Lemma hd_sort_desc_first_max (l : list A) : forall d x,
  first_max key (hd d (Py.sort_desc key (x :: l))) (x :: l).
Proof.
  induction l as [| y l IH]; intros d x.
  - exists [], []. repeat split; constructor.
  - change (Py.sort_desc key (x :: y :: l))
      with (Py.insert_desc key x (Py.sort_desc key (y :: l))).
    rewrite hd_insert_desc.
    specialize (IH x y).
    destruct (Py.sort_desc key (y :: l)) as [| h s] eqn:Es.
    + now apply sort_desc_nil_inv in Es.
    + cbn [hd] in IH.
      destruct (Z.gtb_spec (key h) (key x)) as [Hgt | Hle].
      * destruct IH as (pre & post & E & Hpre & Hpost).
        exists (x :: pre), post. split; [cbn; now f_equal |].
        split; [| exact Hpost]. constructor; [lia | exact Hpre].
      * exists [], (y :: l). repeat split; [constructor |].
        apply first_max_upper in IH.
        eapply Forall_impl; [| exact IH]. cbn. intros; lia.
Qed.

(** A loop that adds [w] to the score for each item passing a test
    counts the passing items. *)
Lemma fold_left_tally (test : A -> bool) (w : Z) (l : list A) : forall s,
  fold_left (fun score a => if test a then score + w else score) l s
  = s + w * Z.of_nat (List.length (filter test l)).
Proof.
  induction l as [| a l IH]; intros s; cbn [fold_left filter].
  - cbn. lia.
  - rewrite IH. destruct (test a); cbn [List.length]; lia.
Qed.

End Selection.

(** ** The text relevance scorer *)

(** C5. The scorer is a total function of the text alone. Its value is the
    sum of 2 when the lower-cased text contains "opinion", 3 when it
    contains "poll", 1 when it contains "graph" or "chart", and 2 when it
    contains "next united kingdom" or "general election"; the four weights
    add up independently. It is 0 on the empty text and on every text that
    contains none of the phrases (and only on those). *)
Theorem score_graph_candidate_weights :
  forall text : string,
    let t := Py.lower text in
    Scraper.score_graph_candidate text
    = weight 2 (Py.contains "opinion" t)
      + weight 3 (Py.contains "poll" t)
      + weight 1 (Py.contains "graph" t || Py.contains "chart" t)
      + weight 2 (Py.contains "next united kingdom" t
                  || Py.contains "general election" t)
    /\ Scraper.score_graph_candidate "" = 0
    /\ (matches_no_phrase text = true <->
        Scraper.score_graph_candidate text = 0).
Proof.
  intros text t. unfold Scraper.score_graph_candidate, matches_no_phrase.
  fold t. cbn [forallb graph_phrases].
  split; [| split; [reflexivity |]];
    destruct (Py.contains "opinion" t), (Py.contains "poll" t),
      (Py.contains "graph" t), (Py.contains "chart" t),
      (Py.contains "next united kingdom" t),
      (Py.contains "general election" t);
    cbn; try reflexivity; split; intros H; try reflexivity; discriminate H.
Qed.

Lemma score_graph_candidate_weights_witness :
  matches_no_phrase "Name and Value" = true
  /\ Scraper.score_graph_candidate "Name and Value" = 0.
Proof.
  split; [reflexivity |].
  apply (proj1 (proj2 (proj2 (score_graph_candidate_weights "Name and Value")))).
  reflexivity.
Defined.

(** ** Table scoring and selection *)

Lemma score_table_sum (df : Pandas.DataFrame) :
  Scraper.score_table df
  = 2 * hits poll_tokens (joined_header df)
    + hits party_tokens (joined_header df)
    + (if 5 <=? Pandas.len df then 1 else 0).
Proof.
  unfold Scraper.score_table, hits, joined_header, poll_tokens, party_tokens.
  rewrite !fold_left_tally. rewrite Z.geb_leb.
  destruct (5 <=? Pandas.len df); lia.
Qed.

Lemma extract_table_cons
    (read_html : string -> exn + list Pandas.DataFrame) (html : string)
    (t : Pandas.DataFrame) (ts : list Pandas.DataFrame) :
  read_html html = inr (t :: ts) ->
  let best := Py.max_from Scraper.score_table t ts in
  Scraper.extract_table read_html html
  = if Scraper.score_table best <? 4 then inl NoConfidentTable
    else inr (table_title, best).
Proof. intros E. unfold Scraper.extract_table. now rewrite E. Qed.

(** C2. The score of a table is twice the number of the tokens "poll",
    "pollster", "date", "fieldwork" that occur in the joined, lower-cased
    flattened header, plus the number of the tokens "con", "conservative",
    "lab", "labour", "ld", "lib dem", "reform" that occur in it, plus 1
    when the table has at least 5 rows. The selection over a non-empty
    sequence of tables takes a table of greatest score, the first such in
    the sequence. [extract_table] makes that selection: on a non-empty
    sequence of parsed tables whose first table of greatest score scores
    at least 4 it returns that table, and a table it returns is always
    that one. *)
Theorem score_table_selection :
  (forall df : Pandas.DataFrame,
      Scraper.score_table df
      = 2 * hits poll_tokens (joined_header df)
        + hits party_tokens (joined_header df)
        + (if 5 <=? Pandas.len df then 1 else 0))
  /\ (forall t ts,
         first_max Scraper.score_table
           (Py.max_from Scraper.score_table t ts) (t :: ts))
  /\ (forall read_html html tables title best,
         read_html html = inr tables ->
         Scraper.extract_table read_html html = inr (title, best) ->
         first_max Scraper.score_table best tables)
  /\ (forall read_html html tables best,
         read_html html = inr tables ->
         first_max Scraper.score_table best tables ->
         4 <= Scraper.score_table best ->
         Scraper.extract_table read_html html = inr (table_title, best))
  /\ (forall read_html html t ts,
         read_html html = inr (t :: ts) ->
         4 <= Scraper.score_table (Py.max_from Scraper.score_table t ts) ->
         Scraper.extract_table read_html html
         = inr (table_title, Py.max_from Scraper.score_table t ts)).
Proof.
  assert (forall read_html html t ts,
             read_html html = inr (t :: ts) ->
             4 <= Scraper.score_table (Py.max_from Scraper.score_table t ts) ->
             Scraper.extract_table read_html html
             = inr (table_title, Py.max_from Scraper.score_table t ts))
    as Hreturns.
  { intros read_html html t ts E Hge.
    rewrite (extract_table_cons read_html html t ts E). cbn zeta.
    destruct (Z.ltb_spec (Scraper.score_table
                            (Py.max_from Scraper.score_table t ts)) 4);
      [lia | reflexivity]. }
  split; [exact score_table_sum |].
  split; [intros t ts; apply max_from_first_max |].
  split; [| split; [| exact Hreturns]].
  - intros read_html html [| t ts] title best E R.
    + unfold Scraper.extract_table in R. rewrite E in R. discriminate R.
    + rewrite (extract_table_cons read_html html t ts E) in R. cbn zeta in R.
      destruct (Scraper.score_table _ <? 4); [discriminate R |].
      injection R as _ <-. apply max_from_first_max.
  - intros read_html html [| t ts] best E Hbest Hge.
    + destruct Hbest as ([| ? ?] & post & Habs & _); discriminate Habs.
    + rewrite (first_max_unique _ _ _ _ Hbest
                 (max_from_first_max Scraper.score_table t ts)) in *.
      now apply Hreturns.
Qed.

Example score_polling_df : Scraper.score_table polling_df = 12.
Proof. reflexivity. Qed.

Example score_generic_df : Scraper.score_table generic_df = 0.
Proof. reflexivity. Qed.

Lemma score_table_selection_witness :
  first_max Scraper.score_table polling_df [generic_df; polling_df; polling_df]
  /\ Scraper.extract_table
       (fun _ => inr [generic_df; polling_df; polling_df]) "<html>"
     = inr (table_title, polling_df)
  /\ Scraper.extract_table
       (fun _ => inr [generic_df; polling_df; polling_df]) "<html>"
     = inr (table_title,
            Py.max_from Scraper.score_table generic_df
              [polling_df; polling_df]).
Proof.
  destruct score_table_selection as (_ & _ & Hfirst & Hreturns & Hmax).
  assert (first_max Scraper.score_table polling_df
            [generic_df; polling_df; polling_df]) as Hbest.
  { apply (Hfirst (fun _ => inr [generic_df; polling_df; polling_df])
             "<html>" _ table_title polling_df); reflexivity. }
  split; [exact Hbest |]. split.
  - apply (Hreturns (fun _ => inr [generic_df; polling_df; polling_df])
             "<html>" _ polling_df eq_refl Hbest).
    vm_compute. discriminate.
  - apply (Hmax (fun _ => inr [generic_df; polling_df; polling_df])
             "<html>" generic_df [polling_df; polling_df] eq_refl).
    vm_compute. discriminate.
Defined.

(** C3. Given the tables the parser produced, [extract_table] raises
    [NoTablesFound] exactly when there is none, raises [NoConfidentTable],
    a different exception value, exactly when there is at least one table
    and every table scores below 4, and in every other case returns the
    selected table, which scores at least 4. *)
Theorem extract_table_outcomes :
  forall (read_html : string -> exn + list Pandas.DataFrame)
         (html : string) (tables : list Pandas.DataFrame),
    read_html html = inr tables ->
    (Scraper.extract_table read_html html = inl NoTablesFound
     <-> tables = [])
    /\ (Scraper.extract_table read_html html = inl NoConfidentTable
        <-> tables <> []
            /\ Forall (fun t => Scraper.score_table t < 4) tables)
    /\ NoConfidentTable <> NoTablesFound
    /\ (tables <> [] ->
        ~ Forall (fun t => Scraper.score_table t < 4) tables ->
        exists best,
          Scraper.extract_table read_html html = inr (table_title, best)
          /\ first_max Scraper.score_table best tables
          /\ 4 <= Scraper.score_table best).
Proof.
  intros read_html html tables E.
  assert (NoConfidentTable <> NoTablesFound) as Hne by discriminate.
  destruct tables as [| t ts].
  - assert (Scraper.extract_table read_html html = inl NoTablesFound) as R
        by (unfold Scraper.extract_table; now rewrite E).
    rewrite R. split; [tauto |]. split; [| split; [exact Hne |]].
    + split; [intros [=]; now destruct Hne | now intros [Hnil _]].
    + intros Hnil. now destruct Hnil.
  - rewrite (extract_table_cons read_html html t ts E). cbn zeta.
    pose proof (max_from_first_max Scraper.score_table t ts) as Hmax.
    set (best := Py.max_from Scraper.score_table t ts) in *.
    destruct (Z.ltb_spec (Scraper.score_table best) 4) as [Hlt | Hge].
    + assert (Forall (fun x => Scraper.score_table x < 4) (t :: ts)) as Hall.
      { apply first_max_upper in Hmax.
        eapply Forall_impl; [| exact Hmax]. cbn. intros; lia. }
      split; [| split; [| split; [exact Hne |]]].
      * split; [intros [=]; now destruct Hne | discriminate].
      * split; [intros _; split; [discriminate | exact Hall] | reflexivity].
      * intros _ Hnot. now destruct Hnot.
    + split; [| split; [| split; [exact Hne |]]].
      * split; discriminate.
      * split; [discriminate |]. intros [_ Hall]. apply first_max_In in Hmax.
        rewrite Forall_forall in Hall. specialize (Hall _ Hmax).
        cbn in Hall. lia.
      * intros _ _. exists best. auto.
Qed.

Lemma extract_table_outcomes_witness :
  (exists best,
      Scraper.extract_table (fun _ => inr [generic_df; polling_df]) "<html>"
      = inr (table_title, best)
      /\ first_max Scraper.score_table best [generic_df; polling_df]
      /\ 4 <= Scraper.score_table best)
  /\ Scraper.extract_table (fun _ => inr [generic_df]) "<html>"
     = inl NoConfidentTable
  /\ Scraper.extract_table (fun _ => inr []) "<html>" = inl NoTablesFound.
Proof.
  split; [| split].
  - apply (proj2 (proj2 (proj2
             (extract_table_outcomes
                (fun _ => inr [generic_df; polling_df]) "<html>" _ eq_refl)))).
    + discriminate.
    + intros H. apply Forall_inv_tail, Forall_inv in H. vm_compute in H.
      discriminate H.
  - apply (proj1 (proj2 (extract_table_outcomes
                           (fun _ => inr [generic_df]) "<html>" _ eq_refl))).
    split; [discriminate |]. repeat constructor.
  - now apply (proj1 (extract_table_outcomes (fun _ => inr []) "<html>" _ eq_refl)).
Defined.

(** ** Header flattening *)

Lemma fold_left_append_map {A B : Type} (f : A -> B) (l : list A) :
  forall acc, fold_left (fun flat a => (flat ++ [f a])%list) l acc
              = (acc ++ map f l)%list.
Proof.
  induction l as [| a l IH]; intros acc; cbn.
  - now rewrite app_nil_r.
  - rewrite IH, <- app_assoc. reflexivity.
Qed.

Lemma flatten_columns_multi (tuples : list (list Pandas.value)) :
  Scraper.flatten_columns (Pandas.MultiIndex tuples) = map flatten_tuple tuples.
Proof.
  exact (fold_left_append_map flatten_tuple tuples []).
Qed.

Lemma flatten_columns_length (c : Pandas.Columns) :
  List.length (Scraper.flatten_columns c) = Pandas.ncols c.
Proof.
  destruct c as [labels | tuples].
  - apply length_map.
  - rewrite flatten_columns_multi. apply length_map.
Qed.

Lemma truthy_eqb (s : string) : Py.truthy s = negb (String.eqb s "").
Proof. now destruct s. Qed.

Lemma spec_flatten_tuple_agrees (tup : list Pandas.value) :
  Forall nan_unpadded tup -> flatten_tuple tup = spec_flatten_tuple tup.
Proof.
  intros H. unfold flatten_tuple, spec_flatten_tuple. cbn zeta.
  replace (filter _ (map _ tup))
    with (map (fun x => Py.strip (Pandas.str x)) (filter level_kept tup));
    [reflexivity |].
  induction H as [| x tup Hx _ IH]; [reflexivity |].
  cbn [filter map]. rewrite <- IH.
  assert (level_kept x
          = negb (String.eqb (Py.strip (Pandas.str x)) "")
            && negb (String.eqb (Py.strip (Pandas.str x)) "nan")) as ->.
  { unfold level_kept. rewrite truthy_eqb. f_equal. f_equal.
    destruct (String.eqb_spec (Pandas.str x) "nan") as [E | N].
    - now rewrite E.
    - destruct (String.eqb_spec (Py.strip (Pandas.str x)) "nan") as [E' | N'];
        [now apply Hx in E' | reflexivity]. }
  now destruct (negb _ && negb _).
Qed.

(** [flatten_columns] on a header with a level [" nan "]: the level is
    kept and trimmed, so the label is ["nan"], where the rule of the
    specification gives ["column"] (trimmed level strings) or [" nan "]
    (untrimmed ones). *)
Lemma flatten_columns_padded_nan :
  let tuples := [[Pandas.Str " nan "; Pandas.Str ""]] in
  Scraper.flatten_columns (Pandas.MultiIndex tuples) = ["nan"]
  /\ Scraper.flatten_columns (Pandas.MultiIndex tuples)
     <> map spec_flatten_tuple tuples
  /\ Scraper.flatten_columns (Pandas.MultiIndex tuples)
     <> map spec_flatten_tuple_raw tuples.
Proof. cbn. repeat split; discriminate. Qed.

(** C4. A single-level header is mapped to the trimmed string
    form of each cell. A multi-level header is mapped, column by column, to
    the " | "-join of the trimmed string forms of the levels whose trimmed
    string form is non-empty and whose untrimmed string form is not "nan",
    and to "column" when no level is kept; this is the join of the
    non-empty, non-"nan" trimmed level strings whenever no level is a
    padded "nan". The header [("Con", "%"), ("Lab", "%")] flattens to
    ["Con | %", "Lab | %"]. *)
Theorem flatten_columns_labels :
  (forall labels : list Pandas.value,
      Scraper.flatten_columns (Pandas.Index labels)
      = map (fun cell => Py.strip (Pandas.str cell)) labels)
  /\ (forall tuples : list (list Pandas.value),
         Scraper.flatten_columns (Pandas.MultiIndex tuples)
         = map flatten_tuple tuples)
  /\ (forall tuples : list (list Pandas.value),
         Forall (Forall nan_unpadded) tuples ->
         Scraper.flatten_columns (Pandas.MultiIndex tuples)
         = map spec_flatten_tuple tuples)
  /\ Scraper.flatten_columns
       (Pandas.MultiIndex
          [[Pandas.Str "Con"; Pandas.Str "%"];
           [Pandas.Str "Lab"; Pandas.Str "%"]])
     = ["Con | %"; "Lab | %"].
Proof.
  split; [reflexivity |]. split; [exact flatten_columns_multi |].
  split; [| reflexivity].
  intros tuples H. rewrite flatten_columns_multi.
  induction H as [| tup tuples Htup _ IH]; [reflexivity |].
  cbn [map]. now rewrite IH, (spec_flatten_tuple_agrees tup Htup).
Qed.

Lemma flatten_columns_labels_witness :
  Scraper.flatten_columns
    (Pandas.MultiIndex
       [[Pandas.NaN; Pandas.Str " "]; [Pandas.Str " Con"; Pandas.Int 2024]])
  = map spec_flatten_tuple
      [[Pandas.NaN; Pandas.Str " "]; [Pandas.Str " Con"; Pandas.Int 2024]].
Proof.
  apply (proj1 (proj2 (proj2 flatten_columns_labels))).
  repeat constructor; unfold nan_unpadded; cbn; intros H;
    try reflexivity; discriminate H.
Defined.

Example flatten_all_missing :
  Scraper.flatten_columns
    (Pandas.MultiIndex
       [[Pandas.NaN; Pandas.Str " "]; [Pandas.Str " Con"; Pandas.Int 2024]])
  = ["column"; "Con | 2024"].
Proof. reflexivity. Qed.

(** ** Filename sanitization *)

Lemma re_sub_kept (good rest : string) :
  all_chars Scraper.in_class good = true ->
  Scraper.re_sub false (good ++ rest) = good ++ Scraper.re_sub false rest.
Proof.
  induction good as [| c good IH]; cbn; [reflexivity |].
  intros H. apply andb_prop in H as [Hc Hgood].
  now rewrite Hc, IH.
Qed.

Lemma re_sub_in_match (bad rest : string) :
  all_chars (fun c => negb (Scraper.in_class c)) bad = true ->
  starts_in_class rest = true ->
  Scraper.re_sub true (bad ++ rest) = Scraper.re_sub false rest.
Proof.
  intros Hbad Hrest. induction bad as [| c bad IH]; cbn.
  - destruct rest as [| c rest]; [reflexivity |].
    cbn in *. now rewrite Hrest.
  - cbn in Hbad. apply andb_prop in Hbad as [Hc Hbad].
    apply negb_true_iff in Hc. rewrite Hc. now apply IH.
Qed.

Lemma re_sub_run (bad rest : string) :
  bad <> "" ->
  all_chars (fun c => negb (Scraper.in_class c)) bad = true ->
  starts_in_class rest = true ->
  Scraper.re_sub false (bad ++ rest) = "_" ++ Scraper.re_sub false rest.
Proof.
  destruct bad as [| c bad]; [easy |]. intros _ Hbad Hrest.
  cbn in Hbad. apply andb_prop in Hbad as [Hc Hbad].
  apply negb_true_iff in Hc. cbn. rewrite Hc.
  now rewrite re_sub_in_match.
Qed.

Lemma re_sub_in_class (s : string) :
  forall b, all_chars Scraper.in_class (Scraper.re_sub b s) = true.
Proof.
  induction s as [| c s IH]; intros b; cbn; [reflexivity |].
  destruct (Scraper.in_class c) eqn:Hc.
  - cbn. now rewrite Hc, IH.
  - destruct b; [apply IH |]. cbn. apply IH.
Qed.

Lemma split_slash_cons (p : string) :
  exists part parts, Scraper.split_slash p = part :: parts.
Proof.
  induction p as [| c p (part & parts & E)]; cbn; [now eexists _, _ |].
  destruct (Ascii.eqb c "/"); [now eexists _, _ |].
  rewrite E. now eexists _, _.
Qed.

Lemma split_slash_app (a b : string) :
  Scraper.split_slash (a ++ String "/" b)
  = (Scraper.split_slash a ++ Scraper.split_slash b)%list.
Proof.
  induction a as [| c a IH]; cbn; [reflexivity |].
  destruct (Ascii.eqb c "/"); rewrite IH; [reflexivity |].
  destruct (split_slash_cons a) as (part & parts & ->). reflexivity.
Qed.

Lemma split_slash_no_slash (seg : string) :
  no_slash seg = true -> Scraper.split_slash seg = [seg].
Proof.
  induction seg as [| c seg IH]; cbn; [reflexivity |].
  intros H. apply andb_prop in H as [Hc Hseg].
  apply negb_true_iff in Hc. now rewrite Hc, IH.
Qed.

(** The name of a path that ends in a proper segment is that segment. *)
Lemma path_name_last_segment (dir seg : string) :
  no_slash seg = true -> seg <> "" -> seg <> "." ->
  Scraper.path_name (dir ++ String "/" seg) = seg.
Proof.
  intros Hseg Hne Hdot. unfold Scraper.path_name.
  rewrite split_slash_app, (split_slash_no_slash seg Hseg).
  rewrite filter_app. cbn [filter].
  assert (Py.truthy seg && negb (String.eqb seg ".") = true) as ->.
  { apply andb_true_intro. split.
    - now destruct seg.
    - apply negb_true_iff. now apply String.eqb_neq. }
  apply last_last.
Qed.

Lemma sanitize_of_name (urlparse_path : string -> string) (url seg : string) :
  Scraper.path_name (urlparse_path url) = seg -> seg <> "" ->
  Scraper.sanitize_filename_from_url urlparse_path url
  = with_extension (Scraper.re_sub false seg).
Proof.
  intros E Hne. unfold Scraper.sanitize_filename_from_url, with_extension.
  rewrite E. destruct seg as [| c seg]; [easy |]. cbn [Py.truthy].
  now destruct (Py.contains "." _).
Qed.

(** The path ["/"] has no last segment; the filename is ["graph.img"],
    where the rule of the specification gives [".img"], whether the
    replacement is read run by run or character by character. Read
    character by character, the rule also departs from the code on
    ["/w/images/Graph (final)!.svg"], where two adjacent characters outside
    the class give one ["_"]. *)
Lemma sanitize_root_path :
  Scraper.sanitize_filename_from_url sample_urlparse_path
    "https://en.wikipedia.org/" = "graph.img"
  /\ Scraper.sanitize_filename_from_url sample_urlparse_path
       "https://en.wikipedia.org/"
     <> spec_sanitize (sample_urlparse_path "https://en.wikipedia.org/")
  /\ Scraper.sanitize_filename_from_url sample_urlparse_path
       "https://en.wikipedia.org/"
     <> spec_sanitize_each (sample_urlparse_path "https://en.wikipedia.org/")
  /\ Scraper.sanitize_filename_from_url sample_urlparse_path
       "https://upload.example.org/w/images/Graph (final)!.svg"
     <> spec_sanitize_each
          (sample_urlparse_path
             "https://upload.example.org/w/images/Graph (final)!.svg").
Proof. split; [reflexivity |]. repeat split; discriminate. Qed.

(** C6. The filename is made from the last segment of the URL
    path, or from the literal "graph" when the path has no last segment:
    every maximal run of characters outside [A-Za-z0-9._-] is replaced by
    one "_", the other characters are kept, and ".img" is appended when
    the result contains no dot. The URL path
    "/w/images/Graph (final)!.svg" gives "Graph_final_.svg". *)
Theorem sanitize_filename_rules :
  (forall (urlparse_path : string -> string) (url dir seg : string),
      urlparse_path url = dir ++ String "/" seg ->
      no_slash seg = true -> seg <> "" -> seg <> "." ->
      Scraper.sanitize_filename_from_url urlparse_path url
      = with_extension (Scraper.re_sub false seg))
  /\ (forall (urlparse_path : string -> string) (url : string),
         Scraper.path_name (urlparse_path url) = "" ->
         Scraper.sanitize_filename_from_url urlparse_path url = "graph.img")
  /\ (forall good rest : string,
         all_chars Scraper.in_class good = true ->
         Scraper.re_sub false (good ++ rest)
         = good ++ Scraper.re_sub false rest)
  /\ (forall bad rest : string,
         bad <> "" ->
         all_chars (fun c => negb (Scraper.in_class c)) bad = true ->
         starts_in_class rest = true ->
         Scraper.re_sub false (bad ++ rest)
         = "_" ++ Scraper.re_sub false rest)
  /\ (forall (urlparse_path : string -> string) (url : string),
         urlparse_path url = "/w/images/Graph (final)!.svg" ->
         Scraper.sanitize_filename_from_url urlparse_path url
         = "Graph_final_.svg").
Proof.
  split; [| split; [| split; [exact re_sub_kept | split; [exact re_sub_run |]]]].
  - intros up url dir seg E Hseg Hne Hdot.
    apply sanitize_of_name; [| exact Hne].
    rewrite E. now apply path_name_last_segment.
  - intros up url E. unfold Scraper.sanitize_filename_from_url.
    now rewrite E.
  - intros up url E. unfold Scraper.sanitize_filename_from_url.
    now rewrite E.
Qed.

Lemma sanitize_filename_rules_witness :
  Scraper.sanitize_filename_from_url sample_urlparse_path
    "https://upload.example.org/w/images/Graph (final)!.svg"
  = "Graph_final_.svg"
  /\ Scraper.sanitize_filename_from_url sample_urlparse_path
       "https://upload.example.org/w/images/Graph (final)!.svg"
     = with_extension (Scraper.re_sub false "Graph (final)!.svg")
  /\ Scraper.sanitize_filename_from_url sample_urlparse_path
       "https://en.wikipedia.org/" = "graph.img"
  /\ Scraper.re_sub false ("Graph" ++ " (final)!.svg")
     = "Graph" ++ Scraper.re_sub false " (final)!.svg"
  /\ Scraper.re_sub false (" (" ++ "final)!.svg")
     = "_" ++ Scraper.re_sub false "final)!.svg".
Proof.
  destruct sanitize_filename_rules as (Hseg & Hroot & Hkept & Hrun & Hex).
  split; [| split; [| split; [| split]]].
  - now apply Hex.
  - apply (Hseg sample_urlparse_path _ "/w/images" "Graph (final)!.svg");
      [reflexivity | reflexivity | discriminate | discriminate].
  - now apply Hroot.
  - now apply Hkept.
  - apply Hrun; [discriminate | reflexivity | reflexivity].
Defined.

(** ** Facts about [dict] *)

Section DictFacts.

Context {V : Type}.

Lemma existsb_eqb_In (k : string) (l : list string) :
  existsb (String.eqb k) l = true <-> In k l.
Proof.
  rewrite existsb_exists. split.
  - intros (x & Hx & E). apply String.eqb_eq in E. now subst.
  - intros H. exists k. split; [exact H | apply String.eqb_refl].
Qed.

Lemma keys_setitem (d : Py.dict V) (k : string) (v : V) :
  Py.keys (Py.setitem d k v)
  = if existsb (String.eqb k) (Py.keys d) then Py.keys d
    else (Py.keys d ++ [k])%list.
Proof.
  induction d as [| [k' v'] d IH]; cbn; [reflexivity |].
  rewrite (String.eqb_sym k k').
  destruct (String.eqb k' k); cbn; [reflexivity |].
  unfold Py.keys in IH. rewrite IH.
  now destruct (existsb _ _).
Qed.

Lemma keys_fold (pairs : list (string * V)) : forall d : Py.dict V,
  Py.keys (fold_left Py.store pairs d)
  = (Py.keys d ++ first_occurrences (Py.keys d) (map fst pairs))%list.
Proof.
  induction pairs as [| [k v] pairs IH]; intros d;
    cbn [fold_left map first_occurrences fst].
  - now rewrite app_nil_r.
  - rewrite IH. unfold Py.store. cbn [fst snd]. rewrite keys_setitem.
    destruct (existsb _ _); [reflexivity |].
    now rewrite <- app_assoc.
Qed.

Lemma keys_dict_of (pairs : list (string * V)) :
  Py.keys (Py.dict_of pairs) = dedup (map fst pairs).
Proof. exact (keys_fold pairs []). Qed.

Lemma getitem_setitem_same (d : Py.dict V) (k : string) (v : V) :
  Py.getitem (Py.setitem d k v) k = Some v.
Proof.
  induction d as [| [k' v'] d IH]; cbn.
  - now rewrite String.eqb_refl.
  - destruct (String.eqb k' k) eqn:E; cbn; now rewrite E.
Qed.

Lemma getitem_setitem_other (d : Py.dict V) (k k' : string) (v : V) :
  k <> k' -> Py.getitem (Py.setitem d k v) k' = Py.getitem d k'.
Proof.
  intros N. induction d as [| [k0 v0] d IH]; cbn.
  - apply String.eqb_neq in N. now rewrite N.
  - destruct (String.eqb k0 k) eqn:E; cbn.
    + apply String.eqb_eq in E. subst k0.
      apply String.eqb_neq in N. now rewrite N.
    + now rewrite IH.
Qed.

Lemma getitem_fold_other (k : string) (pairs : list (string * V)) :
  forall d : Py.dict V,
    ~ In k (map fst pairs) ->
    Py.getitem (fold_left Py.store pairs d) k = Py.getitem d k.
Proof.
  induction pairs as [| [k0 v0] pairs IH]; intros d N; cbn [fold_left];
    [reflexivity |].
  cbn in N. rewrite IH by tauto. unfold Py.store. cbn [fst snd].
  apply getitem_setitem_other. tauto.
Qed.

(** The value of a key is that of its last pair. *)
Lemma getitem_dict_of_last (pre post : list (string * V)) (k : string) (v : V) :
  ~ In k (map fst post) ->
  Py.getitem (Py.dict_of (pre ++ (k, v) :: post)) k = Some v.
Proof.
  intros N. unfold Py.dict_of. rewrite fold_left_app. cbn [fold_left].
  rewrite (getitem_fold_other k post _ N).
  apply getitem_setitem_same.
Qed.

Lemma getitem_setitem_In (d : Py.dict V) (k k' : string) (v v' : V) :
  Py.getitem (Py.setitem d k v) k' = Some v' ->
  (k = k' /\ v = v') \/ Py.getitem d k' = Some v'.
Proof.
  destruct (String.eqb_spec k k') as [-> | N].
  - rewrite getitem_setitem_same. intros [= ->]. now left.
  - rewrite getitem_setitem_other by exact N. now right.
Qed.

Lemma getitem_fold_In (k : string) (v : V) (pairs : list (string * V)) :
  forall d : Py.dict V,
    Py.getitem (fold_left Py.store pairs d) k = Some v ->
    In (k, v) pairs \/ Py.getitem d k = Some v.
Proof.
  induction pairs as [| [k0 v0] pairs IH]; intros d H; cbn [fold_left] in H;
    [now right |].
  apply IH in H as [H | H]; [left; now right |].
  unfold Py.store in H. cbn [fst snd] in H.
  apply getitem_setitem_In in H as [[-> ->] | H]; [left; now left | now right].
Qed.

Lemma getitem_dict_of_In (k : string) (v : V) (pairs : list (string * V)) :
  Py.getitem (Py.dict_of pairs) k = Some v -> In (k, v) pairs.
Proof.
  intros H. apply getitem_fold_In in H as [H | H]; [exact H | discriminate H].
Qed.

Lemma getitem_keys (d : Py.dict V) (k : string) :
  In k (Py.keys d) <-> Py.getitem d k <> None.
Proof.
  induction d as [| [k0 v0] d IH]; cbn; [tauto |].
  destruct (String.eqb_spec k0 k) as [-> | N].
  - split; [discriminate | now left].
  - rewrite <- IH. split; [intros [E | H]; [easy | exact H] | now right].
Qed.

End DictFacts.

Lemma setitem_map {V W : Type} (h : V -> W) (d : Py.dict V) (k : string) (v : V) :
  Py.setitem (map (fun kv => (fst kv, h (snd kv))) d) k (h v)
  = map (fun kv => (fst kv, h (snd kv))) (Py.setitem d k v).
Proof.
  induction d as [| [k' v'] d IH]; cbn; [reflexivity |].
  destruct (String.eqb k' k); cbn; [reflexivity | now rewrite IH].
Qed.

(** Building a dict commutes with a change of the values. *)
Lemma dict_of_map {V W : Type} (h : V -> W) (pairs : list (string * V)) :
  Py.dict_of (map (fun kv => (fst kv, h (snd kv))) pairs)
  = map (fun kv => (fst kv, h (snd kv))) (Py.dict_of pairs).
Proof.
  unfold Py.dict_of.
  change (@nil (string * W))
    with (map (fun kv : string * V => (fst kv, h (snd kv))) []).
  generalize (@nil (string * V)) as d.
  induction pairs as [| [k v] pairs IH]; intros d; cbn [fold_left map];
    [reflexivity |].
  rewrite <- IH. apply f_equal. exact (setitem_map h d k v).
Qed.

Lemma first_occurrences_In (l : list string) : forall seen k,
  In k (first_occurrences seen l) <-> In k l /\ ~ In k seen.
Proof.
  induction l as [| x l IH]; intros seen k; cbn; [tauto |].
  destruct (existsb (String.eqb x) seen) eqn:E.
  - apply existsb_eqb_In in E. rewrite IH. split.
    + intros [H N]. split; [now right | exact N].
    + intros [[-> | H] N]; [contradiction | now split].
  - assert (~ In x seen) as Nx
        by (intros H; apply existsb_eqb_In in H; congruence).
    cbn. rewrite IH, in_app_iff. cbn. split.
    + intros [<- | [H N]]; [split; [now left | exact Nx] |].
      split; [now right | tauto].
    + intros [[E' | H] N]; [now left |].
      destruct (String.eqb_spec x k) as [-> | Nk]; [now left | right].
      split; [exact H |]. intros [H' | [H' | []]]; [easy | easy].
Qed.

Lemma first_occurrences_NoDup (l : list string) : forall seen,
  NoDup l -> (forall x, In x l -> ~ In x seen) ->
  first_occurrences seen l = l.
Proof.
  induction l as [| x l IH]; intros seen ND Hseen; cbn; [reflexivity |].
  apply NoDup_cons_iff in ND as [Nx ND].
  destruct (existsb (String.eqb x) seen) eqn:E.
  - apply existsb_eqb_In in E. now destruct (Hseen x (or_introl eq_refl)).
  - f_equal. apply IH; [exact ND |].
    intros y Hy Hin. apply in_app_iff in Hin as [Hin | [-> | []]].
    + exact (Hseen y (or_intror Hy) Hin).
    + contradiction.
Qed.

Lemma first_occurrences_keeps_NoDup (l : list string) : forall seen,
  NoDup seen -> NoDup (seen ++ first_occurrences seen l).
Proof.
  induction l as [| x l IH]; intros seen ND; cbn.
  - now rewrite app_nil_r.
  - destruct (existsb (String.eqb x) seen) eqn:E; [now apply IH |].
    assert (~ In x seen) as Nx
        by (intros H; apply existsb_eqb_In in H; congruence).
    change (x :: first_occurrences (seen ++ [x]) l)
      with ([x] ++ first_occurrences (seen ++ [x]) l)%list.
    rewrite app_assoc. apply IH.
    apply NoDup_app; [exact ND | repeat constructor; easy |].
    intros y Hy [<- | []]. contradiction.
Qed.

Lemma dedup_NoDup (l : list string) : NoDup (dedup l).
Proof. exact (first_occurrences_keeps_NoDup l [] (NoDup_nil _)). Qed.

Lemma dedup_id (l : list string) : NoDup l -> dedup l = l.
Proof. intros ND. apply first_occurrences_NoDup; [exact ND | easy]. Qed.

Lemma dedup_idempotent (l : list string) : dedup (dedup l) = dedup l.
Proof. apply dedup_id, dedup_NoDup. Qed.

Lemma dedup_In (l : list string) (k : string) : In k (dedup l) <-> In k l.
Proof. unfold dedup. rewrite first_occurrences_In. cbn. tauto. Qed.

Section DictRebuild.

Context {V : Type}.

Lemma setitem_fresh (d : Py.dict V) (k : string) (v : V) :
  ~ In k (Py.keys d) -> Py.setitem d k v = (d ++ [(k, v)])%list.
Proof.
  induction d as [| [k' v'] d IH]; cbn; [reflexivity |].
  intros N. destruct (String.eqb_spec k' k) as [E | _]; [tauto |].
  rewrite IH; tauto.
Qed.

Lemma fold_setitem_fresh (d2 : Py.dict V) : forall d1 : Py.dict V,
  NoDup (Py.keys (d1 ++ d2)%list) ->
  fold_left Py.store d2 d1
  = (d1 ++ d2)%list.
Proof.
  induction d2 as [| [k v] d2 IH]; intros d1 ND; cbn [fold_left].
  - now rewrite app_nil_r.
  - assert (~ In k (Py.keys d1)) as Nk.
    { unfold Py.keys in *. rewrite map_app in ND. cbn in ND.
      apply NoDup_remove_2 in ND. rewrite in_app_iff in ND. tauto. }
    change (Py.store d1 (k, v)) with (Py.setitem d1 k v).
    rewrite (setitem_fresh d1 k v Nk), IH.
    + now rewrite <- app_assoc.
    + now rewrite <- app_assoc.
Qed.

(** Rebuilding a dict from its own items gives the dict back. *)
Lemma dict_of_items (pairs : list (string * V)) :
  Py.dict_of (Py.dict_of pairs) = Py.dict_of pairs.
Proof.
  unfold Py.dict_of at 1. apply (fold_setitem_fresh _ []).
  cbn [app]. rewrite keys_dict_of. apply dedup_NoDup.
Qed.

End DictRebuild.

Lemma combine_map_r {A B C : Type} (f : B -> C) (l : list A) :
  forall l' : list B,
    combine l (map f l') = map (fun kv => (fst kv, f (snd kv))) (combine l l').
Proof.
  induction l as [| a l IH]; intros [| b l']; cbn; try reflexivity.
  now rewrite IH.
Qed.

Lemma map_fst_combine_same {A B : Type} (l : list A) :
  forall l' : list B,
    List.length l = List.length l' -> map fst (combine l l') = l.
Proof.
  induction l as [| a l IH]; intros [| b l'] E; cbn in *;
    try reflexivity; try discriminate.
  f_equal. apply IH. now injection E.
Qed.

Lemma combine_app_same {A B : Type} (l1 : list A) :
  forall (l1' : list B) l2 l2',
    List.length l1 = List.length l1' ->
    combine (l1 ++ l2) (l1' ++ l2') = (combine l1 l1' ++ combine l2 l2')%list.
Proof.
  induction l1 as [| a l1 IH]; intros [| b l1'] l2 l2' E; cbn in *;
    try reflexivity; try discriminate.
  f_equal. apply IH. now injection E.
Qed.

(** ** The row normalizer *)

Lemma dataframe_to_rows_eq (df : Pandas.DataFrame) :
  Scraper.dataframe_to_rows df
  = (Scraper.flatten_columns (Pandas.columns df),
     map (normalize_row (Scraper.flatten_columns (Pandas.columns df)))
       (Pandas.data df)).
Proof.
  unfold Scraper.dataframe_to_rows, Pandas.to_dict_records, Pandas.fillna.
  f_equal. rewrite !map_map. apply map_ext. intros row.
  set (h := fun v => if Pandas.isna v then "" else Pandas.str v).
  rewrite (dict_of_map h), dict_of_items, <- (dict_of_map h).
  rewrite <- (combine_map_r h), map_map.
  unfold normalize_row. f_equal. f_equal. apply map_ext.
  intros v. unfold cell_text. now destruct v.
Qed.

Lemma rectangular_row (df : Pandas.DataFrame) (row : list Pandas.value) :
  Pandas.rectangular df = true -> In row (Pandas.data df) ->
  List.length (Scraper.flatten_columns (Pandas.columns df)) = List.length row.
Proof.
  intros R Hin. unfold Pandas.rectangular in R.
  rewrite forallb_forall in R. specialize (R row Hin).
  apply Nat.eqb_eq in R. now rewrite flatten_columns_length.
Qed.

Lemma keys_normalize_row (labels : list string) (row : list Pandas.value) :
  List.length labels = List.length row ->
  Py.keys (normalize_row labels row) = dedup labels.
Proof.
  intros E. unfold normalize_row. rewrite keys_dict_of.
  rewrite map_fst_combine_same; [reflexivity | now rewrite length_map].
Qed.

(** On [repeated_label_df] the columns are the label twice and the only
    row mapping has one key. *)
Lemma dataframe_to_rows_repeated_label :
  Pandas.rectangular repeated_label_df = true
  /\ Scraper.dataframe_to_rows repeated_label_df
     = (["A | B | C"; "A | B | C"], [[("A | B | C", "7")]])
  /\ ~ Forall
         (fun r => Py.keys r = fst (Scraper.dataframe_to_rows repeated_label_df))
         (snd (Scraper.dataframe_to_rows repeated_label_df)).
Proof.
  split; [reflexivity |]. split; [reflexivity |].
  intros H. apply Forall_inv in H. discriminate H.
Qed.

(** C1. For every rectangular table the normalizer returns the
    flattened header labels in header order, one per column and with
    repeated labels kept, and one row mapping per input row. The keys of
    every row mapping are the column labels in order, each label once, at
    its first occurrence; they are exactly the columns sequence when the
    flattened labels are pairwise distinct, and as a set they always are
    the set of column labels. *)
Theorem dataframe_to_rows_shape :
  forall df : Pandas.DataFrame,
    Pandas.rectangular df = true ->
    let cols := fst (Scraper.dataframe_to_rows df) in
    let rows := snd (Scraper.dataframe_to_rows df) in
    cols = Scraper.flatten_columns (Pandas.columns df)
    /\ cols = match Pandas.columns df with
              | Pandas.Index labels =>
                  map (fun cell => Py.strip (Pandas.str cell)) labels
              | Pandas.MultiIndex tuples => map flatten_tuple tuples
              end
    /\ List.length cols = Pandas.ncols (Pandas.columns df)
    /\ List.length rows = List.length (Pandas.data df)
    /\ Forall (fun r => Py.keys r = dedup cols) rows
    /\ (NoDup cols -> Forall (fun r => Py.keys r = cols) rows)
    /\ Forall (fun r => forall k, In k (Py.keys r) <-> In k cols) rows.
Proof.
  intros df R. rewrite dataframe_to_rows_eq. cbn [fst snd].
  set (labels := Scraper.flatten_columns (Pandas.columns df)).
  assert (Forall (fun r => Py.keys r = dedup labels)
            (map (normalize_row labels) (Pandas.data df))) as Hkeys.
  { apply Forall_map, Forall_forall. intros row Hin.
    apply keys_normalize_row. now apply rectangular_row. }
  split; [reflexivity |].
  split; [unfold labels; destruct (Pandas.columns df);
          [reflexivity | apply flatten_columns_multi] |].
  split; [apply flatten_columns_length |].
  split; [apply length_map |]. split; [exact Hkeys |]. split.
  - intros ND. rewrite (dedup_id labels ND) in Hkeys. exact Hkeys.
  - eapply Forall_impl; [| exact Hkeys]. cbn. intros r -> k. apply dedup_In.
Qed.

Lemma dataframe_to_rows_shape_witness :
  fst (Scraper.dataframe_to_rows generic_df) = ["Name"; "Value"]
  /\ Forall (fun r => Py.keys r = fst (Scraper.dataframe_to_rows generic_df))
       (snd (Scraper.dataframe_to_rows generic_df))
  /\ Forall (fun r => Py.keys r = ["A | B | C"])
       (snd (Scraper.dataframe_to_rows repeated_label_df)).
Proof.
  destruct (dataframe_to_rows_shape generic_df eq_refl)
    as (Hcols & _ & _ & _ & _ & Hdistinct & _).
  destruct (dataframe_to_rows_shape repeated_label_df eq_refl)
    as (_ & _ & _ & _ & Hkeys & _ & _).
  split; [exact Hcols |]. split; [| exact Hkeys].
  apply Hdistinct. rewrite Hcols. repeat constructor; cbn; intuition discriminate.
Defined.

Lemma nth_error_rows (df : Pandas.DataFrame) (i : nat) :
  nth_error (snd (Scraper.dataframe_to_rows df)) i
  = option_map
      (normalize_row (Scraper.flatten_columns (Pandas.columns df)))
      (nth_error (Pandas.data df) i).
Proof. rewrite dataframe_to_rows_eq. cbn [snd]. apply nth_error_map. Qed.

Lemma getitem_normalize_row
    (cpre cpost : list string) (label : string)
    (rpre rpost : list Pandas.value) (v : Pandas.value) :
  List.length cpre = List.length rpre -> ~ In label cpost ->
  Py.getitem (normalize_row (cpre ++ label :: cpost) (rpre ++ v :: rpost)) label
  = Some (cell_text v).
Proof.
  intros E N. unfold normalize_row. rewrite map_app. cbn [map].
  rewrite combine_app_same by now rewrite length_map.
  cbn [combine]. apply getitem_dict_of_last.
  intros Hin. apply in_map_iff in Hin as ([k s] & Ek & Hin). cbn in Ek. subst k.
  now apply in_combine_l in Hin.
Qed.

(** On [repeated_label_df] the first cell of the row is missing, and the
    row mapping holds ["7"], the text of the second cell, under its
    label. *)
Lemma dataframe_to_rows_overwritten_cell :
  Pandas.rectangular repeated_label_df = true
  /\ nth_error (Pandas.data repeated_label_df) 0
     = Some [Pandas.NaN; Pandas.Int 7]
  /\ nth_error (fst (Scraper.dataframe_to_rows repeated_label_df)) 0
     = Some "A | B | C"
  /\ exists out,
       nth_error (snd (Scraper.dataframe_to_rows repeated_label_df)) 0
       = Some out
       /\ Py.getitem out "A | B | C" = Some "7"
       /\ Py.getitem out "A | B | C" <> Some "".
Proof.
  split; [reflexivity |]. split; [reflexivity |]. split; [reflexivity |].
  exists [("A | B | C", "7")].
  split; [reflexivity |]. split; [reflexivity | discriminate].
Qed.

(** C9. In the row mapping made from an input row, the value
    under a column's label is the text of that column's cell, the empty
    string for a missing (NaN or None) cell and the string form otherwise,
    provided no later column has the same flattened label. Every column
    label is a key of every row mapping, and every value of a row mapping
    is the text of a cell of that row in a column with that label; the
    text of a missing cell is never "nan" nor "None". *)
Theorem dataframe_to_rows_cells :
  forall (df : Pandas.DataFrame) (i : nat) (row : list Pandas.value),
    Pandas.rectangular df = true ->
    nth_error (Pandas.data df) i = Some row ->
    let cols := fst (Scraper.dataframe_to_rows df) in
    exists out : Py.dict string,
      nth_error (snd (Scraper.dataframe_to_rows df)) i = Some out
      /\ (forall cpre label cpost rpre v rpost,
             cols = (cpre ++ label :: cpost)%list ->
             row = (rpre ++ v :: rpost)%list ->
             List.length cpre = List.length rpre ->
             ~ In label cpost ->
             Py.getitem out label
             = Some (if Pandas.isna v then "" else Pandas.str v))
      /\ (forall label, In label cols -> Py.getitem out label <> None)
      /\ (forall k s,
             Py.getitem out k = Some s ->
             exists v,
               In (k, v) (combine cols row)
               /\ s = (if Pandas.isna v then "" else Pandas.str v)
               /\ (Pandas.isna v = true -> s <> "nan" /\ s <> "None")).
Proof.
  intros df i row R Hrow cols.
  assert (cols = Scraper.flatten_columns (Pandas.columns df)) as Ecols
      by (unfold cols; now rewrite dataframe_to_rows_eq).
  exists (normalize_row cols row). split; [| split; [| split]].
  - rewrite nth_error_rows, Hrow, Ecols. reflexivity.
  - intros cpre label cpost rpre v rpost -> -> E N.
    now apply getitem_normalize_row.
  - intros label Hin. apply getitem_keys.
    rewrite keys_normalize_row.
    + now apply dedup_In.
    + rewrite Ecols. apply rectangular_row; [exact R |].
      eapply nth_error_In, Hrow.
  - intros k s H. unfold normalize_row in H.
    apply getitem_dict_of_In in H. rewrite combine_map_r in H.
    apply in_map_iff in H as ([k' v] & E & Hin). cbn in E.
    injection E as -> <-. exists v. split; [exact Hin |].
    split; [reflexivity |]. unfold cell_text. intros ->.
    split; discriminate.
Qed.

Lemma dataframe_to_rows_cells_witness :
  exists out : Py.dict string,
    nth_error (snd (Scraper.dataframe_to_rows generic_df)) 1 = Some out
    /\ Py.getitem out "Value" = Some ""
    /\ Py.getitem out "Name" = Some "b".
Proof.
  destruct (dataframe_to_rows_cells generic_df 1
              [Pandas.Str "b"; Pandas.NaN] eq_refl eq_refl)
    as (out & E & Hcell & _ & _).
  exists out. split; [exact E |]. split.
  - apply (Hcell ["Name"] "Value" [] [Pandas.Str "b"] Pandas.NaN []);
      [reflexivity | reflexivity | reflexivity | easy].
  - apply (Hcell [] "Name" ["Value"] [] (Pandas.Str "b") [Pandas.NaN]);
      [reflexivity | reflexivity | reflexivity |].
    cbn. intuition discriminate.
Defined.

(** ** Image selection *)

Section Graph.

Import Bs4.

Variable urljoin : string -> string -> string.

Lemma primary_pass_eq (page_url : string) (cs : list Container) :
  Scraper.primary_pass urljoin page_url cs
  = map (candidate_of urljoin page_url) (filter qualifies cs).
Proof.
  induction cs as [| c cs IH]; [reflexivity |].
  cbn [Scraper.primary_pass filter]. rewrite IH. clear IH.
  destruct c as [[[[s |] a] |] cap];
    unfold qualifies, candidate_of, container_score, context,
      container_src, container_alt, container_caption;
    cbn [img src alt caption_el Py.or_empty Py.truthy andb];
    try reflexivity.
  destruct (Py.truthy s); cbn [negb andb]; [| reflexivity].
  rewrite Z.leb_antisym. now destruct (0 <? _).
Qed.

Lemma fallback_pass_first (page_url : string) (pre post : list Img) (im : Img) :
  Forall (fun i => fallback_match i = false) pre ->
  fallback_match im = true ->
  Scraper.fallback_pass urljoin page_url (pre ++ im :: post)
  = (Some (urljoin page_url
             (Scraper.normalize_img_url (Py.or_empty (src im)))),
     alt im).
Proof.
  intros Hpre Him. induction Hpre as [| i pre Hi _ IH]; cbn.
  - unfold fallback_match in Him. now rewrite Him.
  - unfold fallback_match in Hi. now rewrite Hi.
Qed.

Lemma fallback_pass_none (page_url : string) (imgs : list Img) :
  Scraper.fallback_pass urljoin page_url imgs = (None, None)
  <-> Forall (fun i => fallback_match i = false) imgs.
Proof.
  induction imgs as [| i imgs IH]; cbn.
  - split; [constructor | reflexivity].
  - fold (fallback_match i). destruct (fallback_match i) eqn:E.
    + split; [discriminate |]. intros H. apply Forall_inv in H. congruence.
    + rewrite IH. split; [now constructor | apply Forall_inv_tail].
Qed.

Lemma fallback_pass_fst_none (page_url : string) (imgs : list Img) :
  fst (Scraper.fallback_pass urljoin page_url imgs) = None ->
  Scraper.fallback_pass urljoin page_url imgs = (None, None).
Proof.
  induction imgs as [| im imgs IH]; cbn; [reflexivity |].
  destruct (_ && _); [discriminate | exact IH].
Qed.

Lemma first_max_map (w : Container) (page_url : string) (cs : list Container) :
  first_max container_score w cs ->
  first_max (fun item : Scraper.candidate => fst (fst item))
    (candidate_of urljoin page_url w) (map (candidate_of urljoin page_url) cs).
Proof.
  intros (pre & post & -> & Hpre & Hpost).
  exists (map (candidate_of urljoin page_url) pre),
    (map (candidate_of urljoin page_url) post).
  split; [now rewrite map_app |].
  split; apply Forall_map; cbn; assumption.
Qed.

(** The winner of the first pass is the first qualifying container of
    greatest score. *)
Lemma extract_graph_winner (soup : Soup) (page_url : string) (w : Container) :
  first_max container_score w (filter qualifies (containers soup)) ->
  Scraper.extract_graph urljoin soup page_url = graph_of urljoin page_url w.
Proof.
  intros Hw. unfold Scraper.extract_graph. rewrite primary_pass_eq.
  apply (first_max_map w page_url) in Hw.
  destruct (map (candidate_of urljoin page_url) (filter qualifies (containers soup)))
    as [| c0 cands] eqn:E.
  - destruct Hw as ([| ? ?] & post & Habs & _); discriminate Habs.
  - cbn zeta. set (h := hd c0 _).
    assert (h = candidate_of urljoin page_url w) as ->; [| reflexivity].
    apply (first_max_unique
             (fun item : Scraper.candidate => fst (fst item))
             _ _ (c0 :: cands));
      [apply hd_sort_desc_first_max | exact Hw].
Qed.

Lemma extract_graph_fallback (soup : Soup) (page_url : string) :
  filter qualifies (containers soup) = [] ->
  Scraper.extract_graph urljoin soup page_url
  = Scraper.fallback_pass urljoin page_url (content_imgs soup).
Proof.
  intros E. unfold Scraper.extract_graph. now rewrite primary_pass_eq, E.
Qed.

Lemma qualifying_first_max (cs : list Container) :
  cs <> [] -> exists w, first_max container_score w cs.
Proof.
  destruct cs as [| c cs]; [easy |]. intros _.
  exists (Py.max_from container_score c cs). apply max_from_first_max.
Qed.

End Graph.

Example extract_graph_tie :
  Scraper.extract_graph sample_urljoin tie_soup "https://en.wikipedia.org/wiki/P"
  = (Some "https://upload.example.org/first.svg", Some "graph").
Proof. reflexivity. Qed.

Example extract_graph_fallback_ex :
  Scraper.extract_graph sample_urljoin fallback_soup "https://en.wikipedia.org/wiki/P"
  = (Some "https://upload.example.org/p.svg", Some "UK Polling 2024").
Proof. reflexivity. Qed.

(** C7. When some container qualifies in the first pass, the image
    returned is that of a qualifying container whose combined alt and
    caption text has the greatest score, and of the first such container
    in document order: every qualifying container before it scores
    strictly less, none after it scores more. Of two qualifying containers
    with the same combined text the first one is selected. *)
Theorem extract_graph_first_best :
  forall (urljoin : string -> string -> string) (soup : Bs4.Soup)
         (page_url : string),
    let qualifying := filter qualifies (Bs4.containers soup) in
    (qualifying <> [] ->
     exists w,
       first_max container_score w qualifying
       /\ Scraper.extract_graph urljoin soup page_url
          = graph_of urljoin page_url w)
    /\ (forall w,
           first_max container_score w qualifying ->
           Scraper.extract_graph urljoin soup page_url
           = graph_of urljoin page_url w)
    /\ (forall c1 c2,
           Bs4.containers soup = [c1; c2] ->
           qualifies c1 = true -> qualifies c2 = true ->
           context c1 = context c2 ->
           Scraper.extract_graph urljoin soup page_url
           = graph_of urljoin page_url c1).
Proof.
  intros urljoin soup page_url qualifying. split; [| split].
  - intros Hne. destruct (qualifying_first_max qualifying Hne) as (w & Hw).
    exists w. split; [exact Hw | now apply extract_graph_winner].
  - intros w Hw. now apply extract_graph_winner.
  - intros c1 c2 E Q1 Q2 Hctx. apply extract_graph_winner.
    rewrite E. cbn [filter]. rewrite Q1, Q2.
    exists [], [c2]. split; [reflexivity |]. split; [constructor |].
    constructor; [| constructor]. unfold container_score. rewrite Hctx. lia.
Qed.

Lemma extract_graph_first_best_witness :
  Scraper.extract_graph sample_urljoin twin_soup "https://en.wikipedia.org/wiki/P"
  = (Some "https://upload.example.org/first.svg", None)
  /\ Scraper.extract_graph sample_urljoin tie_soup
       "https://en.wikipedia.org/wiki/P"
     = (Some "https://upload.example.org/first.svg", Some "graph").
Proof.
  split.
  - apply (proj2 (proj2 (extract_graph_first_best sample_urljoin twin_soup
                           "https://en.wikipedia.org/wiki/P"))
             (figure "//upload.example.org/first.svg" "Opinion polling" None)
             (figure "//upload.example.org/second.svg" "Opinion polling" None));
      reflexivity.
  - apply (proj1 (proj2 (extract_graph_first_best sample_urljoin tie_soup
                           "https://en.wikipedia.org/wiki/P"))
             (figure "//upload.example.org/first.svg" "Opinion polling"
                (Some "graph"))).
    exists [figure "//upload.example.org/map.png" "Chart of seats" None],
      [figure "//upload.example.org/second.svg" "Opinion polling"
         (Some "graph")].
    split; [reflexivity |].
    split; repeat constructor; vm_compute; congruence.
Defined.

(** On [sourceless_soup] nothing is returned although an article image has
    an alt text that contains "poll". *)
Lemma extract_graph_sourceless :
  Scraper.extract_graph sample_urljoin sourceless_soup
    "https://en.wikipedia.org/wiki/P" = (None, None)
  /\ Exists
       (fun im => Py.contains "poll" (Py.lower (Py.or_empty (Bs4.alt im))) = true)
       (Bs4.content_imgs sourceless_soup)
  /\ ~ (Scraper.extract_graph sample_urljoin sourceless_soup
          "https://en.wikipedia.org/wiki/P" = (None, None)
        <-> filter qualifies (Bs4.containers sourceless_soup) = []
            /\ ~ Exists
                   (fun im =>
                      Py.contains "poll"
                        (Py.lower (Py.or_empty (Bs4.alt im))) = true)
                   (Bs4.content_imgs sourceless_soup)).
Proof.
  assert (Exists
            (fun im =>
               Py.contains "poll" (Py.lower (Py.or_empty (Bs4.alt im))) = true)
            (Bs4.content_imgs sourceless_soup)) as Hex
      by (left; reflexivity).
  split; [reflexivity |]. split; [exact Hex |].
  intros [H _]. destruct (H eq_refl) as [_ Hno]. exact (Hno Hex).
Qed.

(** C8. [extract_graph] is total and returns no image exactly
    when no container qualifies in the first pass (a container qualifies
    when it has an image with a non-empty source and its combined text
    scores above 0) and no article image has both an alt text that
    contains "poll", case-insensitively, and a non-empty source. *)
Theorem extract_graph_none_iff :
  forall (urljoin : string -> string -> string) (soup : Bs4.Soup)
         (page_url : string),
    (Scraper.extract_graph urljoin soup page_url = (None, None)
     <-> filter qualifies (Bs4.containers soup) = []
         /\ Forall (fun im => fallback_match im = false)
              (Bs4.content_imgs soup))
    /\ (fst (Scraper.extract_graph urljoin soup page_url) = None
        <-> Scraper.extract_graph urljoin soup page_url = (None, None))
    /\ (forall c,
           qualifies c = true
           <-> (exists im s,
                   Bs4.img c = Some im /\ Bs4.src im = Some s /\ s <> "")
               /\ 0 < Scraper.score_graph_candidate (context c))
    /\ (forall im,
           fallback_match im = true
           <-> Py.contains "poll" (Py.lower (Py.or_empty (Bs4.alt im))) = true
               /\ exists s, Bs4.src im = Some s /\ s <> "").
Proof.
  intros urljoin soup page_url.
  assert (forall s, Py.truthy s = true <-> s <> "") as Htruthy
      by (intros [| c s]; cbn; split; congruence).
  assert (Scraper.extract_graph urljoin soup page_url = (None, None)
          <-> filter qualifies (Bs4.containers soup) = []
              /\ Forall (fun im => fallback_match im = false)
                   (Bs4.content_imgs soup)) as Hiff.
  { destruct (filter qualifies (Bs4.containers soup)) as [| c cs] eqn:E.
    - rewrite (extract_graph_fallback urljoin soup page_url E).
      rewrite fallback_pass_none. tauto.
    - destruct (qualifying_first_max (c :: cs)) as (w & Hw); [discriminate |].
      rewrite <- E in Hw.
      rewrite (extract_graph_winner urljoin soup page_url w Hw).
      split; [discriminate | intros [H _]; discriminate H]. }
  split; [exact Hiff |]. split; [| split].
  - split; [| now intros ->].
    destruct (filter qualifies (Bs4.containers soup)) as [| c cs] eqn:E.
    + rewrite (extract_graph_fallback urljoin soup page_url E).
      apply fallback_pass_fst_none.
    + destruct (qualifying_first_max (c :: cs)) as (w & Hw); [discriminate |].
      rewrite <- E in Hw.
      rewrite (extract_graph_winner urljoin soup page_url w Hw). discriminate.
  - intros c. unfold qualifies, container_score, container_src.
    rewrite andb_true_iff, Z.ltb_lt, Htruthy.
    destruct (Bs4.img c) as [im |].
    + destruct (Bs4.src im) as [s |] eqn:Es; cbn [Py.or_empty].
      * split; intros [H1 H2]; (split; [| exact H2]).
        -- now exists im, s.
        -- destruct H1 as (im' & s' & [= <-] & Es' & Hs').
           rewrite Es in Es'. now injection Es' as ->.
      * split; intros [H1 H2]; [easy |].
        destruct H1 as (im' & s' & [= <-] & Es' & _). congruence.
    + split; intros [H1 H2]; [easy |].
      destruct H1 as (im' & s' & Habs & _). discriminate Habs.
  - intros im. unfold fallback_match. rewrite andb_true_iff, Htruthy.
    destruct (Bs4.src im) as [s |]; cbn [Py.or_empty].
    + split; intros [H1 H2]; (split; [exact H1 |]).
      * now exists s.
      * destruct H2 as (s' & [= <-] & Hs). exact Hs.
    + split; intros [H1 H2]; [easy |]. destruct H2 as (s' & Habs & _).
      discriminate Habs.
Qed.

Lemma extract_graph_none_iff_witness :
  Scraper.extract_graph sample_urljoin sourceless_soup
    "https://en.wikipedia.org/wiki/P" = (None, None).
Proof.
  apply (proj1 (extract_graph_none_iff sample_urljoin sourceless_soup
                  "https://en.wikipedia.org/wiki/P")).
  split; [reflexivity | repeat constructor].
Defined.

(** C10. When the container that wins the first pass has no caption
    element, or a caption element with empty text, the caption returned is
    null, whatever the alt text that counted in its score. When no
    container qualifies and the fallback pass accepts an article image,
    the first accepted one, the caption returned is the alt text of that
    image. *)
Theorem extract_graph_caption :
  forall (urljoin : string -> string -> string) (soup : Bs4.Soup)
         (page_url : string),
    (forall w,
        first_max container_score w (filter qualifies (Bs4.containers soup)) ->
        Bs4.caption_el w = None \/ Bs4.caption_el w = Some "" ->
        snd (Scraper.extract_graph urljoin soup page_url) = None)
    /\ (forall pre im post,
           filter qualifies (Bs4.containers soup) = [] ->
           Bs4.content_imgs soup = (pre ++ im :: post)%list ->
           Forall (fun i => fallback_match i = false) pre ->
           fallback_match im = true ->
           Scraper.extract_graph urljoin soup page_url
           = (Some (urljoin page_url
                      (Scraper.normalize_img_url (Py.or_empty (Bs4.src im)))),
              Bs4.alt im)
           /\ exists a, Bs4.alt im = Some a /\ a <> "").
Proof.
  intros urljoin soup page_url. split.
  - intros w Hw Hcap.
    rewrite (extract_graph_winner urljoin soup page_url w Hw).
    unfold graph_of, container_caption. cbn [snd].
    now destruct Hcap as [-> | ->].
  - intros pre im post E Himgs Hpre Him. split.
    + rewrite (extract_graph_fallback urljoin soup page_url E), Himgs.
      now apply fallback_pass_first.
    + unfold fallback_match in Him. apply andb_prop in Him as [Hpoll _].
      destruct (Bs4.alt im) as [a |]; [| discriminate Hpoll].
      exists a. split; [reflexivity |]. intros ->. discriminate Hpoll.
Qed.

Lemma extract_graph_caption_witness :
  snd (Scraper.extract_graph sample_urljoin twin_soup
         "https://en.wikipedia.org/wiki/P") = None
  /\ Scraper.extract_graph sample_urljoin fallback_soup
       "https://en.wikipedia.org/wiki/P"
     = (Some "https://upload.example.org/p.svg", Some "UK Polling 2024").
Proof.
  destruct (extract_graph_caption sample_urljoin twin_soup
              "https://en.wikipedia.org/wiki/P") as [Hnull _].
  destruct (extract_graph_caption sample_urljoin fallback_soup
              "https://en.wikipedia.org/wiki/P") as [_ Hfall].
  split.
  - apply (Hnull (figure "//upload.example.org/first.svg" "Opinion polling" None));
      [| now left].
    exists [], [figure "//upload.example.org/second.svg" "Opinion polling" None].
    split; [reflexivity |]. split; repeat constructor. vm_compute. congruence.
  - apply (Hfall [{| Bs4.src := Some "/static/logo.png"; Bs4.alt := None |}]
             {| Bs4.src := Some "https://upload.example.org/p.svg";
                Bs4.alt := Some "UK Polling 2024" |} []);
      [reflexivity | reflexivity | repeat constructor | reflexivity].
Defined.

(** ** Further properties: substrings and the scorers *)

Lemma string_app_assoc (a b c : string) : (a ++ b) ++ c = a ++ b ++ c.
Proof. induction a as [| x a IH]; cbn; [reflexivity | now rewrite IH]. Qed.

Lemma string_app_nil_r (a : string) : a ++ "" = a.
Proof. induction a as [| x a IH]; cbn; [reflexivity | now rewrite IH]. Qed.

Lemma startswith_iff (p s : string) :
  Py.startswith p s = true <-> exists rest, s = p ++ rest.
Proof.
  revert s. induction p as [| a p IH]; intros s; cbn.
  - split; [intros _; now exists s | reflexivity].
  - destruct s as [| b s].
    + split; [discriminate | intros (rest & E); discriminate E].
    + rewrite andb_true_iff, Ascii.eqb_eq, IH. split.
      * intros [-> (rest & ->)]. now exists rest.
      * intros (rest & E). injection E as -> ->. split; [reflexivity |].
        now exists rest.
Qed.

(** [needle in hay] holds exactly when [hay] is some text, the needle,
    some text. *)
Lemma contains_iff (needle hay : string) :
  Py.contains needle hay = true
  <-> exists pre post, hay = pre ++ needle ++ post.
Proof.
  induction hay as [| c hay IH].
  - cbn [Py.contains]. rewrite orb_false_r, startswith_iff. split.
    + intros (rest & E). now exists "", rest.
    + intros ([| x pre] & post & E); [now exists post | discriminate E].
  - cbn [Py.contains]. rewrite orb_true_iff, startswith_iff, IH. split.
    + intros [(rest & E) | (pre & post & E)].
      * now exists "", rest.
      * exists (String c pre), post. cbn. now rewrite E.
    + intros ([| x pre] & post & E).
      * left. now exists post.
      * right. cbn in E. injection E as -> ->. now exists pre, post.
Qed.

Lemma contains_trans (a b c : string) :
  Py.contains a b = true -> Py.contains b c = true -> Py.contains a c = true.
Proof.
  rewrite !contains_iff. intros (p1 & q1 & ->) (p2 & q2 & ->).
  exists (p2 ++ p1), (q1 ++ q2). now rewrite !string_app_assoc.
Qed.

Lemma contains_in_context (needle a t b : string) :
  Py.contains needle t = true -> Py.contains needle (a ++ t ++ b) = true.
Proof.
  rewrite !contains_iff. intros (p & q & ->).
  exists (a ++ p), (q ++ b). now rewrite !string_app_assoc.
Qed.

Lemma lower_app (a b : string) : Py.lower (a ++ b) = Py.lower a ++ Py.lower b.
Proof. induction a as [| x a IH]; cbn; [reflexivity | now rewrite IH]. Qed.

Lemma weight_mono (w : Z) (b1 b2 : bool) :
  0 <= w -> (b1 = true -> b2 = true) -> weight w b1 <= weight w b2.
Proof.
  intros Hw H. destruct b1; cbn.
  - rewrite (H eq_refl). cbn. lia.
  - destruct b2; cbn; lia.
Qed.

Lemma score_graph_candidate_sum (text : string) :
  Scraper.score_graph_candidate text
  = weight 2 (Py.contains "opinion" (Py.lower text))
    + weight 3 (Py.contains "poll" (Py.lower text))
    + weight 1 (Py.contains "graph" (Py.lower text)
                || Py.contains "chart" (Py.lower text))
    + weight 2 (Py.contains "next united kingdom" (Py.lower text)
                || Py.contains "general election" (Py.lower text)).
Proof.
  unfold Scraper.score_graph_candidate.
  destruct (Py.contains "opinion" _), (Py.contains "poll" _),
    (Py.contains "graph" _), (Py.contains "chart" _),
    (Py.contains "next united kingdom" _),
    (Py.contains "general election" _); reflexivity.
Qed.

(** X1. [normalize_img_url] never returns a protocol-relative URL: a
    source that begins with "//" gets the scheme "https:" in front, any
    other source is returned as it is, and normalizing twice is the same
    as normalizing once. *)
Theorem normalize_img_url_absolute :
  forall src : string,
    Py.startswith "//" (Scraper.normalize_img_url src) = false
    /\ Scraper.normalize_img_url (Scraper.normalize_img_url src)
       = Scraper.normalize_img_url src
    /\ (Py.startswith "//" src = false -> Scraper.normalize_img_url src = src)
    /\ (forall rest, Scraper.normalize_img_url ("//" ++ rest)
                     = "https://" ++ rest).
Proof.
  intros src.
  assert (Py.startswith "//" (Scraper.normalize_img_url src) = false) as H.
  { unfold Scraper.normalize_img_url.
    destruct (Py.startswith "//" src) eqn:E; [reflexivity | exact E]. }
  split; [exact H |]. split; [| split].
  - unfold Scraper.normalize_img_url at 1. now rewrite H.
  - intros E. unfold Scraper.normalize_img_url. now rewrite E.
  - reflexivity.
Qed.

Lemma normalize_img_url_absolute_witness :
  Scraper.normalize_img_url "/wiki/File:x.png" = "/wiki/File:x.png".
Proof.
  apply (proj1 (proj2 (proj2 (normalize_img_url_absolute "/wiki/File:x.png")))).
  reflexivity.
Defined.

(** X2. The relevance score of a text lies between 0 and 8, and every
    candidate the first pass of [extract_graph] keeps has a score between
    1 and 8. *)
Theorem score_graph_candidate_range :
  (forall text : string, 0 <= Scraper.score_graph_candidate text <= 8)
  /\ (forall (urljoin : string -> string -> string) (page_url : string)
             (cs : list Bs4.Container) (item : Scraper.candidate),
         In item (Scraper.primary_pass urljoin page_url cs) ->
         1 <= fst (fst item) <= 8).
Proof.
  assert (forall text, 0 <= Scraper.score_graph_candidate text <= 8) as Hrange.
  { intros text. rewrite score_graph_candidate_sum.
    destruct (Py.contains "opinion" _), (Py.contains "poll" _),
      (Py.contains "graph" _ || Py.contains "chart" _),
      (Py.contains "next united kingdom" _ || Py.contains "general election" _);
      cbn; lia. }
  split; [exact Hrange |].
  intros urljoin page_url cs item Hin. rewrite primary_pass_eq in Hin.
  apply in_map_iff in Hin as (c & <- & Hc). apply filter_In in Hc as [_ Hq].
  unfold qualifies in Hq. apply andb_prop in Hq as [_ Hpos].
  apply Z.ltb_lt in Hpos. cbn [candidate_of fst].
  specialize (Hrange (context c)). unfold container_score in *. lia.
Qed.

Lemma score_graph_candidate_range_witness :
  In (6, "https://upload.example.org/first.svg", Some "graph")
    (Scraper.primary_pass sample_urljoin "https://en.wikipedia.org/wiki/P"
       (Bs4.containers tie_soup))
  /\ 1 <= 6 <= 8.
Proof.
  assert (In (6, "https://upload.example.org/first.svg", Some "graph")
            (Scraper.primary_pass sample_urljoin
               "https://en.wikipedia.org/wiki/P" (Bs4.containers tie_soup)))
    as Hin by (right; left; reflexivity).
  split; [exact Hin |].
  exact (proj2 score_graph_candidate_range sample_urljoin
           "https://en.wikipedia.org/wiki/P" (Bs4.containers tie_soup)
           (6, "https://upload.example.org/first.svg", Some "graph") Hin).
Defined.

(** X3. Text around a text never lowers its relevance score: the score of
    [before ++ text ++ after] is at least the score of [text]. *)
Theorem score_graph_candidate_monotone :
  forall before text after : string,
    Scraper.score_graph_candidate text
    <= Scraper.score_graph_candidate (before ++ text ++ after).
Proof.
  intros a t b. rewrite !score_graph_candidate_sum, !lower_app.
  assert (forall p, Py.contains p (Py.lower t) = true ->
                    Py.contains p (Py.lower a ++ Py.lower t ++ Py.lower b) = true)
    as Hin by (intros p; apply contains_in_context).
  assert (forall p q,
             Py.contains p (Py.lower t) || Py.contains q (Py.lower t) = true ->
             Py.contains p (Py.lower a ++ Py.lower t ++ Py.lower b)
             || Py.contains q (Py.lower a ++ Py.lower t ++ Py.lower b) = true)
    as Hor.
  { intros p q H. apply orb_true_iff in H as [H | H]; apply Hin in H;
      rewrite H; [reflexivity | apply orb_true_r]. }
  pose proof (weight_mono 2 _ _ ltac:(lia) (Hin "opinion")).
  pose proof (weight_mono 3 _ _ ltac:(lia) (Hin "poll")).
  pose proof (weight_mono 1 _ _ ltac:(lia) (Hor "graph" "chart")).
  pose proof (weight_mono 2 _ _ ltac:(lia)
                (Hor "next united kingdom" "general election")).
  lia.
Qed.

(** ** Further properties: table scoring and selection *)

Lemma hits_range (tokens : list string) (header : string) :
  0 <= hits tokens header <= Z.of_nat (List.length tokens).
Proof.
  unfold hits.
  pose proof (filter_length_le (fun tok => Py.contains tok header) tokens).
  lia.
Qed.

Lemma extract_table_of_first_max
    (read_html : string -> exn + list Pandas.DataFrame) (html : string)
    (tables : list Pandas.DataFrame) (m : Pandas.DataFrame) :
  read_html html = inr tables ->
  first_max Scraper.score_table m tables ->
  Scraper.extract_table read_html html
  = if Scraper.score_table m <? 4 then inl NoConfidentTable
    else inr (table_title, m).
Proof.
  intros E Hm. destruct tables as [| t ts].
  - destruct Hm as ([| ? ?] & post & Habs & _); discriminate Habs.
  - rewrite (extract_table_cons read_html html t ts E). cbn zeta.
    now rewrite (first_max_unique _ _ _ _
                   (max_from_first_max Scraper.score_table t ts) Hm).
Qed.

Lemma first_max_exists {A : Type} (key : A -> Z) (l : list A) :
  l <> [] -> exists m, first_max key m l.
Proof.
  destruct l as [| x l]; [easy |]. intros _.
  exists (Py.max_from key x l). apply max_from_first_max.
Qed.

(** Putting an element that some element beats into a list leaves the
    first maximum where it is. *)
Lemma first_max_insert {A : Type} (key : A -> Z) (m x : A) (l1 l2 : list A) :
  first_max key m (l1 ++ l2)%list -> key x < key m ->
  first_max key m (l1 ++ x :: l2)%list.
Proof.
  intros (pre & post & E & Hpre & Hpost) Hx.
  apply app_eq_app in E as (l & [[-> E] | [-> ->]]).
  - destruct l as [| y l]; cbn in E.
    + subst l2. rewrite app_nil_r. exists (pre ++ [x])%list, post.
      split; [now rewrite <- app_assoc |]. split; [| exact Hpost].
      apply Forall_app. split; [exact Hpre | now constructor].
    + injection E as <- ->. exists pre, (l ++ x :: l2)%list.
      split; [now rewrite <- app_assoc |]. split; [exact Hpre |].
      apply Forall_app in Hpost as [Hl Hl2]. apply Forall_app.
      split; [exact Hl |]. constructor; [lia | exact Hl2].
  - exists (l1 ++ x :: l)%list, post.
    split; [now rewrite <- !app_assoc |]. split; [| exact Hpost].
    apply Forall_app in Hpre as [H1 Hl]. apply Forall_app.
    split; [exact H1 |]. constructor; [exact Hx | exact Hl].
Qed.

(** X4. The score of a table lies between 0 and 16, whatever its header
    and its number of rows. *)
Theorem score_table_range :
  forall df : Pandas.DataFrame, 0 <= Scraper.score_table df <= 16.
Proof.
  intros df. rewrite score_table_sum.
  pose proof (hits_range poll_tokens (joined_header df)) as H1.
  pose proof (hits_range party_tokens (joined_header df)) as H2.
  cbn in H1, H2. destruct (5 <=? Pandas.len df); lia.
Qed.

(** X5. A table whose joined, lower-cased header contains "pollster"
    scores at least 4, because that header contains "poll" as well; a page
    with such a table among its parsed tables is therefore never rejected:
    [extract_table] returns a table scoring at least 4. *)
Theorem extract_table_accepts_pollster :
  forall (read_html : string -> exn + list Pandas.DataFrame)
         (html : string) (tables : list Pandas.DataFrame)
         (df : Pandas.DataFrame),
    read_html html = inr tables ->
    In df tables ->
    Py.contains "pollster" (joined_header df) = true ->
    4 <= Scraper.score_table df
    /\ exists best,
        Scraper.extract_table read_html html = inr (table_title, best)
        /\ Scraper.score_table df <= Scraper.score_table best.
Proof.
  intros read_html html tables df E Hin Hp.
  assert (4 <= Scraper.score_table df) as Hdf.
  { rewrite score_table_sum.
    pose proof (hits_range party_tokens (joined_header df)) as H2.
    assert (Py.contains "poll" (joined_header df) = true) as Hpoll
        by (apply (contains_trans _ "pollster"); [reflexivity | exact Hp]).
    unfold hits at 1, poll_tokens. cbn [filter]. rewrite Hpoll, Hp.
    destruct (Py.contains "date" _), (Py.contains "fieldwork" _),
      (5 <=? Pandas.len df); cbn [List.length]; lia. }
  split; [exact Hdf |].
  destruct (first_max_exists Scraper.score_table tables) as (m & Hm).
  { intros ->. destruct Hin. }
  pose proof (first_max_upper _ _ _ Hm) as Hup.
  rewrite Forall_forall in Hup. specialize (Hup df Hin). cbn in Hup.
  exists m. split; [| exact Hup].
  rewrite (extract_table_of_first_max read_html html tables m E Hm).
  destruct (Z.ltb_spec (Scraper.score_table m) 4); [lia | reflexivity].
Qed.

Lemma extract_table_accepts_pollster_witness :
  4 <= Scraper.score_table polling_df
  /\ exists best,
      Scraper.extract_table (fun _ => inr [generic_df; polling_df]) "<html>"
      = inr (table_title, best)
      /\ Scraper.score_table polling_df <= Scraper.score_table best.
Proof.
  apply (extract_table_accepts_pollster
           (fun _ => inr [generic_df; polling_df]) "<html>"
           [generic_df; polling_df] polling_df eq_refl).
  - right. now left.
  - reflexivity.
Defined.

(** X6. A further table that scores below some table of the page does not
    change what [extract_table] returns or raises, wherever it stands in
    the sequence of parsed tables. *)
Theorem extract_table_ignores_weaker :
  forall (read_html : string -> exn + list Pandas.DataFrame)
         (html html' : string) (before after : list Pandas.DataFrame)
         (extra other : Pandas.DataFrame),
    read_html html = inr (before ++ after)%list ->
    read_html html' = inr (before ++ extra :: after)%list ->
    In other (before ++ after)%list ->
    Scraper.score_table extra < Scraper.score_table other ->
    Scraper.extract_table read_html html'
    = Scraper.extract_table read_html html.
Proof.
  intros read_html html html' before after extra other E E' Hin Hlt.
  destruct (first_max_exists Scraper.score_table (before ++ after)%list)
    as (m & Hm).
  { intros Hnil. rewrite Hnil in Hin. destruct Hin. }
  pose proof (first_max_upper _ _ _ Hm) as Hup.
  rewrite Forall_forall in Hup. specialize (Hup other Hin). cbn in Hup.
  rewrite (extract_table_of_first_max read_html html _ m E Hm).
  apply (extract_table_of_first_max read_html html' _ m E').
  apply first_max_insert; [exact Hm | lia].
Qed.

Lemma extract_table_ignores_weaker_witness :
  Scraper.extract_table
    (fun h => if String.eqb h "two" then inr [generic_df; polling_df]
              else inr [polling_df]) "two"
  = Scraper.extract_table
      (fun h => if String.eqb h "two" then inr [generic_df; polling_df]
                else inr [polling_df]) "one".
Proof.
  apply (extract_table_ignores_weaker _ "one" "two" [] [polling_df]
           generic_df polling_df eq_refl eq_refl).
  - now left.
  - reflexivity.
Defined.

(** ** Further properties: trimmed labels and normalized rows *)

Lemma lstrip_head (s : string) :
  Py.lstrip s = ""
  \/ exists c r, Py.lstrip s = String c r /\ Py.isspace c = false.
Proof.
  induction s as [| c s IH]; cbn; [now left |].
  destruct (Py.isspace c) eqn:E; [exact IH |]. right. now exists c, s.
Qed.

Lemma rstrip_cons (c : ascii) (r : string) :
  Py.isspace c = false -> Py.rstrip (String c r) = String c (Py.rstrip r).
Proof. intros E. cbn. rewrite E. now destruct (Py.rstrip r). Qed.

Lemma rstrip_idempotent (s : string) : Py.rstrip (Py.rstrip s) = Py.rstrip s.
Proof.
  induction s as [| c s IH]; [reflexivity |].
  cbn [Py.rstrip]. destruct (Py.rstrip s) as [| d r] eqn:E.
  - destruct (Py.isspace c) eqn:Ec; [reflexivity |]. cbn. now rewrite Ec.
  - cbn [Py.rstrip]. cbn [Py.rstrip] in IH. now rewrite IH.
Qed.

Lemma rstrip_app_fixed (a b : string) :
  b <> "" -> Py.rstrip b = b -> Py.rstrip (a ++ b) = a ++ b.
Proof.
  intros Hne Hb. induction a as [| c a IH]; cbn; [exact Hb |].
  rewrite IH. destruct (a ++ b) as [| d r] eqn:E; [| reflexivity].
  destruct a; [cbn in E; contradiction | discriminate E].
Qed.

(** A text with no white space at either end, and not empty. *)
Lemma strip_shape (s : string) :
  Py.strip s = ""
  \/ exists c r,
      Py.strip s = String c r /\ Py.isspace c = false
      /\ Py.rstrip (Py.strip s) = Py.strip s.
Proof.
  unfold Py.strip. destruct (lstrip_head s) as [-> | (c & r & -> & Hc)].
  - now left.
  - right. rewrite (rstrip_cons c r Hc). exists c, (Py.rstrip r).
    split; [reflexivity |]. split; [exact Hc |].
    now rewrite (rstrip_cons _ _ Hc), rstrip_idempotent.
Qed.

Lemma strip_fixed_of_shape (s : string) (c : ascii) (r : string) :
  s = String c r -> Py.isspace c = false -> Py.rstrip s = s -> Py.strip s = s.
Proof. intros -> Hc Hr. unfold Py.strip. cbn [Py.lstrip]. now rewrite Hc. Qed.

Lemma strip_idempotent (s : string) : Py.strip (Py.strip s) = Py.strip s.
Proof.
  destruct (strip_shape s) as [-> | (c & r & E & Hc & Hr)]; [reflexivity |].
  now apply (strip_fixed_of_shape _ c r).
Qed.

Lemma join_trimmed (parts : list string) :
  parts <> [] ->
  Forall (fun p => exists c r, p = String c r /\ Py.isspace c = false
                               /\ Py.rstrip p = p) parts ->
  exists c r, Py.join " | " parts = String c r /\ Py.isspace c = false
              /\ Py.rstrip (Py.join " | " parts) = Py.join " | " parts.
Proof.
  intros Hne H. induction H as [| p parts (c & r & -> & Hc & Hr) Hrest IH];
    [easy |].
  destruct parts as [| q parts].
  - cbn. now exists c, r.
  - specialize (IH ltac:(discriminate)). destruct IH as (c' & r' & E & Hc' & Hr').
    change (Py.join " | " (String c r :: q :: parts))
      with (String c r ++ " | " ++ Py.join " | " (q :: parts)).
    exists c, (r ++ " | " ++ Py.join " | " (q :: parts)).
    split; [reflexivity |]. split; [exact Hc |].
    rewrite <- string_app_assoc. apply rstrip_app_fixed; [| exact Hr'].
    rewrite E. discriminate.
Qed.

(** X7. Every flattened column label is free of leading and trailing
    white space (trimming it again changes nothing), and a label made from
    a multi-level header is never empty. *)
Theorem flatten_columns_trimmed :
  (forall (c : Pandas.Columns) (label : string),
      In label (Scraper.flatten_columns c) -> Py.strip label = label)
  /\ (forall (tuples : list (list Pandas.value)) (label : string),
         In label (Scraper.flatten_columns (Pandas.MultiIndex tuples)) ->
         label <> "").
Proof.
  assert (forall tup,
             exists c r, flatten_tuple tup = String c r
                         /\ Py.isspace c = false
                         /\ Py.rstrip (flatten_tuple tup) = flatten_tuple tup)
    as Htup.
  { intros tup. unfold flatten_tuple. cbn zeta.
    destruct (map _ (filter level_kept tup)) as [| p parts] eqn:E.
    - now exists "c"%char, "olumn".
    - rewrite <- E. apply join_trimmed; [rewrite E; discriminate |].
      apply Forall_map, Forall_forall. intros x Hx.
      apply filter_In in Hx as [_ Hx]. unfold level_kept in Hx.
      apply andb_prop in Hx as [Hx _].
      destruct (strip_shape (Pandas.str x)) as [E0 | (c & r & E1 & Hc & Hr)].
      + rewrite E0 in Hx. discriminate Hx.
      + now exists c, r. }
  split.
  - intros [labels | tuples] label Hin.
    + cbn in Hin. apply in_map_iff in Hin as (x & <- & _).
      apply strip_idempotent.
    + rewrite flatten_columns_multi in Hin.
      apply in_map_iff in Hin as (tup & <- & _).
      destruct (Htup tup) as (c & r & E & Hc & Hr).
      now apply (strip_fixed_of_shape _ c r).
  - intros tuples label Hin. rewrite flatten_columns_multi in Hin.
    apply in_map_iff in Hin as (tup & <- & _).
    destruct (Htup tup) as (c & r & E & _). rewrite E. discriminate.
Qed.

Lemma flatten_columns_trimmed_witness :
  Py.strip "Con | 2024" = "Con | 2024" /\ "Con | 2024" <> "".
Proof.
  assert (In "Con | 2024"
            (Scraper.flatten_columns
               (Pandas.MultiIndex
                  [[Pandas.NaN; Pandas.Str " "];
                   [Pandas.Str " Con"; Pandas.Int 2024]])))
    as Hin by (right; left; reflexivity).
  split.
  - exact (proj1 flatten_columns_trimmed _ _ Hin).
  - exact (proj2 flatten_columns_trimmed _ _ Hin).
Defined.

Lemma map_snd_combine_same {A B : Type} (l : list A) :
  forall l' : list B,
    List.length l = List.length l' -> map snd (combine l l') = l'.
Proof.
  induction l as [| a l IH]; intros [| b l'] E; cbn in *;
    try reflexivity; try discriminate.
  f_equal. apply IH. now injection E.
Qed.

(** X8. When the flattened labels of a rectangular table are pairwise
    distinct, every row mapping is, item by item and in column order, the
    column labels paired with the texts of the cells of the input row at
    the same position: reading the values back in order gives the cell
    texts of the row. *)
Theorem dataframe_to_rows_items :
  forall (df : Pandas.DataFrame) (i : nat) (row : list Pandas.value),
    Pandas.rectangular df = true ->
    NoDup (Scraper.flatten_columns (Pandas.columns df)) ->
    nth_error (Pandas.data df) i = Some row ->
    exists out,
      nth_error (snd (Scraper.dataframe_to_rows df)) i = Some out
      /\ out = combine (fst (Scraper.dataframe_to_rows df))
                 (map (fun v => if Pandas.isna v then "" else Pandas.str v)
                    row)
      /\ map snd out
         = map (fun v => if Pandas.isna v then "" else Pandas.str v) row.
Proof.
  intros df i row R ND Hrow.
  pose proof (rectangular_row df row R (nth_error_In _ _ Hrow)) as Hlen.
  rewrite dataframe_to_rows_eq. cbn [fst snd].
  set (labels := Scraper.flatten_columns (Pandas.columns df)) in *.
  exists (normalize_row labels row).
  assert (normalize_row labels row = combine labels (map cell_text row)) as E.
  { unfold normalize_row, Py.dict_of.
    apply (fold_setitem_fresh (combine labels (map cell_text row)) []).
    cbn [app]. unfold Py.keys.
    rewrite map_fst_combine_same; [exact ND | now rewrite length_map]. }
  split; [| split].
  - now rewrite nth_error_map, Hrow.
  - exact E.
  - rewrite E. apply map_snd_combine_same. now rewrite length_map.
Qed.

Lemma dataframe_to_rows_items_witness :
  exists out,
    nth_error (snd (Scraper.dataframe_to_rows generic_df)) 1 = Some out
    /\ out = combine (fst (Scraper.dataframe_to_rows generic_df)) ["b"; ""]
    /\ map snd out = ["b"; ""].
Proof.
  apply (dataframe_to_rows_items generic_df 1 [Pandas.Str "b"; Pandas.NaN]).
  - reflexivity.
  - repeat constructor; cbn; intuition discriminate.
  - reflexivity.
Defined.

(** ** Further properties: sanitized filenames *)

Lemma all_chars_app (p : ascii -> bool) (a b : string) :
  all_chars p (a ++ b) = all_chars p a && all_chars p b.
Proof.
  induction a as [| c a IH]; cbn; [reflexivity |].
  now rewrite IH, andb_assoc.
Qed.

Lemma all_chars_impl (p q : ascii -> bool) (s : string) :
  (forall c, p c = true -> q c = true) ->
  all_chars p s = true -> all_chars q s = true.
Proof.
  intros Hpq. induction s as [| c s IH]; cbn; [reflexivity |].
  intros H. apply andb_prop in H as [Hc Hs].
  now rewrite (Hpq c Hc), IH.
Qed.

Lemma in_class_not_slash (c : ascii) :
  Scraper.in_class c = true -> negb (Ascii.eqb c "/") = true.
Proof. destruct c as [[] [] [] [] [] [] [] []]; vm_compute; congruence. Qed.

Lemma in_class_not_space (c : ascii) :
  Scraper.in_class c = true -> negb (Py.isspace c) = true.
Proof. destruct c as [[] [] [] [] [] [] [] []]; vm_compute; congruence. Qed.

Lemma re_sub_nil_inv (s : string) : Scraper.re_sub false s = "" -> s = "".
Proof.
  destruct s as [| c s]; [reflexivity |]. cbn.
  destruct (Scraper.in_class c); discriminate.
Qed.

Lemma re_sub_clean (s : string) :
  all_chars Scraper.in_class s = true -> Scraper.re_sub false s = s.
Proof.
  intros H. rewrite <- (string_app_nil_r s) at 1.
  rewrite (re_sub_kept s "" H). apply string_app_nil_r.
Qed.

Lemma last_In {A : Type} (l : list A) (d : A) :
  l <> [] -> In (last l d) l.
Proof.
  induction l as [| a l IH]; [easy |]. intros _.
  destruct l as [| b l]; [now left |].
  right. apply IH. discriminate.
Qed.

Lemma path_name_component (p : string) :
  Scraper.path_name p = ""
  \/ (Scraper.path_name p <> "" /\ Scraper.path_name p <> ".").
Proof.
  unfold Scraper.path_name.
  set (parts := filter _ (Scraper.split_slash p)).
  destruct parts as [| x parts'] eqn:E; [now left |]. right.
  assert (In (last (x :: parts') "") parts) as Hin
      by (rewrite E; apply last_In; discriminate).
  unfold parts in Hin. apply filter_In in Hin as [_ H].
  apply andb_prop in H as [Ht Hd]. split.
  - intros H0. rewrite H0 in Ht. discriminate Ht.
  - intros H0. rewrite H0 in Hd. discriminate Hd.
Qed.

Lemma contains_dot_img (r : string) : Py.contains "." (r ++ ".img") = true.
Proof. apply contains_iff. now exists r, "img". Qed.

(** What every sanitized filename is like. *)
Lemma sanitized_name_facts (urlparse_path : string -> string) (url : string) :
  let name := Scraper.sanitize_filename_from_url urlparse_path url in
  all_chars Scraper.in_class name = true
  /\ Py.contains "." name = true
  /\ name <> "" /\ name <> ".".
Proof.
  unfold Scraper.sanitize_filename_from_url.
  set (seg := Scraper.path_name (urlparse_path url)).
  set (name0 := if Py.truthy seg then seg else "graph").
  assert (name0 <> "" /\ name0 <> ".") as [Hne Hdot].
  { unfold name0. destruct (path_name_component (urlparse_path url))
      as [E | [H1 H2]]; fold seg in E || fold seg in H1, H2.
    - rewrite E. cbn. split; discriminate.
    - destruct seg; [contradiction | cbn; now split]. }
  pose proof (re_sub_in_class name0 false) as Hclass.
  set (r := Scraper.re_sub false name0) in *.
  assert (r <> ".") as Hr.
  { intros E. unfold r in E. destruct name0 as [| c rest]; [contradiction |].
    cbn in E. destruct (Scraper.in_class c).
    - injection E as -> E. apply re_sub_nil_inv in E. now subst rest.
    - discriminate E. }
  cbn zeta. destruct (Py.contains "." r) eqn:Hc; cbn [negb].
  - repeat split; auto. intros E. rewrite E in Hc. discriminate Hc.
  - rewrite all_chars_app, Hclass, contains_dot_img.
    repeat split; auto.
    + destruct r; discriminate.
    + destruct r as [| c [| d r]]; try discriminate.
Qed.

Lemma sanitize_clean_segment
    (urlparse_path : string -> string) (url dir seg : string) :
  urlparse_path url = dir ++ String "/" seg ->
  all_chars Scraper.in_class seg = true ->
  Py.contains "." seg = true -> seg <> "." ->
  Scraper.sanitize_filename_from_url urlparse_path url = seg.
Proof.
  intros E Hclass Hdot Hne.
  assert (seg <> "") as Hnil by (intros ->; discriminate Hdot).
  rewrite (sanitize_of_name urlparse_path url seg); [| | exact Hnil].
  - rewrite (re_sub_clean seg Hclass). unfold with_extension. now rewrite Hdot.
  - rewrite E. apply path_name_last_segment; [| exact Hnil | exact Hne].
    apply (all_chars_impl Scraper.in_class); [exact in_class_not_slash |].
    exact Hclass.
Qed.

(** X9. A sanitized filename is never empty and never ".", is made of
    characters of [A-Za-z0-9._-] only, so it holds no "/" and no white
    space, and always contains a dot. *)
Theorem sanitize_filename_safe :
  forall (urlparse_path : string -> string) (url : string),
    let name := Scraper.sanitize_filename_from_url urlparse_path url in
    name <> "" /\ name <> "."
    /\ all_chars Scraper.in_class name = true
    /\ no_slash name = true
    /\ all_chars (fun c => negb (Py.isspace c)) name = true
    /\ Py.contains "." name = true.
Proof.
  intros up url.
  destruct (sanitized_name_facts up url) as (Hclass & Hdot & Hnil & Hne).
  cbn zeta. repeat split; auto.
  - apply (all_chars_impl Scraper.in_class); [exact in_class_not_slash |].
    exact Hclass.
  - apply (all_chars_impl Scraper.in_class); [exact in_class_not_space |].
    exact Hclass.
Qed.

(** X10. A last segment that is already clean (characters of the class
    only, with a dot, and not ".") is returned unchanged, and sanitizing
    is idempotent: the sanitized filename, taken as the last segment of a
    path, sanitizes to itself. *)
Theorem sanitize_filename_idempotent :
  (forall (urlparse_path : string -> string) (url dir seg : string),
      urlparse_path url = dir ++ String "/" seg ->
      all_chars Scraper.in_class seg = true ->
      Py.contains "." seg = true -> seg <> "." ->
      Scraper.sanitize_filename_from_url urlparse_path url = seg)
  /\ (forall (urlparse_path urlparse_path' : string -> string)
             (url url' dir : string),
         urlparse_path' url'
         = dir ++ String "/"
                    (Scraper.sanitize_filename_from_url urlparse_path url) ->
         Scraper.sanitize_filename_from_url urlparse_path' url'
         = Scraper.sanitize_filename_from_url urlparse_path url).
Proof.
  split; [exact sanitize_clean_segment |].
  intros up up' url url' dir E.
  destruct (sanitized_name_facts up url) as (Hclass & Hdot & _ & Hne).
  now apply (sanitize_clean_segment up' url' dir).
Qed.

Lemma sanitize_filename_idempotent_witness :
  Scraper.sanitize_filename_from_url (fun u => u) "/assets/Graph_final_.svg"
  = "Graph_final_.svg"
  /\ Scraper.sanitize_filename_from_url (fun u => "/tmp/" ++ u)
       (Scraper.sanitize_filename_from_url sample_urlparse_path
          "https://en.wikipedia.org/")
     = Scraper.sanitize_filename_from_url sample_urlparse_path
         "https://en.wikipedia.org/".
Proof.
  split.
  - apply (proj1 sanitize_filename_idempotent (fun u => u) _ "/assets");
      [reflexivity | reflexivity | reflexivity | discriminate].
  - apply (proj2 sanitize_filename_idempotent sample_urlparse_path
             (fun u => "/tmp/" ++ u) _ _ "/tmp").
    reflexivity.
Defined.

Lemma path_name_trailing (p tail : string) :
  tail = "" \/ tail = "." ->
  Scraper.path_name (p ++ String "/" tail) = Scraper.path_name p.
Proof.
  intros H. unfold Scraper.path_name.
  rewrite split_slash_app, filter_app.
  destruct H as [-> | ->]; cbn; now rewrite app_nil_r.
Qed.

(** X11. A trailing "/" or a trailing "/." on the URL path does not
    change the filename: it is made from the last proper segment before
    it. *)
Theorem sanitize_filename_trailing_slash :
  forall (urlparse_path : string -> string) (url url' tail : string),
    tail = "" \/ tail = "." ->
    urlparse_path url' = urlparse_path url ++ String "/" tail ->
    Scraper.sanitize_filename_from_url urlparse_path url'
    = Scraper.sanitize_filename_from_url urlparse_path url.
Proof.
  intros up url url' tail Htail E.
  unfold Scraper.sanitize_filename_from_url.
  now rewrite E, (path_name_trailing _ tail Htail).
Qed.

Lemma sanitize_filename_trailing_slash_witness :
  Scraper.sanitize_filename_from_url (fun u => u) "/w/images/chart.png/"
  = Scraper.sanitize_filename_from_url (fun u => u) "/w/images/chart.png".
Proof.
  apply (sanitize_filename_trailing_slash (fun u => u)
           "/w/images/chart.png" "/w/images/chart.png/" "");
    [now left | reflexivity].
Defined.

(** ** Further properties: the selected image *)

Lemma fallback_pass_shape
    (urljoin : string -> string -> string) (page_url : string)
    (imgs : list Bs4.Img) :
  Scraper.fallback_pass urljoin page_url imgs = (None, None)
  \/ exists im,
      In im imgs /\ fallback_match im = true
      /\ Scraper.fallback_pass urljoin page_url imgs
         = (Some (urljoin page_url
                    (Scraper.normalize_img_url (Py.or_empty (Bs4.src im)))),
            Bs4.alt im).
Proof.
  induction imgs as [| im imgs IH]; cbn; [now left |].
  fold (fallback_match im). destruct (fallback_match im) eqn:E.
  - right. exists im. repeat split; [now left | exact E].
  - destruct IH as [-> | (im' & Hin & Hm & ->)]; [now left |].
    right. exists im'. repeat split; [now right | exact Hm].
Qed.

(** X12. [extract_graph] never returns an empty caption, and never a
    caption without an image URL: a returned caption is a non-empty text
    and comes with a URL. *)
Theorem returned_caption_nonempty :
  forall (urljoin : string -> string -> string) (soup : Bs4.Soup)
         (page_url caption : string),
    snd (Scraper.extract_graph urljoin soup page_url) = Some caption ->
    caption <> ""
    /\ fst (Scraper.extract_graph urljoin soup page_url) <> None.
Proof.
  intros urljoin soup page_url caption.
  destruct (filter qualifies (Bs4.containers soup)) as [| c cs] eqn:E.
  - rewrite (extract_graph_fallback urljoin soup page_url E).
    destruct (fallback_pass_shape urljoin page_url (Bs4.content_imgs soup))
      as [-> | (im & _ & Hm & ->)]; cbn [fst snd]; [discriminate |].
    intros Halt. split; [| discriminate].
    unfold fallback_match in Hm. apply andb_prop in Hm as [Hpoll _].
    rewrite Halt in Hpoll. intros ->. discriminate Hpoll.
  - destruct (qualifying_first_max (c :: cs)) as (w & Hw); [discriminate |].
    rewrite <- E in Hw.
    rewrite (extract_graph_winner urljoin soup page_url w Hw).
    unfold graph_of. cbn [fst snd]. unfold Py.or_None.
    destruct (container_caption w) as [| x s]; cbn; [discriminate |].
    intros [= <-]. split; discriminate.
Qed.

Lemma returned_caption_nonempty_witness :
  "graph" <> ""
  /\ fst (Scraper.extract_graph sample_urljoin tie_soup
            "https://en.wikipedia.org/wiki/P") <> None.
Proof.
  apply (returned_caption_nonempty sample_urljoin tie_soup
           "https://en.wikipedia.org/wiki/P" "graph").
  reflexivity.
Defined.

(** X13. The image returned depends on the containers only through the
    qualifying ones, in order, and on the article images only when no
    container qualifies: two pages with the same qualifying containers,
    and the same article images if there is no qualifying container, give
    the same result. *)
Theorem extract_graph_depends_on_qualifying :
  forall (urljoin : string -> string -> string) (soup soup' : Bs4.Soup)
         (page_url : string),
    filter qualifies (Bs4.containers soup)
    = filter qualifies (Bs4.containers soup') ->
    (filter qualifies (Bs4.containers soup) = [] ->
     Bs4.content_imgs soup = Bs4.content_imgs soup') ->
    Scraper.extract_graph urljoin soup page_url
    = Scraper.extract_graph urljoin soup' page_url.
Proof.
  intros urljoin soup soup' page_url Eq Himgs.
  destruct (filter qualifies (Bs4.containers soup)) as [| c cs] eqn:E.
  - rewrite (extract_graph_fallback urljoin soup page_url E).
    rewrite (extract_graph_fallback urljoin soup' page_url (eq_sym Eq)).
    now rewrite (Himgs eq_refl).
  - destruct (qualifying_first_max (c :: cs)) as (w & Hw); [discriminate |].
    rewrite (extract_graph_winner urljoin soup' page_url w);
      [| now rewrite <- Eq].
    apply extract_graph_winner. now rewrite E.
Qed.

Lemma extract_graph_depends_on_qualifying_witness :
  Scraper.extract_graph sample_urljoin fallback_soup
    "https://en.wikipedia.org/wiki/P"
  = Scraper.extract_graph sample_urljoin
      {| Bs4.containers := [];
         Bs4.content_imgs := Bs4.content_imgs fallback_soup |}
      "https://en.wikipedia.org/wiki/P".
Proof.
  apply extract_graph_depends_on_qualifying; reflexivity.
Defined.

(** ** Further properties: downloading the image *)

Lemma string_length_app (a b : string) :
  String.length (a ++ b) = (String.length a + String.length b)%nat.
Proof. induction a as [| c a IH]; cbn; [reflexivity | now rewrite IH]. Qed.

Lemma substring_all (r : string) : String.substring 0 (String.length r) r = r.
Proof. induction r as [| c r IH]; cbn; [reflexivity | now rewrite IH]. Qed.

Lemma substring_skip (a r : string) (m : nat) :
  String.substring (String.length a) m (a ++ r) = String.substring 0 m r.
Proof. induction a as [| c a IH]; cbn; [reflexivity | exact IH]. Qed.

Lemma rfind_dot_none (s : string) :
  Io.rfind_dot s = None <-> dotless s = true.
Proof.
  unfold dotless. induction s as [| c s IH]; cbn; [tauto |].
  destruct (Io.rfind_dot s) as [i |].
  - split; [discriminate |]. intros H. apply andb_prop in H as [_ H].
    apply IH in H. discriminate H.
  - destruct (Ascii.eqb c "."); cbn; [split; discriminate |].
    split; [intros _; now apply IH | reflexivity].
Qed.

Lemma rfind_dot_split (s : string) : forall i,
  Io.rfind_dot s = Some i ->
  exists a b, s = a ++ String "." b /\ String.length a = i /\ dotless b = true.
Proof.
  induction s as [| c s IH]; intros i; cbn; [discriminate |].
  destruct (Io.rfind_dot s) as [j |] eqn:E.
  - intros [= <-]. destruct (IH j eq_refl) as (a & b & -> & Hlen & Hb).
    exists (String c a), b. cbn. now rewrite Hlen.
  - destruct (Ascii.eqb_spec c ".") as [-> | _]; [| discriminate].
    intros [= <-]. exists "", s. repeat split. now apply rfind_dot_none.
Qed.

Lemma rfind_dot_app (stem e : string) :
  dotless e = true ->
  Io.rfind_dot (stem ++ String "." e) = Some (String.length stem).
Proof.
  intros He. induction stem as [| c stem IH]; cbn.
  - apply rfind_dot_none in He. now rewrite He.
  - now rewrite IH.
Qed.

(** The suffix of a name is empty or a dot followed by a dotless,
    non-empty text that ends the name. *)
Lemma suffix_of_shape (n : string) :
  Io.suffix_of n = ""
  \/ exists stem e,
      n = stem ++ String "." e /\ stem <> "" /\ e <> "" /\ dotless e = true
      /\ Io.suffix_of n = String "." e.
Proof.
  unfold Io.suffix_of. destruct (Io.rfind_dot n) as [i |] eqn:E; [| now left].
  destruct (rfind_dot_split n i E) as (a & b & -> & Hlen & Hb).
  rewrite string_length_app. cbn [String.length]. rewrite Hlen.
  destruct (Nat.ltb_spec 0 i) as [Hi | Hi]; cbn [andb]; [| now left].
  destruct (Nat.ltb_spec i (i + S (String.length b) - 1)) as [Hj | Hj];
    [| now left].
  right. exists a, b. split; [reflexivity |].
  split; [intros ->; cbn in Hlen; lia |].
  split; [intros ->; cbn in Hj; lia |]. split; [exact Hb |].
  rewrite <- Hlen, substring_skip.
  replace (String.length a + S (String.length b) - String.length a)%nat
    with (String.length (String "." b)) by (cbn; lia).
  apply substring_all.
Qed.

Lemma suffix_of_app (stem e : string) :
  stem <> "" -> e <> "" -> dotless e = true ->
  Io.suffix_of (stem ++ String "." e) = String "." e.
Proof.
  intros Hs He Hd. unfold Io.suffix_of.
  rewrite (rfind_dot_app stem e Hd), string_length_app. cbn [String.length].
  assert (0 < String.length stem)%nat as H0
      by (destruct stem; [contradiction | cbn; lia]).
  assert (0 < String.length e)%nat as H1
      by (destruct e; [contradiction | cbn; lia]).
  destruct (Nat.ltb_spec 0 (String.length stem)) as [_ | ?]; [| lia].
  destruct (Nat.ltb_spec (String.length stem)
              (String.length stem + S (String.length e) - 1)) as [_ | ?];
    [| lia].
  cbn [andb]. rewrite substring_skip.
  replace (String.length stem + S (String.length e) - String.length stem)%nat
    with (String.length (String "." e)) by (cbn; lia).
  apply substring_all.
Qed.

Lemma name_div (p : Io.Path) (n : string) : Io.name (Io.div p n) = n.
Proof. unfold Io.name, Io.div. apply last_last. Qed.

(** [download_graph], outcome by outcome. *)
Lemma download_graph_cases
    (w : Io.World) (session : Io.Session) (url : string) (dir : Io.Path)
    (log : list Io.event) :
  let filename :=
    Scraper.sanitize_filename_from_url (Io.urlparse_path w) url in
  let made := Io.Mkdir dir in
  let asked := Io.Get (Io.headers session) url 30 in
  let log1 := (log ++ [made])%list in
  let log2 := (log1 ++ [asked])%list in
  Io.download_graph w session url dir log
  = match Io.fs_error w log made with
    | Some e => (inl e, log1)
    | None =>
        match Io.get_result w log1 url with
        | inl e => (inl e, log2)
        | inr resp =>
            match Io.status_error resp with
            | Some e => (inl e, log2)
            | None =>
                let first :=
                  Io.WriteBytes (Io.div dir filename) (Io.content resp) in
                let second :=
                  Io.WriteBytes
                    (Io.div dir ("graph-latest" ++ latest_ext filename))
                    (Io.content resp) in
                let log3 := (log2 ++ [first])%list in
                let log4 := (log3 ++ [second])%list in
                match Io.fs_error w log2 first with
                | Some e => (inl e, log3)
                | None =>
                    match Io.fs_error w log3 second with
                    | Some e => (inl e, log4)
                    | None =>
                        (inr ("assets/graph-latest" ++ latest_ext filename),
                         log4)
                    end
                end
            end
        end
    end.
Proof.
  cbn zeta. unfold Io.download_graph, Io.bind, Io.perform, Io.session_get,
    Io.raise_for_status, Io.suffix, latest_ext.
  rewrite !name_div.
  destruct (Io.fs_error w log _); [reflexivity |].
  destruct (Io.get_result w _ url) as [e | resp]; [reflexivity |].
  destruct (Io.status_error resp); cbn; [reflexivity |].
  destruct (Io.fs_error w _ _); [reflexivity |].
  destruct (Io.fs_error w _ _); reflexivity.
Qed.

Lemma latest_ext_shape (filename : string) :
  latest_ext filename = ".img"
  \/ exists stem e,
      filename = stem ++ String "." e /\ stem <> "" /\ e <> ""
      /\ dotless e = true /\ latest_ext filename = String "." e.
Proof.
  unfold latest_ext.
  destruct (suffix_of_shape filename) as [-> | (stem & e & E & Hs & He & Hd & ->)].
  - now left.
  - right. now exists stem, e.
Qed.

(** X14. When [download_graph] returns, it has created the directory,
    made one request for the image with the session's headers and a
    timeout of 30, and written the content of the response twice, first
    under the sanitized filename and then under "graph-latest" with an
    extension, both inside the assets directory. It returns
    "assets/graph-latest" with that extension, which always begins with a
    dot: it is the suffix of the sanitized filename, or ".img". *)
Theorem download_graph_success :
  forall (w : Io.World) (session : Io.Session) (url : string)
         (dir : Io.Path) (log log' : list Io.event) (p : string),
    Io.download_graph w session url dir log = (inr p, log') ->
    let filename :=
      Scraper.sanitize_filename_from_url (Io.urlparse_path w) url in
    let ext := latest_ext filename in
    exists resp,
      Io.get_result w (log ++ [Io.Mkdir dir])%list url = inr resp
      /\ Io.status_error resp = None
      /\ log' = (log ++ [Io.Mkdir dir; Io.Get (Io.headers session) url 30;
                         Io.WriteBytes (Io.div dir filename) (Io.content resp);
                         Io.WriteBytes (Io.div dir ("graph-latest" ++ ext))
                           (Io.content resp)])%list
      /\ p = "assets/graph-latest" ++ ext
      /\ Py.startswith "." ext = true
      /\ (ext = ".img"
          \/ exists stem e, filename = stem ++ String "." e
                            /\ ext = String "." e).
Proof.
  intros w session url dir log log' p H filename ext.
  rewrite download_graph_cases in H. cbn zeta in H.
  destruct (Io.fs_error w log _); [discriminate H |].
  destruct (Io.get_result w _ url) as [e | resp]; [discriminate H |].
  destruct (Io.status_error resp) eqn:Es; [discriminate H |].
  destruct (Io.fs_error w _ _); [discriminate H |].
  destruct (Io.fs_error w _ _); [discriminate H |].
  injection H as <- <-. exists resp.
  split; [reflexivity |]. split; [exact Es |].
  split; [now rewrite <- !app_assoc |]. split; [reflexivity |].
  fold filename. fold ext.
  destruct (latest_ext_shape filename) as [E | (stem & e & E & _ & _ & _ & E')];
    fold ext in E || fold ext in E'.
  - rewrite E. split; [reflexivity | now left].
  - rewrite E'. split; [reflexivity |]. right. now exists stem, e.
Qed.

Lemma download_graph_success_witness :
  exists resp,
    Io.status_error resp = None
    /\ snd (Io.download_graph sample_world (Io.get_session sample_world)
              "https://upload.example.org/first.svg" ["srv"; "assets"] [])
       = [Io.Mkdir ["srv"; "assets"];
          Io.Get (Io.headers (Io.get_session sample_world))
            "https://upload.example.org/first.svg" 30;
          Io.WriteBytes ["srv"; "assets"; "first.svg"] (Io.content resp);
          Io.WriteBytes ["srv"; "assets"; "graph-latest.svg"]
            (Io.content resp)].
Proof.
  destruct (download_graph_success sample_world
              (Io.get_session sample_world)
              "https://upload.example.org/first.svg" ["srv"; "assets"] []
              (snd (Io.download_graph sample_world
                      (Io.get_session sample_world)
                      "https://upload.example.org/first.svg"
                      ["srv"; "assets"] []))
              "assets/graph-latest.svg" eq_refl)
    as (resp & _ & Hs & Hlog & _).
  exists resp. split; [exact Hs | exact Hlog].
Defined.

(** X15. Whatever happens, [download_graph] only adds to the trace, and
    it writes bytes only after the request for the image has succeeded
    with an acceptable status, and then only the content of that
    response. When the request raises, or the status check raises,
    [download_graph] raises the same exception and has written nothing. *)
Theorem download_graph_writes_after_ok :
  forall (w : Io.World) (session : Io.Session) (url : string)
         (dir : Io.Path) (log log' : list Io.event) (r : exn + string),
    Io.download_graph w session url dir log = (r, log') ->
    exists evs,
      log' = (log ++ evs)%list
      /\ forallb (fun ev => negb (is_output ev)) evs = true
      /\ (existsb is_write_bytes evs = true ->
          exists resp,
            Io.get_result w (log ++ [Io.Mkdir dir])%list url = inr resp
            /\ Io.status_error resp = None
            /\ forall path bytes,
                In (Io.WriteBytes path bytes) evs ->
                bytes = Io.content resp)
      /\ (forall e,
             Io.fs_error w log (Io.Mkdir dir) = None ->
             Io.get_result w (log ++ [Io.Mkdir dir])%list url = inl e
             \/ (exists resp,
                    Io.get_result w (log ++ [Io.Mkdir dir])%list url
                    = inr resp
                    /\ Io.status_error resp = Some e) ->
             r = inl e /\ existsb is_write_bytes evs = false).
Proof.
  intros w session url dir log log' r H.
  rewrite download_graph_cases in H. cbn zeta in H.
  destruct (Io.fs_error w log (Io.Mkdir dir)) as [e0 |] eqn:E0.
  { injection H as <- <-. exists [Io.Mkdir dir].
    split; [reflexivity |]. split; [reflexivity |].
    split; [discriminate | discriminate]. }
  destruct (Io.get_result w _ url) as [e1 | resp] eqn:E1.
  { injection H as <- <-.
    exists [Io.Mkdir dir; Io.Get (Io.headers session) url 30].
    split; [now rewrite <- app_assoc |]. split; [reflexivity |].
    split; [discriminate |].
    intros e _ [[= ->] | (resp & Habs & _)]; [now split | discriminate Habs]. }
  destruct (Io.status_error resp) as [e2 |] eqn:E2.
  { injection H as <- <-.
    exists [Io.Mkdir dir; Io.Get (Io.headers session) url 30].
    split; [now rewrite <- app_assoc |]. split; [reflexivity |].
    split; [discriminate |].
    intros e _ [Habs | (resp' & [= <-] & Hs)]; [discriminate Habs |].
    rewrite E2 in Hs. injection Hs as ->. now split. }
  set (first := Io.WriteBytes _ (Io.content resp)) in H.
  set (second := Io.WriteBytes (Io.div dir ("graph-latest" ++ _)) _) in H.
  assert (forall evs : list Io.event,
             (forall ev, In ev evs ->
                         ev = Io.Mkdir dir
                         \/ ev = Io.Get (Io.headers session) url 30
                         \/ ev = first \/ ev = second) ->
             forallb (fun ev => negb (is_output ev)) evs = true
             /\ (existsb is_write_bytes evs = true ->
                 exists resp0,
                   inr resp = inr resp0 :> exn + Io.Response
                   /\ Io.status_error resp0 = None
                   /\ forall path bytes,
                       In (Io.WriteBytes path bytes) evs ->
                       bytes = Io.content resp0)
             /\ (forall e : exn,
                    @None exn = None ->
                    inr resp = inl e :> exn + Io.Response
                    \/ (exists resp0,
                           inr resp = inr resp0 :> exn + Io.Response
                           /\ Io.status_error resp0 = Some e) ->
                    r = inl e /\ existsb is_write_bytes evs = false))
    as Hgen.
  { intros evs Hevs. split; [| split].
    - apply forallb_forall. intros ev Hin.
      destruct (Hevs ev Hin) as [-> | [-> | [-> | ->]]]; reflexivity.
    - intros _. exists resp. split; [reflexivity |]. split; [exact E2 |].
      intros path bytes Hin.
      destruct (Hevs _ Hin) as [Habs | [Habs | [Habs | Habs]]];
        try discriminate Habs; unfold first, second in Habs;
        now injection Habs.
    - intros e _ [Habs | (resp0 & [= <-] & Hs)]; [discriminate Habs |].
      rewrite E2 in Hs. discriminate Hs. }
  destruct (Io.fs_error w _ first) as [e3 |].
  { injection H as <- <-.
    exists [Io.Mkdir dir; Io.Get (Io.headers session) url 30; first].
    split; [now rewrite <- !app_assoc |]. apply Hgen.
    cbn. intuition auto. }
  destruct (Io.fs_error w _ second) as [e4 |];
    injection H as <- <-;
    (exists [Io.Mkdir dir; Io.Get (Io.headers session) url 30; first; second]);
    (split; [now rewrite <- !app_assoc |]); apply Hgen; cbn; intuition auto.
Qed.

Lemma download_graph_writes_after_ok_witness :
  fst (Io.download_graph offline_world (Io.get_session offline_world)
         "https://upload.example.org/first.svg" ["srv"; "assets"] [])
  = inl (Raise "HTTPError" "404 Client Error")
  /\ snd (Io.download_graph offline_world (Io.get_session offline_world)
            "https://upload.example.org/first.svg" ["srv"; "assets"] [])
     = [Io.Mkdir ["srv"; "assets"];
        Io.Get (Io.headers (Io.get_session offline_world))
          "https://upload.example.org/first.svg" 30].
Proof.
  destruct (download_graph_writes_after_ok offline_world
              (Io.get_session offline_world)
              "https://upload.example.org/first.svg" ["srv"; "assets"] []
              _ _ (surjective_pairing _))
    as (evs & Hlog & _ & _ & Hfail).
  destruct (Hfail (Raise "HTTPError" "404 Client Error") eq_refl) as [Hr _].
  - right. eexists. split; reflexivity.
  - split; [exact Hr | reflexivity].
Defined.

(** X16. The latest copy keeps the extension of the sanitized filename:
    when that filename is a non-empty stem, a dot and a non-empty dotless
    extension, [download_graph] returns "assets/graph-latest." followed by
    that extension; when the filename begins with its only dot, it returns
    "assets/graph-latest.img". *)
Theorem download_graph_keeps_extension :
  forall (w : Io.World) (session : Io.Session) (url : string)
         (dir : Io.Path) (log log' : list Io.event) (p stem e : string),
    Io.download_graph w session url dir log = (inr p, log') ->
    Scraper.sanitize_filename_from_url (Io.urlparse_path w) url
    = stem ++ String "." e ->
    dotless e = true ->
    (stem <> "" -> e <> "" -> p = "assets/graph-latest." ++ e)
    /\ (stem = "" -> p = "assets/graph-latest.img").
Proof.
  intros w session url dir log log' p stem e H E Hd.
  rewrite download_graph_cases in H. cbn zeta in H.
  destruct (Io.fs_error w log _); [discriminate H |].
  destruct (Io.get_result w _ url) as [e1 | resp]; [discriminate H |].
  destruct (Io.status_error resp); [discriminate H |].
  destruct (Io.fs_error w _ _); [discriminate H |].
  destruct (Io.fs_error w _ _); [discriminate H |].
  injection H as <- _. rewrite E. unfold latest_ext. split.
  - intros Hs He. now rewrite (suffix_of_app stem e Hs He Hd).
  - intros ->. unfold Io.suffix_of. rewrite (rfind_dot_app "" e Hd).
    reflexivity.
Qed.

Lemma download_graph_keeps_extension_witness :
  exists p,
    fst (Io.download_graph sample_world (Io.get_session sample_world)
           "https://upload.example.org/first.svg" ["srv"; "assets"] [])
    = inr p
    /\ p = "assets/graph-latest." ++ "svg".
Proof.
  exists "assets/graph-latest.svg". split; [reflexivity |].
  apply (proj1 (download_graph_keeps_extension sample_world
                  (Io.get_session sample_world)
                  "https://upload.example.org/first.svg" ["srv"; "assets"] []
                  _ "assets/graph-latest.svg" "first" "svg"
                  (surjective_pairing _) eq_refl eq_refl));
    discriminate.
Defined.

(** ** Further properties: the image search when [urljoin] may raise *)

Lemma primary_pass_returned
    (urljoin : string -> string -> exn + string) (page_url : string)
    (cs : list Bs4.Container) :
  forall l,
    Io.primary_pass urljoin page_url cs = inr l ->
    l = Scraper.primary_pass (returned urljoin) page_url cs.
Proof.
  induction cs as [| c cs IH]; intros l; cbn [Io.primary_pass Scraper.primary_pass].
  - now intros [= <-].
  - destruct (Bs4.img c) as [im |]; [| apply IH].
    destruct (Bs4.src im) as [s |]; [| apply IH].
    destruct (negb (Py.truthy s)); [apply IH |]. cbn zeta.
    destruct (_ <=? 0); [apply IH |].
    unfold returned at 1.
    destruct (urljoin page_url (Scraper.normalize_img_url s)) as [e | u];
      [discriminate |].
    destruct (Io.primary_pass urljoin page_url cs) as [e | rest];
      [discriminate |].
    intros [= <-]. now rewrite (IH rest eq_refl).
Qed.

Lemma fallback_pass_returned
    (urljoin : string -> string -> exn + string) (page_url : string)
    (imgs : list Bs4.Img) :
  forall r,
    Io.fallback_pass urljoin page_url imgs = inr r ->
    r = Scraper.fallback_pass (returned urljoin) page_url imgs.
Proof.
  induction imgs as [| im imgs IH]; intros r;
    cbn [Io.fallback_pass Scraper.fallback_pass].
  - now intros [= <-].
  - cbn zeta. destruct (_ && _); [| apply IH].
    unfold returned.
    destruct (urljoin page_url _) as [e | u]; [discriminate |].
    now intros [= <-].
Qed.

Lemma extract_graph_returned
    (urljoin : string -> string -> exn + string) (soup : Bs4.Soup)
    (page_url : string) (r : option string * option string) :
  Io.extract_graph urljoin soup page_url = inr r ->
  r = Scraper.extract_graph (returned urljoin) soup page_url.
Proof.
  unfold Io.extract_graph, Scraper.extract_graph.
  destruct (Io.primary_pass urljoin page_url (Bs4.containers soup))
    as [e | l] eqn:E; [discriminate |].
  rewrite <- (primary_pass_returned urljoin page_url _ l E).
  destruct l as [| first rest]; [apply fallback_pass_returned |].
  cbn zeta. destruct (hd first _) as [[score url] caption].
  now intros [= <-].
Qed.

(** The first pass, container by container. *)
Lemma primary_pass_cons
    (urljoin : string -> string -> exn + string) (page_url : string)
    (c : Bs4.Container) (cs : list Bs4.Container) :
  Io.primary_pass urljoin page_url (c :: cs)
  = if qualifies c
    then match urljoin page_url
                 (Scraper.normalize_img_url (container_src c)) with
         | inl e => inl e
         | inr url =>
             match Io.primary_pass urljoin page_url cs with
             | inl e => inl e
             | inr rest =>
                 inr ((container_score c, url,
                       Py.or_None (container_caption c)) :: rest)
             end
         end
    else Io.primary_pass urljoin page_url cs.
Proof.
  cbn [Io.primary_pass].
  destruct c as [[[[s |] a] |] cap];
    unfold qualifies, container_score, context, container_src,
      container_alt, container_caption;
    cbn [Bs4.img Bs4.src Bs4.alt Bs4.caption_el Py.or_empty Py.truthy andb];
    try reflexivity.
  destruct (Py.truthy s); cbn [negb andb]; [| reflexivity].
  rewrite Z.leb_antisym. now destruct (0 <? _).
Qed.

Lemma primary_pass_returns
    (urljoin : string -> string -> exn + string) (page_url : string)
    (cs : list Bs4.Container) :
  Forall (fun c => qualifies c = true ->
                   joins_container urljoin page_url c = true) cs ->
  exists l, Io.primary_pass urljoin page_url cs = inr l.
Proof.
  induction 1 as [| c cs Hc _ (l & IH)]; [now exists [] |].
  rewrite primary_pass_cons, IH. destruct (qualifies c); [| now exists l].
  specialize (Hc eq_refl). unfold joins_container in Hc.
  destruct (urljoin page_url _) as [e | u]; [discriminate Hc |].
  now eexists.
Qed.

Lemma primary_pass_raises
    (urljoin : string -> string -> exn + string) (page_url : string)
    (pre post : list Bs4.Container) (c : Bs4.Container) (e : exn) :
  Forall (fun c => qualifies c = true ->
                   joins_container urljoin page_url c = true) pre ->
  qualifies c = true ->
  urljoin page_url (Scraper.normalize_img_url (container_src c)) = inl e ->
  Io.primary_pass urljoin page_url (pre ++ c :: post) = inl e.
Proof.
  intros Hpre Hq He. induction Hpre as [| c0 pre Hc0 _ IH]; cbn [app].
  - now rewrite primary_pass_cons, Hq, He.
  - rewrite primary_pass_cons, IH. destruct (qualifies c0); [| reflexivity].
    specialize (Hc0 eq_refl). unfold joins_container in Hc0.
    now destruct (urljoin page_url _).
Qed.

Lemma fallback_pass_returns
    (urljoin : string -> string -> exn + string) (page_url : string)
    (imgs : list Bs4.Img) :
  Forall (fun im => fallback_match im = true ->
                    joins_img urljoin page_url im = true) imgs ->
  exists r, Io.fallback_pass urljoin page_url imgs = inr r.
Proof.
  induction 1 as [| im imgs Him _ IH]; cbn [Io.fallback_pass];
    [now eexists |].
  cbn zeta. fold (fallback_match im).
  destruct (fallback_match im); [| exact IH].
  specialize (Him eq_refl). unfold joins_img in Him.
  destruct (urljoin page_url _) as [e | u]; [discriminate Him | now eexists].
Qed.

(** X21. With a [urljoin] that may raise, [extract_graph] either raises or
    returns what it returns with the values [urljoin] returned, so that
    everything proved of the returned image holds of it. It returns when
    [urljoin] returns on the source of every qualifying container and of
    every accepted article image, and it raises the exception of the
    first qualifying container, in document order, on whose source
    [urljoin] raises, whether or not that container would have won. *)
Theorem extract_graph_urljoin_raising :
  forall (urljoin : string -> string -> exn + string) (soup : Bs4.Soup)
         (page_url : string),
    (forall r,
        Io.extract_graph urljoin soup page_url = inr r ->
        r = Scraper.extract_graph (returned urljoin) soup page_url)
    /\ (Forall (fun c => qualifies c = true ->
                         joins_container urljoin page_url c = true)
           (Bs4.containers soup) ->
        Forall (fun im => fallback_match im = true ->
                          joins_img urljoin page_url im = true)
          (Bs4.content_imgs soup) ->
        Io.extract_graph urljoin soup page_url
        = inr (Scraper.extract_graph (returned urljoin) soup page_url))
    /\ (forall pre c post e,
           Bs4.containers soup = (pre ++ c :: post)%list ->
           Forall (fun c => qualifies c = true ->
                            joins_container urljoin page_url c = true) pre ->
           qualifies c = true ->
           urljoin page_url (Scraper.normalize_img_url (container_src c))
           = inl e ->
           Io.extract_graph urljoin soup page_url = inl e).
Proof.
  intros urljoin soup page_url. split; [| split].
  - intros r. apply extract_graph_returned.
  - intros Hcs Himgs.
    assert (exists r, Io.extract_graph urljoin soup page_url = inr r)
      as (r & Hr).
    { unfold Io.extract_graph.
      destruct (primary_pass_returns urljoin page_url _ Hcs) as (l & ->).
      destruct l as [| first rest];
        [exact (fallback_pass_returns urljoin page_url _ Himgs) |].
      cbn zeta. destruct (hd first _) as [[score url] caption]. now eexists. }
    rewrite Hr. f_equal. now apply extract_graph_returned.
  - intros pre c post e Ecs Hpre Hq He. unfold Io.extract_graph.
    now rewrite Ecs, (primary_pass_raises urljoin page_url pre post c e).
Qed.

Lemma extract_graph_urljoin_raising_witness :
  Io.extract_graph (Io.urljoin strict_world) malformed_soup
    "https://en.wikipedia.org/wiki/P"
  = inl (ValueError "Invalid IPv6 URL")
  /\ Io.extract_graph (Io.urljoin strict_world) tie_soup
       "https://en.wikipedia.org/wiki/P"
     = inr (Some "https://upload.example.org/first.svg", Some "graph").
Proof.
  split.
  - apply (proj2 (proj2 (extract_graph_urljoin_raising
                           (Io.urljoin strict_world) malformed_soup
                           "https://en.wikipedia.org/wiki/P"))
             [] (figure "//[" "Opinion polling" None) []);
      [reflexivity | constructor | reflexivity | reflexivity].
  - rewrite (proj1 (proj2 (extract_graph_urljoin_raising
                             (Io.urljoin strict_world) tie_soup
                             "https://en.wikipedia.org/wiki/P"))).
    + reflexivity.
    + repeat constructor.
    + constructor.
Defined.

(** ** Further properties: the entry point *)

Lemma ensure_dirs_run (w : Io.World) (base : Io.Path) (log : list Io.event) :
  exists evs,
    snd (Io.ensure_dirs w base log) = (log ++ evs)%list
    /\ forallb (fun ev => negb (is_output ev)) evs = true
    /\ (forall dirs, fst (Io.ensure_dirs w base log) = inr dirs ->
                     dirs = site_dirs base /\ evs = mkdir_events base)
    /\ ((forall l ev, is_write_bytes ev = false -> Io.fs_error w l ev = None) ->
        fst (Io.ensure_dirs w base log) = inr (site_dirs base)).
Proof.
  unfold Io.ensure_dirs, Io.bind, Io.perform, Io.ret. cbn zeta.
  destruct (Io.fs_error w log _) as [e |] eqn:E1.
  { eexists [_]. cbn. split; [reflexivity |]. split; [reflexivity |].
    split; [intros dirs Habs; discriminate Habs |].
    intros H. rewrite H in E1 by reflexivity. discriminate E1. }
  destruct (Io.fs_error w (log ++ [_]) _) as [e |] eqn:E2.
  { eexists [_; _]. cbn. rewrite <- !app_assoc.
    split; [reflexivity |]. split; [reflexivity |].
    split; [intros dirs Habs; discriminate Habs |].
    intros H. rewrite H in E2 by reflexivity. discriminate E2. }
  destruct (Io.fs_error w ((log ++ [_]) ++ [_]) _) as [e |] eqn:E3.
  { eexists [_; _; _]. cbn. rewrite <- !app_assoc.
    split; [reflexivity |]. split; [reflexivity |].
    split; [intros dirs Habs; discriminate Habs |].
    intros H. rewrite H in E3 by reflexivity. discriminate E3. }
  destruct (Io.fs_error w (((log ++ [_]) ++ [_]) ++ [_]) _) as [e |] eqn:E4.
  { eexists [_; _; _; _]. cbn. rewrite <- !app_assoc.
    split; [reflexivity |]. split; [reflexivity |].
    split; [intros dirs Habs; discriminate Habs |].
    intros H. rewrite H in E4 by reflexivity. discriminate E4. }
  exists (mkdir_events base). cbn. rewrite <- !app_assoc.
  split; [reflexivity |]. split; [reflexivity |].
  split; [intros dirs [= <-]; now split | reflexivity].
Qed.

Lemma fetch_html_run
    (w : Io.World) (session : Io.Session) (url : string) (log : list Io.event) :
  Io.fetch_html w session url log
  = (match Io.get_result w log url with
     | inl e => inl e
     | inr resp =>
         match Io.status_error resp with
         | Some e => inl e
         | None => inr (Io.text resp)
         end
     end,
     (log ++ [Io.Get (Io.headers session) url 30])%list).
Proof.
  unfold Io.fetch_html, Io.bind, Io.session_get, Io.raise_for_status.
  destruct (Io.get_result w log url) as [e | resp]; [reflexivity |].
  now destruct (Io.status_error resp).
Qed.

(** The graph step never raises. *)
Lemma graph_step_run (w : Io.World) (url : option string) (log : list Io.event) :
  exists local_and_notes evs,
    graph_step w url log = (inr local_and_notes, (log ++ evs)%list)
    /\ forallb (fun ev => negb (is_output ev)) evs = true
    /\ (List.length (snd local_and_notes) <= 1)%nat
    /\ (fst local_and_notes = None <-> snd local_and_notes <> [])
    /\ (Py.truthy (Py.or_empty url) = false ->
        evs = []
        /\ local_and_notes = (None, ["Graph image not found on page"]))
    /\ (Py.truthy (Py.or_empty url) = true ->
        forall r log',
          Io.download_graph w (Io.get_session w) (Py.or_empty url)
            (Io.assets (site_dirs (Io.script_dir w))) log = (r, log') ->
          log' = (log ++ evs)%list
          /\ local_and_notes
             = match r with
               | inr p => (Some p, [])
               | inl e => (None, ["Graph download failed: " ++ exn_msg e])
               end).
Proof.
  unfold graph_step. destruct (Py.truthy (Py.or_empty url)) eqn:Et.
  - destruct (Io.download_graph w (Io.get_session w) (Py.or_empty url)
                (Io.assets (site_dirs (Io.script_dir w))) log)
      as [r log'] eqn:Ed.
    destruct (download_graph_writes_after_ok _ _ _ _ _ _ _ Ed)
      as (evs & -> & Hout & _).
    unfold Io.try_except, Io.bind, Io.ret. rewrite Ed.
    destruct r as [e | p].
    + exists (None, ["Graph download failed: " ++ exn_msg e]), evs.
      cbn [fst snd List.length].
      split; [reflexivity |]. split; [exact Hout |]. split; [lia |].
      split; [split; [discriminate | reflexivity] |].
      split; [discriminate |].
      intros _ r' log'' [= <- <-]. now split.
    + exists (Some p, []), evs. cbn [fst snd List.length].
      split; [reflexivity |]. split; [exact Hout |]. split; [lia |].
      split; [split; [discriminate | congruence] |].
      split; [discriminate |].
      intros _ r' log'' [= <- <-]. now split.
  - exists (None, ["Graph image not found on page"]), []. unfold Io.ret.
    rewrite app_nil_r. cbn [fst snd List.length].
    split; [reflexivity |]. split; [reflexivity |]. split; [lia |].
    split; [split; [discriminate | reflexivity] |].
    split; [now intros _ | discriminate].
Qed.

Lemma save_and_report_ok
    (w : Io.World) (payload : Io.Payload) (log : list Io.event) :
  (forall l ev, is_write_bytes ev = false -> Io.fs_error w l ev = None) ->
  save_and_report w payload log
  = (inr tt, (log ++ save_events w payload)%list).
Proof.
  intros Hok. unfold save_and_report, save_events, Io.save_json, Io.bind,
    Io.perform, Io.ret. cbn zeta.
  rewrite !Hok by reflexivity.
  destruct (Io.local_path (Io.graph payload)) as [p |]; cbn [Py.or_empty].
  - destruct (Py.truthy p).
    + rewrite Hok by reflexivity. now rewrite <- !app_assoc.
    + now rewrite <- !app_assoc.
  - cbn [Py.truthy]. now rewrite <- !app_assoc.
Qed.

Lemma save_and_report_appends
    (w : Io.World) (payload : Io.Payload) (log : list Io.event) :
  exists evs, snd (save_and_report w payload log) = (log ++ evs)%list.
Proof.
  unfold save_and_report, Io.save_json, Io.bind, Io.perform, Io.ret.
  cbn zeta.
  repeat match goal with
         | |- context [Io.fs_error w ?l ?ev] =>
             destruct (Io.fs_error w l ev);
             [cbn [snd]; rewrite <- ?app_assoc; eexists; reflexivity |]
         end.
  destruct (Py.truthy _).
  - destruct (Io.fs_error w _ _); cbn [snd]; rewrite <- ?app_assoc;
      eexists; reflexivity.
  - cbn [snd]. rewrite <- ?app_assoc. eexists; reflexivity.
Qed.

(** [main], stage by stage. *)
Lemma main_stages (w : Io.World) (log : list Io.event) :
  Io.main w log
  = match Io.ensure_dirs w (Io.script_dir w) log with
    | (inl e, l1) => (inl e, l1)
    | (inr _, l1) =>
        match Io.fetch_html w (Io.get_session w) (page_url_of w) l1 with
        | (inl e, l2) => (inl e, l2)
        | (inr html, l2) =>
            match Io.make_soup w html with
            | inl e => (inl e, l2)
            | inr soup =>
                match Io.extract_graph (Io.urljoin w) soup (page_url_of w) with
                | inl e => (inl e, l2)
                | inr found =>
                    match graph_step w (fst found) l2 with
                    | (inl e, l3) => (inl e, l3)
                    | (inr local_and_notes, l3) =>
                        match Scraper.extract_table (Io.read_html w) html with
                        | inl e => (inl e, l3)
                        | inr (title, df) =>
                            save_and_report w
                              (payload_of w found local_and_notes title df) l3
                        end
                    end
                end
            end
        end
    end.
Proof.
  unfold Io.main. unfold Io.bind at 1.
  destruct (ensure_dirs_run w (Io.script_dir w) log) as (evs & _ & _ & Hdirs & _).
  destruct (Io.ensure_dirs w (Io.script_dir w) log) as [[e | dirs] l1];
    [reflexivity |].
  destruct (Hdirs dirs eq_refl) as [-> _]. cbn zeta.
  unfold Io.bind at 1. fold (page_url_of w).
  destruct (Io.fetch_html w (Io.get_session w) (page_url_of w) l1)
    as [[e | html] l2]; [reflexivity |].
  unfold Io.bind at 1. unfold Io.lift at 1.
  destruct (Io.make_soup w html) as [e | soup]; [reflexivity |].
  unfold Io.ret at 1. unfold Io.bind at 1. unfold Io.lift at 1.
  destruct (Io.extract_graph (Io.urljoin w) soup (page_url_of w))
    as [e | [graph_remote_url graph_caption]]; [reflexivity |].
  unfold Io.ret at 1. cbn [fst]. unfold Io.bind at 1.
  change (if Py.truthy (Py.or_empty graph_remote_url) then _ else _)
    with (graph_step w graph_remote_url).
  destruct (graph_step w graph_remote_url l2) as [[e | [lp notes]] l3];
    [reflexivity |].
  unfold Io.bind at 1. unfold Io.lift at 1.
  destruct (Scraper.extract_table (Io.read_html w) html) as [e | [title df]];
    [reflexivity |].
  unfold Io.ret at 1.
  rewrite (surjective_pairing (Scraper.dataframe_to_rows df)).
  reflexivity.
Qed.

Lemma no_output_app (a b : list Io.event) :
  forallb (fun ev => negb (is_output ev)) (a ++ b) = true
  <-> forallb (fun ev => negb (is_output ev)) a = true
      /\ forallb (fun ev => negb (is_output ev)) b = true.
Proof. rewrite forallb_app. apply andb_true_iff. Qed.

Lemma no_output_existsb (evs : list Io.event) :
  forallb (fun ev => negb (is_output ev)) evs = true ->
  existsb is_output evs = false.
Proof.
  induction evs as [| ev evs IH]; cbn; [reflexivity |].
  intros H. apply andb_prop in H as [H1 H2].
  apply negb_true_iff in H1. now rewrite H1, IH.
Qed.

Lemma fetch_html_ok
    (w : Io.World) (session : Io.Session) (url html : string)
    (log : list Io.event) :
  fst (Io.fetch_html w session url log) = inr html ->
  exists resp,
    Io.get_result w log url = inr resp
    /\ Io.status_error resp = None /\ html = Io.text resp.
Proof.
  rewrite fetch_html_run. cbn [fst].
  destruct (Io.get_result w log url) as [e | resp]; [discriminate |].
  destruct (Io.status_error resp) eqn:Es; [discriminate |].
  intros [= <-]. now exists resp.
Qed.

(** A run of [main] in which the page is fetched and parsed, a table is
    extracted, and no operation other than a write of bytes fails. *)
Lemma main_run_ok
    (w : Io.World) (log : list Io.event) (resp : Io.Response)
    (soup : Bs4.Soup) (found : option string * option string)
    (title : option string) (df : Pandas.DataFrame) :
  (forall l ev, is_write_bytes ev = false -> Io.fs_error w l ev = None) ->
  Io.get_result w (log ++ mkdir_events (Io.script_dir w))%list (page_url_of w)
  = inr resp ->
  Io.status_error resp = None ->
  Io.make_soup w (Io.text resp) = inr soup ->
  Io.extract_graph (Io.urljoin w) soup (page_url_of w) = inr found ->
  Scraper.extract_table (Io.read_html w) (Io.text resp) = inr (title, df) ->
  let start :=
    (log ++ mkdir_events (Io.script_dir w) ++ [page_request w])%list in
  exists local_and_notes gevs,
    graph_step w (fst found) start
    = (inr local_and_notes, (start ++ gevs)%list)
    /\ Io.main w log
       = (inr tt,
          (start ++ gevs
           ++ save_events w (payload_of w found local_and_notes title df))%list).
Proof.
  intros Hok Hget Hstatus Hsoup Hfound Htable start.
  destruct (graph_step_run w (fst found) start)
    as (ln & gevs & Hstep & _).
  exists ln, gevs. split; [exact Hstep |].
  rewrite main_stages.
  destruct (ensure_dirs_run w (Io.script_dir w) log)
    as (evs & Hlog & _ & Hdirs & Hgood).
  specialize (Hgood Hok).
  destruct (Io.ensure_dirs w (Io.script_dir w) log) as [r l1].
  cbn [fst snd] in *. subst r l1.
  destruct (Hdirs _ eq_refl) as [_ ->].
  rewrite fetch_html_run, Hget, Hstatus, Hsoup, Hfound.
  unfold page_request in start.
  replace ((log ++ mkdir_events (Io.script_dir w))
           ++ [Io.Get (Io.headers (Io.get_session w)) (page_url_of w) 30])%list
    with start by (unfold start; now rewrite <- app_assoc).
  rewrite Hstep, Htable, (save_and_report_ok w _ _ Hok).
  now rewrite <- app_assoc.
Qed.

(** X17. When the page is fetched and parsed, the image search returns
    (no [urljoin] call raises), a table is extracted and no operation
    other than a write of image bytes fails, [main] ends normally whatever
    happens to the download of the image. It writes one and the same JSON
    text to "site/data/latest.json" and then to
    "site/data/history/<date>.json", the date being the part of the
    timestamp before "T", and no other text file; the saved table is the
    normalized selected table and its row count is the number of rows of
    that table. *)
Theorem main_saves_table :
  forall (w : Io.World) (log : list Io.event) (resp : Io.Response)
         (soup : Bs4.Soup) (found : option string * option string)
         (title : option string) (df : Pandas.DataFrame),
    (forall l ev, is_write_bytes ev = false -> Io.fs_error w l ev = None) ->
    Io.get_result w (log ++ mkdir_events (Io.script_dir w))%list
      (page_url_of w) = inr resp ->
    Io.status_error resp = None ->
    Io.make_soup w (Io.text resp) = inr soup ->
    Io.extract_graph (Io.urljoin w) soup (page_url_of w) = inr found ->
    Scraper.extract_table (Io.read_html w) (Io.text resp) = inr (title, df) ->
    exists (payload : Io.Payload) (before after : list Io.event),
      let dirs := site_dirs (Io.script_dir w) in
      let text := Io.json_dumps w payload ++ String "010" "" in
      Io.main w log
      = (inr tt,
         (log ++ before
          ++ [Io.WriteText (Io.div (Io.data dirs) "latest.json") text;
              Io.WriteText
                (Io.div (Io.history dirs)
                   (Io.before_first "T" (Io.utc_now w) ++ ".json"))
                text]
          ++ after)%list)
      /\ forallb (fun ev => negb (is_output ev)) before = true
      /\ (forall path data, ~ In (Io.WriteText path data) after)
      /\ Io.title (Io.table payload) = title
      /\ Io.columns (Io.table payload)
         = Scraper.flatten_columns (Pandas.columns df)
      /\ Io.rows (Io.table payload) = snd (Scraper.dataframe_to_rows df)
      /\ Io.row_count (Io.table payload) = Pandas.len df
      /\ Io.source_url payload = page_url_of w
      /\ Io.fetched_at payload = Io.utc_now w.
Proof.
  intros w log resp soup found title df Hok Hget Hstatus Hsoup Hfound Htable.
  destruct (main_run_ok w log resp soup found title df
              Hok Hget Hstatus Hsoup Hfound Htable)
    as (ln & gevs & Hstep & Hmain).
  cbn zeta in Hstep, Hmain.
  set (payload := payload_of w found ln title df) in *.
  destruct (graph_step_run w (fst found)
              (log ++ mkdir_events (Io.script_dir w) ++ [page_request w])%list)
    as (ln' & gevs' & Hstep' & Hout & _).
  rewrite Hstep in Hstep'. injection Hstep' as <- Hg.
  apply app_inv_head in Hg. subst gevs'.
  exists payload,
    (mkdir_events (Io.script_dir w) ++ [page_request w] ++ gevs)%list,
    (skipn 2 (save_events w payload)).
  cbn zeta. split; [| split; [| split]].
  - rewrite Hmain. unfold save_events. cbn [skipn app].
    rewrite <- !app_assoc. reflexivity.
  - apply no_output_app. split; [reflexivity |].
    apply no_output_app. split; [reflexivity | exact Hout].
  - intros path data Hin. unfold save_events in Hin. cbn [skipn app] in Hin.
    destruct Hin as [H | [H | [H | H]]]; try discriminate H.
    destruct (Io.local_path (Io.graph payload)) as [p |]; [| destruct H].
    destruct (Py.truthy p); [| destruct H].
    destruct H as [H | []]. discriminate H.
  - unfold payload, payload_of.
    cbn [Io.title Io.table Io.columns Io.rows Io.row_count Io.source_url
         Io.fetched_at].
    rewrite dataframe_to_rows_eq. cbn [fst snd].
    repeat split. unfold Pandas.len. now rewrite length_map.
Qed.

Lemma main_saves_table_witness :
  exists payload : Io.Payload,
    Io.row_count (Io.table payload) = 5
    /\ Io.columns (Io.table payload)
       = ["Pollster"; "Fieldwork dates"; "Con"; "Lab"].
Proof.
  destruct (main_saves_table sample_world []
              {| Io.status_error := None; Io.text := "<html>";
                 Io.content := "" |}
              tie_soup
              (Some "https://upload.example.org/first.svg", Some "graph")
              table_title polling_df)
    as (payload & before & after & _ & _ & _ & _ & Hcols & _ & Hcount & _).
  - intros l ev _. reflexivity.
  - reflexivity.
  - reflexivity.
  - reflexivity.
  - reflexivity.
  - reflexivity.
  - exists payload. split; [exact Hcount | exact Hcols].
Defined.

(** X18. Under the same conditions, the image search returning among
    them, the download of the image never stops [main], and the saved JSON
    tells what happened to it. Its remote URL and caption are those
    [extract_graph] returned. When there is no usable URL, nothing is
    requested beyond the page, the local path is null and the only note is
    "Graph image not found on page". Otherwise, when [download_graph]
    returns a path, that path is the local path and there is no note; when
    it raises, the local path is null and the only note is
    "Graph download failed: " followed by the message of the exception. *)
Theorem main_graph_degrades :
  forall (w : Io.World) (log : list Io.event) (resp : Io.Response)
         (soup : Bs4.Soup) (found : option string * option string)
         (title : option string) (df : Pandas.DataFrame),
    (forall l ev, is_write_bytes ev = false -> Io.fs_error w l ev = None) ->
    Io.get_result w (log ++ mkdir_events (Io.script_dir w))%list
      (page_url_of w) = inr resp ->
    Io.status_error resp = None ->
    Io.make_soup w (Io.text resp) = inr soup ->
    Io.extract_graph (Io.urljoin w) soup (page_url_of w) = inr found ->
    Scraper.extract_table (Io.read_html w) (Io.text resp) = inr (title, df) ->
    let start :=
      (log ++ mkdir_events (Io.script_dir w) ++ [page_request w])%list in
    exists (payload : Io.Payload) (gevs : list Io.event),
      Io.main w log
      = (inr tt, (start ++ gevs ++ save_events w payload)%list)
      /\ Io.remote_url (Io.graph payload) = fst found
      /\ Io.caption (Io.graph payload) = snd found
      /\ (List.length (Io.notes payload) <= 1)%nat
      /\ (Io.local_path (Io.graph payload) = None
          <-> Io.notes payload <> [])
      /\ (Py.truthy (Py.or_empty (fst found)) = false ->
          gevs = []
          /\ Io.local_path (Io.graph payload) = None
          /\ Io.notes payload = ["Graph image not found on page"])
      /\ (Py.truthy (Py.or_empty (fst found)) = true ->
          forall r log',
            Io.download_graph w (Io.get_session w) (Py.or_empty (fst found))
              (Io.assets (site_dirs (Io.script_dir w))) start = (r, log') ->
            log' = (start ++ gevs)%list
            /\ match r with
               | inr p =>
                   Io.local_path (Io.graph payload) = Some p
                   /\ Io.notes payload = []
               | inl e =>
                   Io.local_path (Io.graph payload) = None
                   /\ Io.notes payload
                      = ["Graph download failed: " ++ exn_msg e]
               end).
Proof.
  intros w log resp soup found title df Hok Hget Hstatus Hsoup Hfound Htable
    start.
  destruct (main_run_ok w log resp soup found title df
              Hok Hget Hstatus Hsoup Hfound Htable)
    as (ln & gevs & Hstep & Hmain).
  fold start in Hstep, Hmain.
  destruct (graph_step_run w (fst found) start)
    as (ln' & gevs' & Hstep' & _ & Hlen & Hnone & Hmissing & Hdown).
  rewrite Hstep in Hstep'. injection Hstep' as <- Hg.
  apply app_inv_head in Hg. subst gevs'.
  exists (payload_of w found ln title df), gevs.
  unfold payload_of at 2 3 4 5 6 7 8 9.
  cbn [Io.graph Io.notes Io.remote_url Io.caption Io.local_path].
  split; [exact Hmain |]. split; [reflexivity |]. split; [reflexivity |].
  split; [exact Hlen |]. split; [exact Hnone |]. split.
  - intros Hf. destruct (Hmissing Hf) as [-> ->]. now repeat split.
  - intros Ht r log' Hd. destruct (Hdown Ht r log' Hd) as [-> ->].
    split; [reflexivity |]. now destruct r.
Qed.

Lemma main_graph_degrades_witness :
  exists (payload : Io.Payload) (gevs : list Io.event),
    Io.main offline_world []
    = (inr tt,
       ([] ++ mkdir_events (Io.script_dir offline_world)
        ++ [page_request offline_world])
       ++ gevs ++ save_events offline_world payload)%list
    /\ Io.local_path (Io.graph payload) = None
    /\ Io.notes payload = ["Graph download failed: 404 Client Error"]
    /\ Io.remote_url (Io.graph payload)
       = Some "https://upload.example.org/first.svg".
Proof.
  destruct (main_graph_degrades offline_world []
              {| Io.status_error := None; Io.text := "<html>";
                 Io.content := "" |}
              tie_soup
              (Some "https://upload.example.org/first.svg", Some "graph")
              table_title polling_df)
    as (payload & gevs & Hmain & Hurl & _ & _ & _ & _ & Hdown).
  - intros l ev _. reflexivity.
  - reflexivity.
  - reflexivity.
  - reflexivity.
  - reflexivity.
  - reflexivity.
  - exists payload, gevs. split; [exact Hmain |].
    destruct (Hdown eq_refl _ _ (surjective_pairing _)) as [_ Hcase].
    cbn in Hcase. destruct Hcase as [Hlocal Hnotes].
    split; [exact Hlocal |]. split; [exact Hnotes | exact Hurl].
Defined.

(** X19. [main] never writes a JSON file and never prints unless the page
    was fetched with an acceptable status, parsed, and a table was
    extracted from it: in every run, whatever the world answers, a write
    of text or a print in the trace implies all of these. *)
Theorem main_no_output_without_table :
  forall (w : Io.World) (log : list Io.event),
    exists evs,
      snd (Io.main w log) = (log ++ evs)%list
      /\ (existsb is_output evs = true ->
          exists resp soup title df,
            Io.get_result w (log ++ mkdir_events (Io.script_dir w))%list
              (page_url_of w) = inr resp
            /\ Io.status_error resp = None
            /\ Io.make_soup w (Io.text resp) = inr soup
            /\ Scraper.extract_table (Io.read_html w) (Io.text resp)
               = inr (title, df)).
Proof.
  intros w log. rewrite main_stages.
  destruct (ensure_dirs_run w (Io.script_dir w) log)
    as (evs1 & Hlog1 & Hout1 & Hdirs & _).
  destruct (Io.ensure_dirs w (Io.script_dir w) log) as [[e | dirs] l1];
    cbn [fst snd] in *; subst l1.
  { exists evs1. split; [reflexivity |].
    rewrite (no_output_existsb _ Hout1). discriminate. }
  destruct (Hdirs dirs eq_refl) as [_ ->].
  pose proof (fetch_html_ok w (Io.get_session w) (page_url_of w)) as Hfetch.
  specialize (Hfetch) with (log := (log ++ mkdir_events (Io.script_dir w))%list).
  rewrite fetch_html_run in *. cbn [fst] in Hfetch.
  set (l2 := ((log ++ mkdir_events (Io.script_dir w))
              ++ [Io.Get (Io.headers (Io.get_session w)) (page_url_of w) 30])%list).
  assert (l2 = (log ++ (mkdir_events (Io.script_dir w) ++ [page_request w]))%list)
    as El2 by (unfold l2; now rewrite <- app_assoc).
  destruct (match Io.get_result w _ (page_url_of w) with
            | inl e => inl e
            | inr resp => _
            end) as [e | html] eqn:Eh.
  { eexists. split; [exact El2 |]. discriminate. }
  destruct (Hfetch html eq_refl) as (resp & Hget & Hstatus & ->).
  destruct (Io.make_soup w (Io.text resp)) as [e | soup] eqn:Hsoup.
  { eexists. split; [exact El2 |]. discriminate. }
  destruct (Io.extract_graph (Io.urljoin w) soup (page_url_of w))
    as [e | found] eqn:Hfound.
  { eexists. split; [exact El2 |]. discriminate. }
  destruct (graph_step_run w (fst found) l2) as (ln & gevs & -> & Hout2 & _).
  destruct (Scraper.extract_table (Io.read_html w) (Io.text resp))
    as [e | [title df]] eqn:Htable.
  { exists ((mkdir_events (Io.script_dir w) ++ [page_request w]) ++ gevs)%list.
    cbn [snd]. split; [now rewrite El2, <- app_assoc |].
    rewrite no_output_existsb; [discriminate |].
    apply no_output_app. split; [reflexivity | exact Hout2]. }
  destruct (save_and_report_appends w
              (payload_of w found ln title df) (l2 ++ gevs)%list)
    as (evs3 & ->).
  exists (((mkdir_events (Io.script_dir w) ++ [page_request w]) ++ gevs)
          ++ evs3)%list.
  split; [now rewrite El2, <- !app_assoc |].
  intros _. now exists resp, soup, title, df.
Qed.

Lemma main_no_output_without_table_witness :
  exists evs,
    snd (Io.main tableless_world []) = ([] ++ evs)%list
    /\ (existsb is_output evs = true -> False).
Proof.
  destruct (main_no_output_without_table tableless_world [])
    as (evs & Hlog & Himp).
  exists evs. split; [exact Hlog |]. intros Hex.
  destruct (Himp Hex) as (resp & soup & title & df & Hget & _ & _ & Htable).
  injection Hget as <-. vm_compute in Htable. discriminate Htable.
Defined.

(** X20. When the page is fetched and parsed, the image search returns
    (no [urljoin] call raises) and the table extraction raises, [main]
    raises that same exception, after the image step and before any JSON
    file is written or anything is printed: the image may already have
    been downloaded, nothing else is left behind. *)
Theorem main_table_error :
  forall (w : Io.World) (log : list Io.event) (resp : Io.Response)
         (soup : Bs4.Soup) (found : option string * option string)
         (e : exn),
    (forall l ev, is_write_bytes ev = false -> Io.fs_error w l ev = None) ->
    Io.get_result w (log ++ mkdir_events (Io.script_dir w))%list
      (page_url_of w) = inr resp ->
    Io.status_error resp = None ->
    Io.make_soup w (Io.text resp) = inr soup ->
    Io.extract_graph (Io.urljoin w) soup (page_url_of w) = inr found ->
    Scraper.extract_table (Io.read_html w) (Io.text resp) = inl e ->
    exists gevs,
      Io.main w log
      = (inl e,
         (log ++ mkdir_events (Io.script_dir w) ++ [page_request w]
          ++ gevs)%list)
      /\ forallb (fun ev => negb (is_output ev)) gevs = true.
Proof.
  intros w log resp soup found e Hok Hget Hstatus Hsoup Hfound Htable.
  rewrite main_stages.
  destruct (ensure_dirs_run w (Io.script_dir w) log)
    as (evs & Hlog & _ & Hdirs & Hgood).
  specialize (Hgood Hok).
  destruct (Io.ensure_dirs w (Io.script_dir w) log) as [r l1].
  cbn [fst snd] in *. subst r l1.
  destruct (Hdirs _ eq_refl) as [_ ->].
  rewrite fetch_html_run, Hget, Hstatus, Hsoup, Hfound.
  destruct (graph_step_run w (fst found)
              ((log ++ mkdir_events (Io.script_dir w))
               ++ [Io.Get (Io.headers (Io.get_session w)) (page_url_of w) 30]))
    as (ln & gevs & -> & Hout & _).
  rewrite Htable. exists gevs. split; [| exact Hout].
  unfold page_request. now rewrite <- !app_assoc.
Qed.

Lemma main_table_error_witness :
  exists gevs,
    Io.main tableless_world []
    = (inl NoConfidentTable,
       ([] ++ mkdir_events (Io.script_dir tableless_world)
        ++ [page_request tableless_world] ++ gevs)%list)
    /\ forallb (fun ev => negb (is_output ev)) gevs = true.
Proof.
  apply (main_table_error tableless_world []
           {| Io.status_error := None; Io.text := "<html>";
              Io.content := "" |} tie_soup
           (Some "https://upload.example.org/first.svg", Some "graph")
           NoConfidentTable).
  - intros l ev _. reflexivity.
  - reflexivity.
  - reflexivity.
  - reflexivity.
  - reflexivity.
  - reflexivity.
Defined.

(** X22. When the page is fetched and parsed and the image search raises,
    as it does when [urljoin] raises on the source of a qualifying
    container, [main] raises that same exception at once: the call is
    outside the try block, so nothing is downloaded, no table is
    extracted, no JSON file is written and nothing is printed; the trace
    holds the four directories and the request for the page only. *)
Theorem main_graph_search_error :
  forall (w : Io.World) (log : list Io.event) (resp : Io.Response)
         (soup : Bs4.Soup) (e : exn),
    (forall l ev, is_write_bytes ev = false -> Io.fs_error w l ev = None) ->
    Io.get_result w (log ++ mkdir_events (Io.script_dir w))%list
      (page_url_of w) = inr resp ->
    Io.status_error resp = None ->
    Io.make_soup w (Io.text resp) = inr soup ->
    Io.extract_graph (Io.urljoin w) soup (page_url_of w) = inl e ->
    Io.main w log
    = (inl e,
       (log ++ mkdir_events (Io.script_dir w) ++ [page_request w])%list).
Proof.
  intros w log resp soup e Hok Hget Hstatus Hsoup Hfound.
  rewrite main_stages.
  destruct (ensure_dirs_run w (Io.script_dir w) log)
    as (evs & Hlog & _ & Hdirs & Hgood).
  specialize (Hgood Hok).
  destruct (Io.ensure_dirs w (Io.script_dir w) log) as [r l1].
  cbn [fst snd] in *. subst r l1.
  destruct (Hdirs _ eq_refl) as [_ ->].
  rewrite fetch_html_run, Hget, Hstatus, Hsoup, Hfound.
  unfold page_request. now rewrite <- app_assoc.
Qed.

Lemma main_graph_search_error_witness :
  Io.main strict_world []
  = (inl (ValueError "Invalid IPv6 URL"),
     ([] ++ mkdir_events (Io.script_dir strict_world)
      ++ [page_request strict_world])%list).
Proof.
  apply (main_graph_search_error strict_world []
           {| Io.status_error := None; Io.text := "<html>";
              Io.content := "" |} malformed_soup
           (ValueError "Invalid IPv6 URL")).
  - intros l ev _. reflexivity.
  - reflexivity.
  - reflexivity.
  - reflexivity.
  - reflexivity.
Defined.
